(** * NodeDB: identity, configuration and peer catalog of a mesh node

    A shallow embedding of [src/mesh/NodeDB.cpp].  The C++ globals
    ([devicestate], [radioGeneration], [ourMacAddr], [channelName],
    [activePSK], [activePSKSize], [updateGUIforNode]) are the fields of one
    [State] record that every operation threads explicitly; the pointer
    [channelName] is held as what it points at, so that a write to the name
    of the channel settings shows through it; calls into other
    translation units (crypto engine, power state machine, observers, plugin
    dispatch, file system) are recorded in an event trace.

    Integers of fixed width are [Z] with the wrap-around written out
    ([u8], [u32], [s32]).  Sizes, counts and array indices are [nat].
    A character array is a [string].  An array that the source reads as a
    C string only (the channel name, the region and version texts) is held
    as its text.  The arrays of a [User], which [memcmp] reads byte by
    byte, are held with all their characters, where NULs at the end may be
    left out: [c_str] is the text a reader of the C string sees, [chars]
    are the bytes of the whole array.  Byte arrays are [list Z]. *)

From Stdlib Require Import ZArith Lia String Ascii List Bool.
From stdpp Require Import base list gmap strings.

Local Open Scope Z_scope.

(** ** Machine integers *)

Definition u8 (x : Z) : Z := x mod 256.
Definition u32 (x : Z) : Z := x mod 2 ^ 32.

(** [(int)x] for a [uint32_t] x: the two's complement reading. *)
Definition s32 (x : Z) : Z :=
  let y := u32 x in if y <? 2 ^ 31 then y else y - 2 ^ 32.

(** [memcpy(dst, src, n)] on byte buffers held as lists. *)
Definition memcpy (dst src : list Z) (n : nat) : list Z :=
  take n src ++ drop n dst.

(** ** Character arrays *)

(** The C string in a character array: the text ahead of the first NUL. *)
Fixpoint c_str (s : string) : string :=
  match s with
  | EmptyString => EmptyString
  | String c rest =>
      if Ascii.eqb c Ascii.zero then EmptyString else String c (c_str rest)
  end.

Fixpoint bytes_of_string (s : string) : list Z :=
  match s with
  | EmptyString => []
  | String c rest => Z.of_N (N_of_ascii c) :: bytes_of_string rest
  end.

(** The bytes of a character array of [size] bytes with the content [s]:
    what [memcmp] over the array reads, the text, its terminator and
    whatever lies behind it. *)
Definition chars (size : nat) (s : string) : list Z :=
  take size (bytes_of_string s ++ replicate size 0).

(** ** Records of the generated protobuf header

    [mesh.pb.h] is not among the sources; the records below carry the fields
    that [NodeDB.cpp] reads or writes, under the names it uses, each prefixed
    by its struct. *)

Record Position := mkPosition {
  Position_latitude_i : Z;
  Position_longitude_i : Z;
  Position_time : Z
}.

Record User := mkUser {
  User_id : string;          (* char id[..], with all its characters *)
  User_long_name : string;   (* char long_name[..], likewise *)
  User_short_name : string;  (* char short_name[..], likewise *)
  User_macaddr : list Z
}.

Record NodeInfo := mkNodeInfo {
  NodeInfo_num : Z;
  NodeInfo_has_user : bool;
  NodeInfo_user : User;
  NodeInfo_has_position : bool;
  NodeInfo_position : Position;
  NodeInfo_snr : Z
}.

(** [pb_bytes_array]: a size and a fixed buffer. *)
Record PskBytes := mkPsk {
  psk_size : nat;
  psk_bytes : list Z
}.

Record ChannelSettings := mkChannelSettings {
  ChannelSettings_tx_power : Z;
  ChannelSettings_modem_config : Z;
  ChannelSettings_psk : PskBytes;
  ChannelSettings_name : string;
  ChannelSettings_bandwidth : Z
}.

Record UserPreferences := mkUserPreferences {
  Pref_position_broadcast_secs : Z;
  Pref_wait_bluetooth_secs : Z;
  Pref_screen_on_secs : Z;
  Pref_ls_secs : Z;
  Pref_region : Z;
  Pref_factory_reset : bool
}.

Record RadioConfig := mkRadioConfig {
  RadioConfig_has_preferences : bool;
  RadioConfig_preferences : UserPreferences;
  RadioConfig_has_channel_settings : bool;
  RadioConfig_channel_settings : ChannelSettings
}.

Record MyNodeInfo := mkMyNodeInfo {
  MyNodeInfo_my_node_num : Z;
  MyNodeInfo_has_gps : bool;
  MyNodeInfo_region : string;
  MyNodeInfo_hw_model : string;
  MyNodeInfo_firmware_version : string;
  MyNodeInfo_error_code : Z;
  MyNodeInfo_error_address : Z;
  MyNodeInfo_error_count : Z;
  MyNodeInfo_packet_id_bits : Z;
  MyNodeInfo_node_num_bits : Z;
  MyNodeInfo_message_timeout_msec : Z;
  MyNodeInfo_min_app_version : Z
}.

Record DeviceState := mkDeviceState {
  DeviceState_has_radio : bool;
  DeviceState_radio : RadioConfig;
  DeviceState_has_my_node : bool;
  DeviceState_my_node : MyNodeInfo;
  DeviceState_has_owner : bool;
  DeviceState_owner : User;
  DeviceState_node_db_count : nat;
  DeviceState_node_db : list NodeInfo;
  DeviceState_receive_queue_count : nat;
  DeviceState_version : Z;
  DeviceState_no_save : bool
}.

#[global] Instance Position_eq_dec : EqDecision Position.
Proof. solve_decision. Defined.
#[global] Instance User_eq_dec : EqDecision User.
Proof. solve_decision. Defined.
#[global] Instance NodeInfo_eq_dec : EqDecision NodeInfo.
Proof. solve_decision. Defined.

(** Enumerators of the generated header, with the values protobuf gives
    them (the first enumerator is the zero that [memset] leaves). *)
Definition ChannelSettings_ModemConfig_Bw125Cr45Sf128 : Z := 0.
Definition ChannelSettings_ModemConfig_Bw500Cr45Sf128 : Z := 1.
Definition ChannelSettings_ModemConfig_Bw31_25Cr48Sf512 : Z := 2.
Definition ChannelSettings_ModemConfig_Bw125Cr48Sf4096 : Z := 3.
Definition RegionCode_Unset : Z := 0.
Definition RegionCode_TW : Z := 8.

(** Capacities of the byte buffers: [activePSK] is declared with 32 bytes in
    the source, and the psk field of the channel settings has as many. *)
Definition PSK_CAPACITY : nat := 32.
Definition MACADDR_SIZE : nat := 6.

(** ** What [memset(.., 0, ..)] leaves *)

Definition zero_Position : Position := mkPosition 0 0 0.
Definition zero_User : User := mkUser "" "" "" (replicate MACADDR_SIZE 0).
Definition zero_NodeInfo : NodeInfo :=
  mkNodeInfo 0 false zero_User false zero_Position 0.
Definition zero_PskBytes : PskBytes := mkPsk 0 (replicate PSK_CAPACITY 0).
Definition zero_ChannelSettings : ChannelSettings :=
  mkChannelSettings 0 0 zero_PskBytes "" 0.
Definition zero_UserPreferences : UserPreferences :=
  mkUserPreferences 0 0 0 0 0 false.
Definition zero_RadioConfig : RadioConfig :=
  mkRadioConfig false zero_UserPreferences false zero_ChannelSettings.
Definition zero_MyNodeInfo : MyNodeInfo :=
  mkMyNodeInfo 0 false "" "" "" 0 0 0 0 0 0 0.
Definition zero_DeviceState (capacity : nat) : DeviceState :=
  mkDeviceState false zero_RadioConfig false zero_MyNodeInfo false zero_User
                0 (replicate capacity zero_NodeInfo) 0 0 false.

(** ** Field updates *)

Definition set_NodeInfo_user (u : User) (n : NodeInfo) : NodeInfo :=
  mkNodeInfo (NodeInfo_num n) (NodeInfo_has_user n) u
             (NodeInfo_has_position n) (NodeInfo_position n) (NodeInfo_snr n).
Definition set_NodeInfo_has_user (b : bool) (n : NodeInfo) : NodeInfo :=
  mkNodeInfo (NodeInfo_num n) b (NodeInfo_user n)
             (NodeInfo_has_position n) (NodeInfo_position n) (NodeInfo_snr n).
Definition set_NodeInfo_position (p : Position) (n : NodeInfo) : NodeInfo :=
  mkNodeInfo (NodeInfo_num n) (NodeInfo_has_user n) (NodeInfo_user n)
             (NodeInfo_has_position n) p (NodeInfo_snr n).
Definition set_NodeInfo_has_position (b : bool) (n : NodeInfo) : NodeInfo :=
  mkNodeInfo (NodeInfo_num n) (NodeInfo_has_user n) (NodeInfo_user n)
             b (NodeInfo_position n) (NodeInfo_snr n).
Definition set_NodeInfo_snr (x : Z) (n : NodeInfo) : NodeInfo :=
  mkNodeInfo (NodeInfo_num n) (NodeInfo_has_user n) (NodeInfo_user n)
             (NodeInfo_has_position n) (NodeInfo_position n) x.
Definition set_NodeInfo_num (x : Z) (n : NodeInfo) : NodeInfo :=
  mkNodeInfo x (NodeInfo_has_user n) (NodeInfo_user n)
             (NodeInfo_has_position n) (NodeInfo_position n) (NodeInfo_snr n).
Definition set_Position_time (t : Z) (p : Position) : Position :=
  mkPosition (Position_latitude_i p) (Position_longitude_i p) t.

Definition set_psk (k : PskBytes) (c : ChannelSettings) : ChannelSettings :=
  mkChannelSettings (ChannelSettings_tx_power c) (ChannelSettings_modem_config c)
                    k (ChannelSettings_name c) (ChannelSettings_bandwidth c).
Definition set_name (x : string) (c : ChannelSettings) : ChannelSettings :=
  mkChannelSettings (ChannelSettings_tx_power c) (ChannelSettings_modem_config c)
                    (ChannelSettings_psk c) x (ChannelSettings_bandwidth c).
Definition set_modem_config (x : Z) (c : ChannelSettings) : ChannelSettings :=
  mkChannelSettings (ChannelSettings_tx_power c) x
                    (ChannelSettings_psk c) (ChannelSettings_name c)
                    (ChannelSettings_bandwidth c).
Definition set_tx_power (x : Z) (c : ChannelSettings) : ChannelSettings :=
  mkChannelSettings x (ChannelSettings_modem_config c)
                    (ChannelSettings_psk c) (ChannelSettings_name c)
                    (ChannelSettings_bandwidth c).

Definition set_Pref_region (x : Z) (p : UserPreferences) : UserPreferences :=
  mkUserPreferences (Pref_position_broadcast_secs p) (Pref_wait_bluetooth_secs p)
                    (Pref_screen_on_secs p) (Pref_ls_secs p) x
                    (Pref_factory_reset p).

Definition upd_preferences (f : UserPreferences -> UserPreferences)
    (r : RadioConfig) : RadioConfig :=
  mkRadioConfig (RadioConfig_has_preferences r) (f (RadioConfig_preferences r))
                (RadioConfig_has_channel_settings r)
                (RadioConfig_channel_settings r).
Definition upd_channel_settings (f : ChannelSettings -> ChannelSettings)
    (r : RadioConfig) : RadioConfig :=
  mkRadioConfig (RadioConfig_has_preferences r) (RadioConfig_preferences r)
                (RadioConfig_has_channel_settings r)
                (f (RadioConfig_channel_settings r)).
Definition set_radio_flags (hp hc : bool) (r : RadioConfig) : RadioConfig :=
  mkRadioConfig hp (RadioConfig_preferences r) hc
                (RadioConfig_channel_settings r).

Definition set_my_node_num (x : Z) (m : MyNodeInfo) : MyNodeInfo :=
  mkMyNodeInfo x (MyNodeInfo_has_gps m) (MyNodeInfo_region m)
    (MyNodeInfo_hw_model m) (MyNodeInfo_firmware_version m)
    (MyNodeInfo_error_code m) (MyNodeInfo_error_address m)
    (MyNodeInfo_error_count m) (MyNodeInfo_packet_id_bits m)
    (MyNodeInfo_node_num_bits m) (MyNodeInfo_message_timeout_msec m)
    (MyNodeInfo_min_app_version m).
Definition set_has_gps (b : bool) (m : MyNodeInfo) : MyNodeInfo :=
  mkMyNodeInfo (MyNodeInfo_my_node_num m) b (MyNodeInfo_region m)
    (MyNodeInfo_hw_model m) (MyNodeInfo_firmware_version m)
    (MyNodeInfo_error_code m) (MyNodeInfo_error_address m)
    (MyNodeInfo_error_count m) (MyNodeInfo_packet_id_bits m)
    (MyNodeInfo_node_num_bits m) (MyNodeInfo_message_timeout_msec m)
    (MyNodeInfo_min_app_version m).
Definition set_MyNodeInfo_region (x : string) (m : MyNodeInfo) : MyNodeInfo :=
  mkMyNodeInfo (MyNodeInfo_my_node_num m) (MyNodeInfo_has_gps m) x
    (MyNodeInfo_hw_model m) (MyNodeInfo_firmware_version m)
    (MyNodeInfo_error_code m) (MyNodeInfo_error_address m)
    (MyNodeInfo_error_count m) (MyNodeInfo_packet_id_bits m)
    (MyNodeInfo_node_num_bits m) (MyNodeInfo_message_timeout_msec m)
    (MyNodeInfo_min_app_version m).
Definition set_message_timeout_msec (x : Z) (m : MyNodeInfo) : MyNodeInfo :=
  mkMyNodeInfo (MyNodeInfo_my_node_num m) (MyNodeInfo_has_gps m)
    (MyNodeInfo_region m)
    (MyNodeInfo_hw_model m) (MyNodeInfo_firmware_version m)
    (MyNodeInfo_error_code m) (MyNodeInfo_error_address m)
    (MyNodeInfo_error_count m) (MyNodeInfo_packet_id_bits m)
    (MyNodeInfo_node_num_bits m) x
    (MyNodeInfo_min_app_version m).

Definition upd_radio (f : RadioConfig -> RadioConfig) (d : DeviceState)
    : DeviceState :=
  mkDeviceState (DeviceState_has_radio d) (f (DeviceState_radio d))
    (DeviceState_has_my_node d) (DeviceState_my_node d)
    (DeviceState_has_owner d) (DeviceState_owner d)
    (DeviceState_node_db_count d) (DeviceState_node_db d)
    (DeviceState_receive_queue_count d) (DeviceState_version d)
    (DeviceState_no_save d).
Definition upd_my_node (f : MyNodeInfo -> MyNodeInfo) (d : DeviceState)
    : DeviceState :=
  mkDeviceState (DeviceState_has_radio d) (DeviceState_radio d)
    (DeviceState_has_my_node d) (f (DeviceState_my_node d))
    (DeviceState_has_owner d) (DeviceState_owner d)
    (DeviceState_node_db_count d) (DeviceState_node_db d)
    (DeviceState_receive_queue_count d) (DeviceState_version d)
    (DeviceState_no_save d).
Definition upd_owner (f : User -> User) (d : DeviceState) : DeviceState :=
  mkDeviceState (DeviceState_has_radio d) (DeviceState_radio d)
    (DeviceState_has_my_node d) (DeviceState_my_node d)
    (DeviceState_has_owner d) (f (DeviceState_owner d))
    (DeviceState_node_db_count d) (DeviceState_node_db d)
    (DeviceState_receive_queue_count d) (DeviceState_version d)
    (DeviceState_no_save d).
Definition set_node_db (c : nat) (l : list NodeInfo) (d : DeviceState)
    : DeviceState :=
  mkDeviceState (DeviceState_has_radio d) (DeviceState_radio d)
    (DeviceState_has_my_node d) (DeviceState_my_node d)
    (DeviceState_has_owner d) (DeviceState_owner d)
    c l
    (DeviceState_receive_queue_count d) (DeviceState_version d)
    (DeviceState_no_save d).
Definition set_has_flags (hr hm ho : bool) (d : DeviceState) : DeviceState :=
  mkDeviceState hr (DeviceState_radio d) hm (DeviceState_my_node d)
    ho (DeviceState_owner d)
    (DeviceState_node_db_count d) (DeviceState_node_db d)
    (DeviceState_receive_queue_count d) (DeviceState_version d)
    (DeviceState_no_save d).
Definition set_receive_queue_count (c : nat) (d : DeviceState) : DeviceState :=
  mkDeviceState (DeviceState_has_radio d) (DeviceState_radio d)
    (DeviceState_has_my_node d) (DeviceState_my_node d)
    (DeviceState_has_owner d) (DeviceState_owner d)
    (DeviceState_node_db_count d) (DeviceState_node_db d)
    c (DeviceState_version d) (DeviceState_no_save d).
Definition set_version (v : Z) (d : DeviceState) : DeviceState :=
  mkDeviceState (DeviceState_has_radio d) (DeviceState_radio d)
    (DeviceState_has_my_node d) (DeviceState_my_node d)
    (DeviceState_has_owner d) (DeviceState_owner d)
    (DeviceState_node_db_count d) (DeviceState_node_db d)
    (DeviceState_receive_queue_count d) v (DeviceState_no_save d).

(** Shorthands for the references [radioConfig], [channelSettings],
    [myNodeInfo] and [owner] into [devicestate]. *)
Definition channelSettings_of (d : DeviceState) : ChannelSettings :=
  RadioConfig_channel_settings (DeviceState_radio d).
Definition preferences_of (d : DeviceState) : UserPreferences :=
  RadioConfig_preferences (DeviceState_radio d).
Definition upd_channelSettings (f : ChannelSettings -> ChannelSettings)
    : DeviceState -> DeviceState :=
  upd_radio (upd_channel_settings f).
Definition upd_prefs (f : UserPreferences -> UserPreferences)
    : DeviceState -> DeviceState :=
  upd_radio (upd_preferences f).

(** ** Mesh packets

    The tagged unions of the packet ([which_payload] plus a union) are
    inductive types. *)

Inductive SubPacketPayload :=
| SubPacket_position (p : Position)
| SubPacket_data (payload : list Z)
| SubPacket_user (u : User)
| SubPacket_other.

Inductive MeshPacketPayload :=
| MeshPacket_decoded (p : SubPacketPayload)
| MeshPacket_encrypted (bytes : list Z).

Record MeshPacket := mkMeshPacket {
  MeshPacket_from : Z;
  MeshPacket_to : Z;
  MeshPacket_payload : MeshPacketPayload;
  MeshPacket_rx_time : Z;
  MeshPacket_rx_snr : Z
}.

(** ** Calls that leave the translation unit *)

Inductive FsOp :=
| FsOpenRead (path : string)
| FsOpenWrite (path : string)
| FsWrite (path : string) (bytes : list Z)
| FsClose (path : string)
| FsRemove (path : string)
| FsRename (src dst : string).

Inductive Event :=
| EvSetKey (len : nat) (key : list Z)      (* crypto->setKey *)
| EvInitRegion                            (* initRegion() *)
| EvGeneratePacketId                      (* generatePacketId() *)
| EvPowerTrigger_NODEDB_UPDATED           (* powerFSM.trigger(EVENT_NODEDB_UPDATED) *)
| EvNotifyObservers (forceUpdate : bool)  (* notifyObservers(..) *)
| EvCallPlugins (mp : MeshPacket)         (* MeshPlugin::callPlugins *)
| EvFs (op : FsOp) (ok : bool).

(** ** The program state *)

(** What the pointer [channelName] points at: the name field of the channel
    settings, or a string literal of the source. *)
Inductive NameRef :=
| Name_of_settings
| Name_literal (text : string).

Record State := mkState {
  devicestate : DeviceState;
  radioGeneration : Z;
  ourMacAddr : list Z;
  channelNamePtr : NameRef;        (* what [channelName] points at *)
  activePSK : list Z;
  activePSKSize : nat;
  updateGUIforNode : option nat;   (* index of the record pointed to *)
  random_calls : nat;              (* draws taken from [random] so far *)
  fs : gmap string (list Z);       (* files of the flash file system *)
  trace : list Event
}.

Definition upd_devicestate (f : DeviceState -> DeviceState) (s : State) : State :=
  mkState (f (devicestate s)) (radioGeneration s) (ourMacAddr s) (channelNamePtr s)
          (activePSK s) (activePSKSize s) (updateGUIforNode s) (random_calls s)
          (fs s) (trace s).
Definition set_radioGeneration (x : Z) (s : State) : State :=
  mkState (devicestate s) x (ourMacAddr s) (channelNamePtr s)
          (activePSK s) (activePSKSize s) (updateGUIforNode s) (random_calls s)
          (fs s) (trace s).
Definition set_ourMacAddr (x : list Z) (s : State) : State :=
  mkState (devicestate s) (radioGeneration s) x (channelNamePtr s)
          (activePSK s) (activePSKSize s) (updateGUIforNode s) (random_calls s)
          (fs s) (trace s).
Definition set_channelName (x : NameRef) (s : State) : State :=
  mkState (devicestate s) (radioGeneration s) (ourMacAddr s) x
          (activePSK s) (activePSKSize s) (updateGUIforNode s) (random_calls s)
          (fs s) (trace s).
Definition set_activePSK (k : list Z) (n : nat) (s : State) : State :=
  mkState (devicestate s) (radioGeneration s) (ourMacAddr s) (channelNamePtr s)
          k n (updateGUIforNode s) (random_calls s) (fs s) (trace s).
Definition set_updateGUIforNode (x : option nat) (s : State) : State :=
  mkState (devicestate s) (radioGeneration s) (ourMacAddr s) (channelNamePtr s)
          (activePSK s) (activePSKSize s) x (random_calls s) (fs s) (trace s).
Definition set_random_calls (x : nat) (s : State) : State :=
  mkState (devicestate s) (radioGeneration s) (ourMacAddr s) (channelNamePtr s)
          (activePSK s) (activePSKSize s) (updateGUIforNode s) x (fs s) (trace s).
Definition set_fs (x : gmap string (list Z)) (s : State) : State :=
  mkState (devicestate s) (radioGeneration s) (ourMacAddr s) (channelNamePtr s)
          (activePSK s) (activePSKSize s) (updateGUIforNode s) (random_calls s)
          x (trace s).
Definition emit (e : Event) (s : State) : State :=
  mkState (devicestate s) (radioGeneration s) (ourMacAddr s) (channelNamePtr s)
          (activePSK s) (activePSKSize s) (updateGUIforNode s) (random_calls s)
          (fs s) (trace s ++ [e]).

(** The characters that [channelName] points at. *)
Definition channelName (s : State) : string :=
  match channelNamePtr s with
  | Name_of_settings => ChannelSettings_name (channelSettings_of (devicestate s))
  | Name_literal text => text
  end.

(** ** A state monad with two ways to stop early

    [AssertFailed] is a failed [assert]; [OutOfFuel] is a loop or a call
    chain cut off by the bound the caller gave. *)

Inductive outcome (A : Type) : Type :=
| Done (a : A) (s : State)
| AssertFailed
| OutOfFuel.
Arguments Done {A} a s.
Arguments AssertFailed {A}.
Arguments OutOfFuel {A}.

Definition M (A : Type) : Type := State -> outcome A.

Definition ret {A} (a : A) : M A := fun s => Done a s.
Definition bind {A B} (m : M A) (k : A -> M B) : M B :=
  fun s => match m s with
           | Done a s' => k a s'
           | AssertFailed => AssertFailed
           | OutOfFuel => OutOfFuel
           end.
Definition gets {A} (f : State -> A) : M A := fun s => Done (f s) s.
Definition modify (f : State -> State) : M unit := fun s => Done tt (f s).
Definition assert (b : bool) : M unit :=
  fun s => if b then Done tt s else AssertFailed.
Definition when (b : bool) (m : M unit) : M unit := if b then m else ret tt.

Declare Scope nodedb_scope.
Delimit Scope nodedb_scope with nodedb.
Notation "x <- c ;; k" := (bind c (fun x => k))
  (at level 100, c at next level, right associativity) : nodedb_scope.
Notation "c ;;; k" := (bind c (fun _ => k))
  (at level 100, right associativity) : nodedb_scope.
Local Open Scope nodedb_scope.

Definition returns {A} (o : outcome A) : Prop :=
  match o with Done _ _ => True | _ => False end.

(** ** Constants of the source *)

Definition DEVICESTATE_CUR_VER : Z := 11.
Definition DEVICESTATE_MIN_VER : Z := DEVICESTATE_CUR_VER.
Definition NUM_RESERVED : Z := 4.
Definition NUM_ONLINE_SECS : Z := 60 * 2.
Definition preffile : string := "/db.proto".
Definition preftmp : string := "/db.proto.tmp".

(** 16 bytes of PSK for the public default channel. *)
Definition defaultpsk : list Z :=
  [0xd4; 0xf1; 0xbb; 0x3a; 0x20; 0x29; 0x07; 0x59;
   0xf0; 0xbc; 0xff; 0xab; 0xcf; 0x4e; 0x69; 0xbf].

(** ** Formatting *)

Definition ascii_of_Z (c : Z) : ascii := ascii_of_N (Z.to_N (u8 c)).

Definition hexdigit (upper : bool) (d : Z) : ascii :=
  if d <? 10 then ascii_of_Z (48 + d)
  else ascii_of_Z ((if upper then 55 else 87) + d).

(** ["%02x"] and ["%02X"] of a value below 256. *)
Definition fmt_02x (upper : bool) (b : Z) : string :=
  String (hexdigit upper (b / 16)) (String (hexdigit upper (b mod 16)) EmptyString).

(** [snprintf(buf, size, ..)]: what lands in [buf] ahead of the terminator,
    at most [size - 1] characters of the formatted text. *)
Definition snprintf (size : nat) (formatted : string) : string :=
  substring 0 (size - 1) formatted.

(** [sprintf(dst, ..)] into a character array that is held with all its
    characters: the formatted text and its terminator take the place of
    the first characters, and what lies behind them stays. *)
Definition sprintf (dst text : string) : string :=
  let n := S (String.length text) in
  if (n <? String.length dst)%nat
  then text +:+ String Ascii.zero (substring n (String.length dst - n) dst)
  else text.

Definition byte_at (i : nat) (l : list Z) : Z := nth i l 0.

(** ** The platform: everything the translation unit gets from outside

    The three constants and the sizes of the character arrays of [User]
    come from headers that are not among the sources; the functions are
    those of the hardware, of Arduino, of nanopb and of the file system. *)

Record Platform := mkPlatform {
  NODENUM_BROADCAST : Z;          (* the broadcast node number *)
  MAX_NUM_NODES : nat;            (* slots of the node table *)
  FLOOD_EXPIRE_TIME : Z;          (* default of message_timeout_msec *)
  getMacAddr : list Z;            (* the hardware address, 6 bytes *)
  random : nat -> Z -> Z -> Z;    (* result of the k-th call random(lo, hi) *)
  pb_encode : DeviceState -> list Z * bool;
                                  (* bytes handed to the stream, and success *)
  pb_decode : list Z -> DeviceState -> DeviceState * bool;
                                  (* decoding into a struct, and success *)
  fs_fault : FsOp -> bool;        (* operations the file system refuses *)
  sizeof_User_id : nat;           (* sizeof(User::id) *)
  sizeof_User_long_name : nat;    (* sizeof(User::long_name) *)
  sizeof_User_short_name : nat    (* sizeof(User::short_name) *)
}.

Section NodeDB.

Variable hw : Platform.

(** *** ChannelConfigManager *)

(** Lines 179-194 of [resetRadioConfig]: the short single byte variants of
    the psk become a key that can be used generally.  The result is the new
    content of [activePSK] and the new [activePSKSize]. *)
Definition expandPSK (psk : PskBytes) (active : list Z) : list Z * nat :=
  let active1 := memcpy active (psk_bytes psk) (psk_size psk) in
  let size1 := (psk_size psk mod 256)%nat in       (* uint8_t activePSKSize *)
  if (size1 =? 1)%nat then
    let pskIndex := byte_at 0 active1 in
    if pskIndex =? 0 then (active1, 0%nat)          (* Turn off encryption *)
    else
      let active2 := memcpy active1 defaultpsk (length defaultpsk) in
      let last := (length defaultpsk - 1)%nat in
      (<[last := u8 (byte_at last active2 + pskIndex - 1)]> active2,
       length defaultpsk)
  else (active1, size1).

(** The key the crypto engine is given: the first [activePSKSize] bytes. *)
Definition liveKey (s : State) : list Z := take (activePSKSize s) (activePSK s).

(** Lines 145-170 of [resetRadioConfig]: [channelName] is pointed at the
    name of the channel settings, and at a literal when that name is
    empty. *)
Definition resolveChannelRef (cs : ChannelSettings) : NameRef :=
  if bool_decide (ChannelSettings_name cs = EmptyString) then
    if negb (ChannelSettings_bandwidth cs =? 0) then Name_literal "Unset"
    else
      let mc := ChannelSettings_modem_config cs in
      if mc =? ChannelSettings_ModemConfig_Bw125Cr45Sf128 then Name_literal "Medium"
      else if mc =? ChannelSettings_ModemConfig_Bw500Cr45Sf128 then Name_literal "ShortFast"
      else if mc =? ChannelSettings_ModemConfig_Bw31_25Cr48Sf512 then Name_literal "LongAlt"
      else if mc =? ChannelSettings_ModemConfig_Bw125Cr48Sf4096 then Name_literal "LongSlow"
      else Name_literal "Invalid"
  else Name_of_settings.

(** The branch [else if (!channelSettings.psk.size)]. *)
Definition setDefaultPreferences (d : DeviceState) : DeviceState :=
  upd_channelSettings
    (fun cs =>
       set_name EmptyString
         (set_psk (mkPsk 1 (<[0%nat := 1]> (psk_bytes (ChannelSettings_psk cs))))
            (set_tx_power 0
               (set_modem_config ChannelSettings_ModemConfig_Bw125Cr48Sf4096 cs))))
    (upd_radio (set_radio_flags true true) d).

(** Any old usage of the defaultpsk becomes the short representation. *)
Definition shortenDefaultPsk (cs : ChannelSettings) : ChannelSettings :=
  let psk := ChannelSettings_psk cs in
  if ((psk_size psk =? length defaultpsk)%nat
      && bool_decide (take (length defaultpsk) (psk_bytes psk) = defaultpsk))%bool
  then set_psk (mkPsk 1 (<[0%nat := 1]> (psk_bytes psk))) cs
  else cs.

(** The development mode overrides. *)
Definition developmentPreferences (p : UserPreferences) : UserPreferences :=
  mkUserPreferences (6 * 60) 10 10 60 RegionCode_TW (Pref_factory_reset p).

(** The second half of [resetRadioConfig], from the conversion of the old
    name "Default" to the call of [initRegion]. *)
Definition resetRadioConfig_tail : M unit :=
  name <- gets (fun s => ChannelSettings_name (channelSettings_of (devicestate s)));;
  when (bool_decide (name = "Default"%string))
       (modify (upd_devicestate (upd_channelSettings (set_name EmptyString))));;;
  modify (fun s => set_channelName (resolveChannelRef (channelSettings_of (devicestate s))) s);;;
  modify (upd_devicestate (upd_channelSettings shortenDefaultPsk));;;
  modify (fun s =>
            let expanded :=
              expandPSK (ChannelSettings_psk (channelSettings_of (devicestate s)))
                        (activePSK s) in
            set_activePSK (fst expanded) (snd expanded) s);;;
  modify (fun s => emit (EvSetKey (activePSKSize s) (activePSK s)) s);;;
  no_save <- gets (fun s => DeviceState_no_save (devicestate s));;
  when no_save (modify (upd_devicestate (upd_prefs developmentPreferences)));;;
  modify (emit EvInitRegion).

(** [resetRadioConfig], with the call of [installDefaultDeviceState] left
    open: the two functions call each other. *)
Definition resetRadioConfig_with (install : M unit) : M bool :=
  modify (fun s => set_radioGeneration (u32 (radioGeneration s + 1)) s);;;
  factory_reset <- gets (fun s => Pref_factory_reset (preferences_of (devicestate s)));;
  didFactoryReset <-
    (if factory_reset : bool then
       install;;; ret true
     else
       size <- gets (fun s => psk_size (ChannelSettings_psk (channelSettings_of (devicestate s))));;
       when (size =? 0)%nat (modify (upd_devicestate setDefaultPreferences));;;
       ret false);;
  resetRadioConfig_tail;;;
  ret didFactoryReset.

(** [getChannelName]: the suffix character, and the C string that the
    caller finds in the static buffer: ["%s"] prints the text of
    [channelName], and the result ends ahead of a NUL that ["%c"] wrote. *)
Definition channelSuffix (s : State) : Z :=
  let psk := ChannelSettings_psk (channelSettings_of (devicestate s)) in
  if negb (psk_size psk =? 1)%nat then
    let code := fold_left (fun code b => u8 (Z.lxor code b)) (liveKey s) 0 in
    u8 (65 + code mod 26)
  else u8 (48 + byte_at 0 (psk_bytes psk)).

Definition getChannelName : M string :=
  fun s =>
    Done (c_str
            (snprintf 32
               ("#" +:+ c_str (channelName s) +:+ "-" +:+
                String (ascii_of_Z (channelSuffix s)) EmptyString)))
         s.

(** *** NodeCatalog *)

Fixpoint scanNodes (n : Z) (i : nat) (l : list NodeInfo) : option nat :=
  match l with
  | [] => None
  | x :: l' => if NodeInfo_num x =? n then Some i else scanNodes n (S i) l'
  end.

(** The occupied part of the table: [nodes[0 .. *numNodes)]. *)
Definition liveNodes (d : DeviceState) : list NodeInfo :=
  take (DeviceState_node_db_count d) (DeviceState_node_db d).

(** [getNode]: the index of the first occupied slot with that number. *)
Definition getNode (n : Z) (s : State) : option nat :=
  scanNodes n 0 (liveNodes (devicestate s)).

Definition nodeAt (i : nat) (s : State) : NodeInfo :=
  default zero_NodeInfo (DeviceState_node_db (devicestate s) !! i).

Definition upd_node (i : nat) (f : NodeInfo -> NodeInfo) (s : State) : State :=
  upd_devicestate
    (fun d => set_node_db (DeviceState_node_db_count d)
                          (<[i := f (nodeAt i s)]> (DeviceState_node_db d)) d)
    s.

Definition getOrCreateNode (n : Z) : M nat :=
  info <- gets (getNode n);;
  match info with
  | Some i => ret i
  | None =>
      count <- gets (fun s => DeviceState_node_db_count (devicestate s));;
      assert (count <? MAX_NUM_NODES hw)%nat;;;
      modify (upd_devicestate
                (fun d => set_node_db (S count)
                            (<[count := set_NodeInfo_num n zero_NodeInfo]>
                               (DeviceState_node_db d)) d));;;
      ret count
  end.

Definition notifyObservers (forceUpdate : bool) : M unit :=
  modify (emit (EvNotifyObservers forceUpdate)).

Definition updatePosition (nodeId : Z) (p : Position) : M unit :=
  info <- getOrCreateNode nodeId;;
  modify (upd_node info (set_NodeInfo_position p));;;
  modify (upd_node info (set_NodeInfo_has_position true));;;
  modify (set_updateGUIforNode (Some info));;;
  notifyObservers true.

(** The bytes of a [User] struct, field after field. *)
Definition User_bytes (u : User) : list Z :=
  chars (sizeof_User_id hw) (User_id u)
  ++ chars (sizeof_User_long_name hw) (User_long_name u)
  ++ chars (sizeof_User_short_name hw) (User_short_name u)
  ++ take MACADDR_SIZE (User_macaddr u ++ replicate MACADDR_SIZE 0).

(** [memcmp(&a, &b, sizeof(User))] as a truth value: some byte differs. *)
Definition User_memcmp (a b : User) : bool :=
  bool_decide (User_bytes a <> User_bytes b).

Definition updateUser (nodeId : Z) (p : User) : M unit :=
  info <- getOrCreateNode nodeId;;
  changed <- gets (fun s => User_memcmp (NodeInfo_user (nodeAt info s)) p);;
  modify (upd_node info (set_NodeInfo_user p));;;
  modify (upd_node info (set_NodeInfo_has_user true));;;
  when changed
    (modify (set_updateGUIforNode (Some info));;;
     modify (emit EvPowerTrigger_NODEDB_UPDATED);;;
     notifyObservers true).

Definition getNodeNum (s : State) : Z :=
  MyNodeInfo_my_node_num (DeviceState_my_node (devicestate s)).

Definition updateFrom (mp : MeshPacket) : M unit :=
  match MeshPacket_payload mp with
  | MeshPacket_decoded p =>
      info <- getOrCreateNode (MeshPacket_from mp);;
      when (negb (MeshPacket_rx_time mp =? 0))
        (modify (upd_node info (set_NodeInfo_has_position true));;;
         modify (upd_node info
                   (fun nd => set_NodeInfo_position
                                (set_Position_time (MeshPacket_rx_time mp)
                                                   (NodeInfo_position nd)) nd)));;;
      modify (upd_node info (set_NodeInfo_snr (MeshPacket_rx_snr mp)));;;
      match p with
      | SubPacket_position pos => updatePosition (MeshPacket_from mp) pos
      | SubPacket_data _ =>
          me <- gets getNodeNum;;
          when ((MeshPacket_to mp =? NODENUM_BROADCAST hw)
                || (MeshPacket_to mp =? me))%bool
               (modify (emit (EvCallPlugins mp)))
      | SubPacket_user u => updateUser (MeshPacket_from mp) u
      | SubPacket_other => notifyObservers false
      end
  | MeshPacket_encrypted _ => ret tt
  end.

(** Seconds in the past (against [now], the value of [getTime()]) that the
    node was last heard. *)
Definition sinceLastSeen (now : Z) (n : NodeInfo) : Z :=
  let last_seen := Position_time (NodeInfo_position n) in
  let delta := s32 (now - last_seen) in
  let delta := if delta <? 0 then 0 else delta in
  u32 delta.

Definition getNumOnlineNodes (now : Z) (s : State) : nat :=
  fold_left
    (fun numseen nd =>
       if sinceLastSeen now nd <? NUM_ONLINE_SECS then S numseen else numseen)
    (liveNodes (devicestate s)) 0%nat.

(** *** NodeNumberAllocator *)

(** The [while] loop of [pickNewNodeNum]; [retries] bounds how many times
    its body may run. *)
Fixpoint pickLoop (retries : nat) (r : Z) : M Z :=
  fun s =>
    match getNode r s with
    | Some found =>
        if bool_decide (User_macaddr (NodeInfo_user (nodeAt found s))
                        <> User_macaddr (DeviceState_owner (devicestate s)))
        then
          match retries with
          | O => OutOfFuel
          | S k =>
              let n := u32 (random hw (random_calls s) NUM_RESERVED
                                   (NODENUM_BROADCAST hw)) in
              pickLoop k n (set_random_calls (S (random_calls s)) s)
          end
        else Done r s
    | None => Done r s
    end.

Definition macNodeNum (mac : list Z) : Z :=
  u32 (Z.lor (Z.lor (Z.lor (Z.shiftl (byte_at 2 mac) 24)
                           (Z.shiftl (byte_at 3 mac) 16))
                    (Z.shiftl (byte_at 4 mac) 8))
             (byte_at 5 mac)).

(** The starting candidate: the stored number, or one made of the macaddr,
    moved off the reserved numbers. *)
Definition startNodeNum (stored : Z) (mac : list Z) : Z :=
  let r := if stored =? 0 then macNodeNum mac else stored in
  if ((r =? NODENUM_BROADCAST hw) || (r <? NUM_RESERVED))%bool
  then NUM_RESERVED else r.

Definition pickNewNodeNum (retries : nat) : M unit :=
  stored <- gets getNodeNum;;
  mac <- gets ourMacAddr;;
  r <- pickLoop retries (startNodeNum stored mac);;
  modify (upd_devicestate (upd_my_node (set_my_node_num r))).

(** *** DeviceStateStore *)

Definition ownerId (mac : list Z) : string :=
  "!" +:+ fmt_02x false (byte_at 0 mac) +:+ fmt_02x false (byte_at 1 mac)
      +:+ fmt_02x false (byte_at 2 mac) +:+ fmt_02x false (byte_at 3 mac)
      +:+ fmt_02x false (byte_at 4 mac) +:+ fmt_02x false (byte_at 5 mac).

Definition installDefaultDeviceState_with (retries : nat) (reset : M bool)
    : M unit :=
  oldRegion <- gets (fun s => MyNodeInfo_region (DeviceState_my_node (devicestate s)));;
  oldRegionCode <- gets (fun s => Pref_region (preferences_of (devicestate s)));;
  modify (upd_devicestate (fun _ => zero_DeviceState (MAX_NUM_NODES hw)));;;
  modify (upd_devicestate
            (fun d => set_node_db 0 (DeviceState_node_db d) d));;;
  modify (upd_devicestate
            (fun d => set_receive_queue_count 0
                        (set_node_db 0 (DeviceState_node_db d)
                           (upd_radio (set_radio_flags true true)
                              (set_has_flags true true true d)))));;;
  _ <- reset;;
  modify (upd_devicestate
            (upd_my_node (fun m => set_message_timeout_msec (FLOOD_EXPIRE_TIME hw)
                                     (set_has_gps false m))));;;
  modify (emit EvGeneratePacketId);;;
  modify (set_ourMacAddr (getMacAddr hw));;;
  mac <- gets ourMacAddr;;
  modify (upd_devicestate
            (upd_owner (fun o => mkUser (sprintf (User_id o) (ownerId mac))
                                        (User_long_name o)
                                        (User_short_name o)
                                        (take MACADDR_SIZE mac))));;;
  pickNewNodeNum retries;;;
  me <- gets getNodeNum;;
  modify (upd_devicestate
            (upd_owner (fun o =>
               mkUser (User_id o)
                      (sprintf (User_long_name o)
                         ("Unknown " +:+ fmt_02x false (byte_at 4 mac)
                                     +:+ fmt_02x false (byte_at 5 mac)))
                      (sprintf (User_short_name o)
                         ("?" +:+ fmt_02x true (Z.land me 0xff)))
                      (User_macaddr o))));;;
  when (negb (oldRegionCode =? RegionCode_Unset))
       (modify (upd_devicestate (upd_prefs (set_Pref_region oldRegionCode))));;;
  when (negb (bool_decide (oldRegion = EmptyString)))
       (modify (upd_devicestate (upd_my_node (set_MyNodeInfo_region oldRegion)))).

(** The two mutually recursive functions; [depth] bounds the nesting of
    their calls. *)
Fixpoint resetRadioConfig (retries depth : nat) : M bool :=
  resetRadioConfig_with
    (match depth with
     | O => fun _ => OutOfFuel
     | S d => installDefaultDeviceState_with retries (resetRadioConfig retries d)
     end).

Definition installDefaultDeviceState (retries depth : nat) : M unit :=
  installDefaultDeviceState_with retries (resetRadioConfig retries depth).

(** File system calls. *)
Definition FS_open_read (path : string) : M (option (list Z)) :=
  fun s =>
    match fs s !! path with
    | Some content =>
        if fs_fault hw (FsOpenRead path)
        then Done None (emit (EvFs (FsOpenRead path) false) s)
        else Done (Some content) (emit (EvFs (FsOpenRead path) true) s)
    | None => Done None (emit (EvFs (FsOpenRead path) false) s)
    end.

Definition FS_open_write (path : string) : M bool :=
  fun s =>
    if fs_fault hw (FsOpenWrite path)
    then Done false (emit (EvFs (FsOpenWrite path) false) s)
    else Done true (emit (EvFs (FsOpenWrite path) true)
                         (set_fs (<[path := []]> (fs s)) s)).

Definition FS_write (path : string) (bytes : list Z) : M unit :=
  modify (fun s => emit (EvFs (FsWrite path bytes) true)
                        (set_fs (alter (fun old => old ++ bytes) path (fs s)) s)).

Definition FS_close (path : string) : M unit :=
  modify (emit (EvFs (FsClose path) true)).

Definition FS_remove (path : string) : M bool :=
  fun s =>
    if (negb (fs_fault hw (FsRemove path)) && bool_decide (is_Some (fs s !! path)))%bool
    then Done true (emit (EvFs (FsRemove path) true)
                         (set_fs (delete path (fs s)) s))
    else Done false (emit (EvFs (FsRemove path) false) s).

Definition FS_rename (src dst : string) : M bool :=
  fun s =>
    match fs s !! src with
    | Some content =>
        if fs_fault hw (FsRename src dst)
        then Done false (emit (EvFs (FsRename src dst) false) s)
        else Done true (emit (EvFs (FsRename src dst) true)
                             (set_fs (<[dst := content]> (delete src (fs s))) s))
    | None => Done false (emit (EvFs (FsRename src dst) false) s)
    end.

Definition loadFromDisk (retries depth : nat) : M unit :=
  f <- FS_open_read preffile;;
  match f with
  | Some blob =>
      modify (upd_devicestate (fun _ => zero_DeviceState (MAX_NUM_NODES hw)));;;
      d <- gets devicestate;;
      let '(d', ok) := pb_decode hw blob d in
      modify (upd_devicestate (fun _ => d'));;;
      (if negb ok then installDefaultDeviceState retries depth
       else if DeviceState_version d' <? DEVICESTATE_MIN_VER
            then installDefaultDeviceState retries depth
            else ret tt);;;
      FS_close preffile
  | None => ret tt
  end.

Definition saveToDisk : M unit :=
  no_save <- gets (fun s => DeviceState_no_save (devicestate s));;
  if negb no_save then
    f <- FS_open_write preftmp;;
    if f : bool then
      modify (upd_devicestate (set_version DEVICESTATE_CUR_VER));;;
      d <- gets devicestate;;
      let '(bytes, ok) := pb_encode hw d in
      FS_write preftmp bytes;;;
      if negb ok then FS_close preftmp
      else
        FS_close preftmp;;;
        _ <- FS_remove preffile;;
        _ <- FS_rename preftmp preffile;;
        ret tt
    else ret tt
  else ret tt.

End NodeDB.


(** ** The rest of the translation unit *)

(** Build flags and tables that the translation unit takes from the build:
    the version strings, the sizes of the character arrays they are copied
    into, the width of a packet id, and the entries of the [regions] table
    (region code and name) up to its [RegionCode_Unset] terminator. *)
Record Build := mkBuild {
  HW_VERSION : string;             (* empty when the build gives none *)
  APP_VERSION : string;
  HW_VENDOR : string;
  sizeof_PacketId : Z;
  sizeof_region : nat;             (* sizeof(myNodeInfo.region) *)
  sizeof_firmware_version : nat;   (* sizeof(myNodeInfo.firmware_version) *)
  sizeof_hw_model : nat;           (* sizeof(myNodeInfo.hw_model) *)
  regions : list (Z * string)
}.

(** A node number has four bytes: the allocator packs four MAC bytes
    into it. *)
Definition sizeof_NodeNum : Z := 4.
Definition CriticalErrorCode_None : Z := 0.

(** [strncpy(dst, src, n)] into a character array, as text. *)
Definition strncpy (src : string) (n : nat) : string := substring 0 n src.

Definition set_hw_model (x : string) (m : MyNodeInfo) : MyNodeInfo :=
  mkMyNodeInfo (MyNodeInfo_my_node_num m) (MyNodeInfo_has_gps m)
    (MyNodeInfo_region m) x (MyNodeInfo_firmware_version m)
    (MyNodeInfo_error_code m) (MyNodeInfo_error_address m)
    (MyNodeInfo_error_count m) (MyNodeInfo_packet_id_bits m)
    (MyNodeInfo_node_num_bits m) (MyNodeInfo_message_timeout_msec m)
    (MyNodeInfo_min_app_version m).
Definition set_firmware_version (x : string) (m : MyNodeInfo) : MyNodeInfo :=
  mkMyNodeInfo (MyNodeInfo_my_node_num m) (MyNodeInfo_has_gps m)
    (MyNodeInfo_region m) (MyNodeInfo_hw_model m) x
    (MyNodeInfo_error_code m) (MyNodeInfo_error_address m)
    (MyNodeInfo_error_count m) (MyNodeInfo_packet_id_bits m)
    (MyNodeInfo_node_num_bits m) (MyNodeInfo_message_timeout_msec m)
    (MyNodeInfo_min_app_version m).
Definition set_error (code address count : Z) (m : MyNodeInfo) : MyNodeInfo :=
  mkMyNodeInfo (MyNodeInfo_my_node_num m) (MyNodeInfo_has_gps m)
    (MyNodeInfo_region m) (MyNodeInfo_hw_model m) (MyNodeInfo_firmware_version m)
    code address count (MyNodeInfo_packet_id_bits m)
    (MyNodeInfo_node_num_bits m) (MyNodeInfo_message_timeout_msec m)
    (MyNodeInfo_min_app_version m).
Definition set_id_bits (node_num_bits packet_id_bits : Z) (m : MyNodeInfo)
    : MyNodeInfo :=
  mkMyNodeInfo (MyNodeInfo_my_node_num m) (MyNodeInfo_has_gps m)
    (MyNodeInfo_region m) (MyNodeInfo_hw_model m) (MyNodeInfo_firmware_version m)
    (MyNodeInfo_error_code m) (MyNodeInfo_error_address m)
    (MyNodeInfo_error_count m) packet_id_bits node_num_bits
    (MyNodeInfo_message_timeout_msec m) (MyNodeInfo_min_app_version m).
Definition set_min_app_version (x : Z) (m : MyNodeInfo) : MyNodeInfo :=
  mkMyNodeInfo (MyNodeInfo_my_node_num m) (MyNodeInfo_has_gps m)
    (MyNodeInfo_region m) (MyNodeInfo_hw_model m) (MyNodeInfo_firmware_version m)
    (MyNodeInfo_error_code m) (MyNodeInfo_error_address m)
    (MyNodeInfo_error_count m) (MyNodeInfo_packet_id_bits m)
    (MyNodeInfo_node_num_bits m) (MyNodeInfo_message_timeout_msec m) x.

(** The loop over [regions] in [init]: the code of the first entry ahead of
    the terminator whose name is the given one. *)
Fixpoint findRegion (regionStr : string) (table : list (Z * string)) : option Z :=
  match table with
  | [] => None
  | (code, name) :: rest =>
      if code =? RegionCode_Unset then None
      else if bool_decide (name = regionStr) then Some code
      else findRegion regionStr rest
  end.

(** [readNextInfo]: [readPointer], a member of the class, is passed in and
    handed back; the result is the slot read, if any. *)
Definition readNextInfo (readPointer : nat) (s : State) : option nat * nat :=
  if (readPointer <? DeviceState_node_db_count (devicestate s))%nat
  then (Some readPointer, S readPointer)
  else (None, readPointer).

(** A reader that calls [readNextInfo] [calls] times and collects the slots
    it was given. *)
Fixpoint readInfos (calls : nat) (readPointer : nat) (s : State) : list nat * nat :=
  match calls with
  | O => ([], readPointer)
  | S k =>
      match readNextInfo readPointer s with
      | (Some i, rp) => let '(rest, rp') := readInfos k rp s in (i :: rest, rp')
      | (None, rp) => readInfos k rp s
      end
  end.

Definition recordCriticalError (code address : Z) : M unit :=
  modify (upd_devicestate
            (upd_my_node
               (fun m => set_error code address
                           (u32 (MyNodeInfo_error_count m + 1)) m))).

Section Init.

Variable hw : Platform.
Variable build : Build.

(** The legacy region strings look like "1.0-EU433". *)
Definition convertLegacyRegion : M unit :=
  code <- gets (fun s => Pref_region (preferences_of (devicestate s)));;
  region <- gets (fun s => MyNodeInfo_region (DeviceState_my_node (devicestate s)));;
  if ((code =? RegionCode_Unset) && String.prefix "1.0-" region)%bool then
    match findRegion (substring 4 (String.length region - 4) region)
                     (regions build) with
    | Some c => modify (upd_devicestate (upd_prefs (set_Pref_region c)))
    | None => ret tt
    end
  else ret tt.

Definition init (retries depth : nat) : M unit :=
  installDefaultDeviceState hw retries depth;;;
  loadFromDisk hw retries depth;;;
  modify (upd_devicestate
            (upd_my_node (set_id_bits (sizeof_NodeNum * 8)
                                      (sizeof_PacketId build * 8))));;;
  modify (upd_devicestate
            (upd_my_node (fun m => set_error CriticalErrorCode_None 0
                                     (MyNodeInfo_error_count m) m)));;;
  modify (upd_devicestate (upd_my_node (set_min_app_version 20120)));;;
  pickNewNodeNum hw retries;;;
  me <- gets getNodeNum;;
  info <- getOrCreateNode hw me;;
  owner <- gets (fun s => DeviceState_owner (devicestate s));;
  modify (upd_node info (set_NodeInfo_user owner));;;
  modify (upd_node info (set_NodeInfo_has_user true));;;
  when (negb (bool_decide (HW_VERSION build = EmptyString)))
       (modify (upd_devicestate
                  (upd_my_node
                     (set_MyNodeInfo_region
                        (strncpy (HW_VERSION build) (sizeof_region build))))));;;
  convertLegacyRegion;;;
  modify (upd_devicestate
            (upd_my_node
               (set_firmware_version
                  (strncpy (APP_VERSION build) (sizeof_firmware_version build)))));;;
  modify (upd_devicestate
            (upd_my_node
               (set_hw_model (strncpy (HW_VENDOR build) (sizeof_hw_model build)))));;;
  _ <- resetRadioConfig hw retries depth;;
  ret tt.

End Init.
(** * Vocabulary of the statements *)

Definition stateOf {A} (o : outcome A) (dflt : State) : State :=
  match o with Done _ s => s | _ => dflt end.

Definition psk_of (d : DeviceState) : PskBytes :=
  ChannelSettings_psk (channelSettings_of d).

(** The text that [channelName] shows once [resetRadioConfig] has pointed
    it: the name of the channel settings, or the literal that stands in for
    an empty name. *)
Definition resolveChannelName (cs : ChannelSettings) : string :=
  let name := ChannelSettings_name cs in
  if bool_decide (name = EmptyString) then
    if negb (ChannelSettings_bandwidth cs =? 0) then "Unset"%string
    else
      let mc := ChannelSettings_modem_config cs in
      if mc =? ChannelSettings_ModemConfig_Bw125Cr45Sf128 then "Medium"%string
      else if mc =? ChannelSettings_ModemConfig_Bw500Cr45Sf128 then "ShortFast"%string
      else if mc =? ChannelSettings_ModemConfig_Bw31_25Cr48Sf512 then "LongAlt"%string
      else if mc =? ChannelSettings_ModemConfig_Bw125Cr48Sf4096 then "LongSlow"%string
      else "Invalid"%string
  else name.

(** A psk field as the array type allows it. *)
Definition wf_psk (psk : PskBytes) : Prop :=
  length (psk_bytes psk) = PSK_CAPACITY /\ (psk_size psk <= PSK_CAPACITY)%nat.

(** The live key that belongs to a stored psk. *)
Definition expandedKey (psk : PskBytes) : list Z :=
  if (psk_size psk =? 1)%nat then
    if byte_at 0 (psk_bytes psk) =? 0 then []
    else take 15 defaultpsk ++ [u8 (0xbf + byte_at 0 (psk_bytes psk) - 1)]
  else take (psk_size psk) (psk_bytes psk).

(** The effect of [resetRadioConfig_tail] on [devicestate]. *)
Definition tail_devicestate (d : DeviceState) : DeviceState :=
  let d1 := if bool_decide (ChannelSettings_name (channelSettings_of d) = "Default"%string)
            then upd_channelSettings (set_name EmptyString) d else d in
  let d2 := upd_channelSettings shortenDefaultPsk d1 in
  if DeviceState_no_save d2 then upd_prefs developmentPreferences d2 else d2.

(** What [installDefaultDeviceState] leaves in [devicestate] when no region
    was configured before. *)
Definition defaultDeviceState (hw : Platform) : DeviceState :=
  let mac := getMacAddr hw in
  let num := startNodeNum hw 0 mac in
  mkDeviceState
    true
    (mkRadioConfig true zero_UserPreferences true
       (mkChannelSettings 0 ChannelSettings_ModemConfig_Bw125Cr48Sf4096
          (mkPsk 1 (1 :: replicate 31 0)) EmptyString 0))
    true
    (mkMyNodeInfo num false "" "" "" 0 0 0 0 0 (FLOOD_EXPIRE_TIME hw) 0)
    true
    (mkUser (ownerId mac)
            ("Unknown " +:+ fmt_02x false (byte_at 4 mac)
                        +:+ fmt_02x false (byte_at 5 mac))
            ("?" +:+ fmt_02x true (Z.land num 0xff))
            (take MACADDR_SIZE mac))
    0 (replicate (MAX_NUM_NODES hw) zero_NodeInfo) 0 0 false.

(** The region setting kept over the wipe. *)
Definition keepRegion (code : Z) (region : string) (d : DeviceState) : DeviceState :=
  let d := if negb (code =? RegionCode_Unset)
           then upd_prefs (set_Pref_region code) d else d in
  if negb (bool_decide (region = EmptyString))
  then upd_my_node (set_MyNodeInfo_region region) d else d.

(** The state before [NodeDB::init]: statically allocated storage is zero;
    [channelName] is held as pointing at an empty text until
    [resetRadioConfig] sets it. *)
Definition bootState (hw : Platform) : State :=
  mkState (zero_DeviceState (MAX_NUM_NODES hw)) 0 (replicate MACADDR_SIZE 0)
          (Name_literal EmptyString) (replicate PSK_CAPACITY 0) 0 None 0 ∅ [].

(** A platform to run the functions on: broadcast is [UINT32_MAX], the
    table has four slots, the random source counts up from its lower bound and wraps,
    the encoder writes the version byte, the decoder rejects every blob and
    the file system refuses nothing; the character arrays of a user have
    16, 40 and 5 bytes. *)
Definition demo_hw : Platform :=
  mkPlatform 0xFFFFFFFF 4 600000 [0x24; 0x6f; 0x28; 0xab; 0xcd; 0xef]
             (fun k lo hi => lo + Z.of_nat k mod (hi - lo))
             (fun d => ([DeviceState_version d], true))
             (fun blob d => (d, false))
             (fun _ => false)
             16 40 5.

(** The boot state with a channel key given. *)
Definition withPsk (psk : PskBytes) (s : State) : State :=
  upd_devicestate (upd_channelSettings (set_psk psk)) s.

(** The XOR of all bytes of a key. *)
Definition xorBytes (key : list Z) : Z := fold_left Z.lxor key 0.

(** The suffix character of the channel name, as a character code. *)
Definition suffixCode (s : State) : Z :=
  let psk := psk_of (devicestate s) in
  if (psk_size psk =? 1)%nat
  then (48 + byte_at 0 (psk_bytes psk)) mod 256
  else 65 + u8 (xorBytes (liveKey s)) mod 26.


(** The record [installDefaultDeviceState] synthesizes on a fresh device. *)
Definition synthesizedDefaults (hw : Platform) : DeviceState :=
  devicestate (stateOf (installDefaultDeviceState hw 0 0 (bootState hw))
                       (bootState hw)).


(** The boot state with files on the flash. *)
Definition withFiles (files : gmap string (list Z)) (s : State) : State :=
  set_fs files s.

(** A platform whose file system refuses to open any file for writing. *)
Definition readonly_hw : Platform :=
  mkPlatform 0xFFFFFFFF 4 600000 [0x24; 0x6f; 0x28; 0xab; 0xcd; 0xef]
             (fun k lo hi => lo + Z.of_nat k mod (hi - lo))
             (fun d => ([DeviceState_version d], true))
             (fun blob d => (d, false))
             (fun op => match op with FsOpenWrite _ => true | _ => false end)
             16 40 5.

(** The outcome of [FS.remove] and of [FS.rename] during a save. *)
Definition removeResult (hw : Platform) (s : State) : bool :=
  negb (fs_fault hw (FsRemove preffile)) && bool_decide (is_Some (fs s !! preffile)).
Definition renameResult (hw : Platform) : bool :=
  negb (fs_fault hw (FsRename preftmp preffile)).

(** ** The peer table *)

(** The table as the array type has it: [MAX_NUM_NODES] slots, of which
    [*numNodes] are occupied. *)
Definition wf_table (hw : Platform) (s : State) : Prop :=
  length (DeviceState_node_db (devicestate s)) = MAX_NUM_NODES hw
  /\ (DeviceState_node_db_count (devicestate s) <= MAX_NUM_NODES hw)%nat.

(** What the [assert] of [getOrCreateNode] asks for: the node is known, or
    a slot is free. *)
Definition hasRoom (hw : Platform) (n : Z) (s : State) : Prop :=
  is_Some (getNode n s)
  \/ (DeviceState_node_db_count (devicestate s) < MAX_NUM_NODES hw)%nat.

(** The keys of the occupied slots, in table order. *)
Definition liveNums (s : State) : list Z :=
  NodeInfo_num <$> liveNodes (devicestate s).

(** The keys after an upsert of [n]. *)
Definition numsAfter (n : Z) (s : State) : list Z :=
  match getNode n s with
  | Some _ => liveNums s
  | None => liveNums s ++ [n]
  end.

(** The state after a zeroed record with key [n] went into the next free
    slot. *)
Definition appendNode (n : Z) (s : State) : State :=
  upd_devicestate
    (fun d => set_node_db (S (DeviceState_node_db_count d))
                (<[DeviceState_node_db_count d := set_NodeInfo_num n zero_NodeInfo]>
                   (DeviceState_node_db d)) d)
    s.

(** The user payload stored for [n]: that of its record, or the zeroed one
    of the record an upsert creates. *)
Definition storedUser (n : Z) (s : State) : User :=
  match getNode n s with
  | Some i => NodeInfo_user (nodeAt i s)
  | None => zero_User
  end.

(** No occupied slot is keyed by 0 or by the broadcast number. *)
Definition validKey (hw : Platform) (n : Z) : Prop :=
  n <> 0 /\ n <> NODENUM_BROADCAST hw.
Definition validKeys (hw : Platform) (s : State) : Prop :=
  Forall (validKey hw) (liveNums s).

(** The boot state with the given records in the first slots. *)
Definition withNodes (hw : Platform) (nodes : list NodeInfo) (s : State) : State :=
  upd_devicestate
    (set_node_db (length nodes)
       (nodes ++ replicate (MAX_NUM_NODES hw - length nodes) zero_NodeInfo))
    s.

(** The state in which [updateFrom] dispatches on the payload kind: the
    sender's record [i] carries the receipt time, when there is one, and
    the link quality. *)
Definition heardFrom (mp : MeshPacket) (i : nat) (s1 : State) : State :=
  upd_node i (set_NodeInfo_snr (MeshPacket_rx_snr mp))
    (if negb (MeshPacket_rx_time mp =? 0)
     then upd_node i
            (fun nd => set_NodeInfo_position
                         (set_Position_time (MeshPacket_rx_time mp)
                                            (NodeInfo_position nd)) nd)
            (upd_node i (set_NodeInfo_has_position true) s1)
     else s1).

Definition userA : User :=
  mkUser "!246f28aabbcc" "Alice" "Al" [0x24; 0x6f; 0x28; 0xaa; 0xbb; 0xcc].

(** The two structs agree byte for byte: [memcmp] over them gives 0. *)
Definition sameBytes (hw : Platform) (a b : User) : Prop :=
  User_bytes hw a = User_bytes hw b.

(** [userA] with one more byte behind the terminator of the long name: the
    texts are those of [userA], the bytes are not. *)
Definition userA_behind : User :=
  mkUser "!246f28aabbcc" ("Alice" +:+ String Ascii.zero "x") "Al"
         [0x24; 0x6f; 0x28; 0xaa; 0xbb; 0xcc].

(** An application packet from node 0x42 to node 0x77. *)
Definition dataPacket : MeshPacket :=
  mkMeshPacket 0x42 0x77 (MeshPacket_decoded (SubPacket_data [1; 2; 3])) 1000 7.

(** A packet whose sender field is 0. *)
Definition zeroSenderPacket : MeshPacket :=
  mkMeshPacket 0 0xFFFFFFFF (MeshPacket_decoded (SubPacket_data [1])) 1000 7.

(** ** Liveness *)

(** The elapsed time as the description has it, over the integers. *)
Definition claimedElapsed (now : Z) (nd : NodeInfo) : Z :=
  Z.max 0 (now - Position_time (NodeInfo_position nd)).

(** The online count as the description has it. *)
Definition claimedOnlineCount (now : Z) (s : State) : nat :=
  length (filter (fun nd => claimedElapsed now nd < 120)
                 (liveNodes (devicestate s))).

(** The difference of the two clocks fits a signed 32 bit integer. *)
Definition clocksClose (now : Z) (nd : NodeInfo) : Prop :=
  - 2 ^ 31 <= now - Position_time (NodeInfo_position nd) < 2 ^ 31.

Definition nodeSeenAt (num time : Z) : NodeInfo :=
  mkNodeInfo num false zero_User true (mkPosition 0 0 time) 0.

(** ** Node numbers *)

(** The test of the [while] loop of [pickNewNodeNum]. *)
Definition collides (r : Z) (s : State) : bool :=
  match getNode r s with
  | Some found =>
      bool_decide (User_macaddr (NodeInfo_user (nodeAt found s))
                   <> User_macaddr (DeviceState_owner (devicestate s)))
  | None => false
  end.

(** The i-th candidate of a run that starts with [r] after [calls] draws. *)
Fixpoint nthCandidate (hw : Platform) (calls : nat) (r : Z) (i : nat) : Z :=
  match i with
  | O => r
  | S j => nthCandidate hw (S calls)
             (u32 (random hw calls NUM_RESERVED (NODENUM_BROADCAST hw))) j
  end.

(** What is asked of [random(lo, hi)]: a value from lo to hi - 1. *)
Definition randomInRange (hw : Platform) : Prop :=
  forall i, NUM_RESERVED <= random hw i NUM_RESERVED (NODENUM_BROADCAST hw)
            < NODENUM_BROADCAST hw.

Definition nodeWithMac (num : Z) (mac : list Z) : NodeInfo :=
  mkNodeInfo num true (mkUser "" "" "" mac) false zero_Position 0.

(** A platform whose random source returns its lower bound every time. *)
Definition stuck_hw : Platform :=
  mkPlatform 0xFFFFFFFF 4 600000 [0x24; 0x6f; 0x28; 0xab; 0xcd; 0xef]
             (fun k lo hi => lo)
             (fun d => ([DeviceState_version d], true))
             (fun blob d => (d, false))
             (fun _ => false)
             16 40 5.

(** A legacy position packet from node 0x42, received at time 5000. *)
Definition positionPacket : MeshPacket :=
  mkMeshPacket 0x42 0xFFFFFFFF
    (MeshPacket_decoded (SubPacket_position (mkPosition 10 20 4990))) 5000 7.

(** * Vocabulary of the further properties *)

(** The conversion of the old name "Default". *)
Definition dropDefaultName (cs : ChannelSettings) : ChannelSettings :=
  if bool_decide (ChannelSettings_name cs = "Default"%string)
  then set_name EmptyString cs else cs.

(** A state with the given channel settings and preferences, on the
    demonstration platform. *)
Definition radioState (cs : ChannelSettings) (prefs : UserPreferences)
    (no_save : bool) : State :=
  upd_devicestate
    (fun d =>
       mkDeviceState true (mkRadioConfig true prefs true cs)
         true (DeviceState_my_node d) true (DeviceState_owner d)
         (DeviceState_node_db_count d) (DeviceState_node_db d)
         (DeviceState_receive_queue_count d) (DeviceState_version d) no_save)
    (bootState demo_hw).

(** The 16 byte default key stored in full, as older records have it. *)
Definition legacyDefaultPsk : PskBytes :=
  mkPsk 16 (defaultpsk ++ replicate 16 0).

(** The text [getChannelName] formats, before it is cut to the buffer. *)
Definition fullChannelText (s : State) : string :=
  ("#" +:+ c_str (channelName s) +:+ "-" +:+
   String (ascii_of_Z (suffixCode s)) EmptyString)%string.

(** A platform with a codec that keeps the version: the encoder writes the
    version byte and the decoder reads it back into the struct. *)
Definition codec_hw : Platform :=
  mkPlatform 0xFFFFFFFF 4 600000 [0x24; 0x6f; 0x28; 0xab; 0xcd; 0xef]
             (fun k lo hi => lo + Z.of_nat k mod (hi - lo))
             (fun d => ([DeviceState_version d], true))
             (fun blob d => (set_version (hd 0 blob) d, true))
             (fun _ => false)
             16 40 5.

(** A record keeps its number, and a flag that is set stays set. *)
Definition recordGrows (a b : NodeInfo) : Prop :=
  NodeInfo_num b = NodeInfo_num a
  /\ (NodeInfo_has_user a = true -> NodeInfo_has_user b = true)
  /\ (NodeInfo_has_position a = true -> NodeInfo_has_position b = true).

(** The table only grows: no slot is freed, and every occupied record
    grows. *)
Definition tableGrows (s s' : State) : Prop :=
  (DeviceState_node_db_count (devicestate s)
   <= DeviceState_node_db_count (devicestate s'))%nat
  /\ (DeviceState_node_db_count (devicestate s')
      <= S (DeviceState_node_db_count (devicestate s)))%nat
  /\ forall j, (j < DeviceState_node_db_count (devicestate s))%nat ->
       recordGrows (nodeAt j s) (nodeAt j s').

(** A legacy user packet from node 0x42. *)
Definition userPacket : MeshPacket :=
  mkMeshPacket 0x42 0xFFFFFFFF (MeshPacket_decoded (SubPacket_user userA)) 5000 7.

(** A packet of a kind the table does not interpret, from node 0x42. *)
Definition otherPacket : MeshPacket :=
  mkMeshPacket 0x42 0xFFFFFFFF (MeshPacket_decoded SubPacket_other) 5000 7.

(** An application packet from node 0x42 to everybody. *)
Definition broadcastPacket : MeshPacket :=
  mkMeshPacket 0x42 0xFFFFFFFF (MeshPacket_decoded (SubPacket_data [1; 2; 3])) 5000 7.

(** A candidate is accepted: no record carries it, or the record that does
    carries this device's MAC. *)
Definition accepted (r : Z) (s : State) : Prop :=
  getNode r s = None
  \/ exists i, getNode r s = Some i
       /\ User_macaddr (NodeInfo_user (nodeAt i s))
          = User_macaddr (DeviceState_owner (devicestate s)).

(** The boot state with a node number stored and the owner's MAC set. *)
Definition withNodeNum (num : Z) (mac : list Z) (s : State) : State :=
  set_ourMacAddr mac
    (upd_devicestate
       (fun d => upd_owner (fun o => mkUser (User_id o) (User_long_name o)
                                            (User_short_name o) mac)
                   (upd_my_node (set_my_node_num num) d)) s).

(** A build to run [init] with: no hardware version given, a legacy-free
    regions table. *)
Definition demo_build : Build :=
  mkBuild EmptyString "1.1.20" "tbeam" 4 12 12 16
          [(1, "US"); (2, "EU433"); (0, "Unset")]%string.

(** A build whose hardware version is a legacy region string. *)
Definition legacy_build : Build :=
  mkBuild "1.0-EU433" "1.1.20" "tbeam" 4 12 12 16
          [(1, "US"); (2, "EU433"); (0, "Unset")]%string.

Definition set_Pref_factory_reset (x : bool) (p : UserPreferences)
    : UserPreferences :=
  mkUserPreferences (Pref_position_broadcast_secs p) (Pref_wait_bluetooth_secs p)
    (Pref_screen_on_secs p) (Pref_ls_secs p) (Pref_region p) x.

(** A platform whose decoder reads the version byte and a pending factory
    reset out of every blob. *)
Definition reset_hw : Platform :=
  mkPlatform 0xFFFFFFFF 4 600000 [0x24; 0x6f; 0x28; 0xab; 0xcd; 0xef]
             (fun k lo hi => lo + Z.of_nat k mod (hi - lo))
             (fun d => ([DeviceState_version d], true))
             (fun blob d => (upd_prefs (set_Pref_factory_reset true)
                               (set_version (hd 0 blob) d), true))
             (fun _ => false)
             16 40 5.

(** The occupied slots whose record passes the test in the loop of
    [getNumOnlineNodes]: the records that are counted as online. *)
Definition onlineSlots (now : Z) (s : State) : list nat :=
  filter (fun i => sinceLastSeen now (nodeAt i s) < NUM_ONLINE_SECS)
         (seq 0 (DeviceState_node_db_count (devicestate s))).

(** A platform whose decoder reads the version byte and the channel name
    "Berlin" out of every blob. *)
Definition named_hw : Platform :=
  mkPlatform 0xFFFFFFFF 4 600000 [0x24; 0x6f; 0x28; 0xab; 0xcd; 0xef]
             (fun k lo hi => lo + Z.of_nat k mod (hi - lo))
             (fun d => ([DeviceState_version d], true))
             (fun blob d => (upd_channelSettings (set_name "Berlin")
                               (set_version (hd 0 blob) d), true))
             (fun _ => false)
             16 40 5.
(** * Properties *)

Arguments u8 : simpl never.
Arguments u32 : simpl never.
Arguments s32 : simpl never.
Arguments expandPSK : simpl never.
Arguments macNodeNum : simpl never.
Arguments fmt_02x : simpl never.
Arguments ownerId : simpl never.

(** Laws of the monad, stated at a state so that they rewrite. *)
Lemma bind_assoc {A B C} (m : M A) (k1 : A -> M B) (k2 : B -> M C) s :
  bind (bind m k1) k2 s = bind m (fun a => bind (k1 a) k2) s.
Proof. unfold bind. destruct (m s); reflexivity. Qed.

Lemma bind_ret {A B} (a : A) (k : A -> M B) s : bind (ret a) k s = k a s.
Proof. reflexivity. Qed.

Lemma bind_gets {A B} (f : State -> A) (k : A -> M B) s :
  bind (gets f) k s = k (f s) s.
Proof. reflexivity. Qed.

Lemma bind_modify {B} (f : State -> State) (k : unit -> M B) s :
  bind (modify f) k s = k tt (f s).
Proof. reflexivity. Qed.

Lemma bind_Done {A B} (m : M A) (k : A -> M B) s a s' :
  m s = Done a s' -> bind m k s = k a s'.
Proof. intros H. unfold bind. rewrite H. reflexivity. Qed.

(** Symbolic execution of straight-line monadic code: the monad laws, and
    the projections and setters of [State]. *)
Ltac mcbn :=
  cbn [ret gets modify when notifyObservers emit
       devicestate radioGeneration ourMacAddr channelNamePtr activePSK
       activePSKSize updateGUIforNode random_calls fs trace
       upd_devicestate set_radioGeneration set_ourMacAddr set_channelName
       set_activePSK set_updateGUIforNode set_random_calls set_fs].

Ltac mcbn_in H :=
  cbn [ret gets modify when notifyObservers emit
       devicestate radioGeneration ourMacAddr channelNamePtr activePSK
       activePSKSize updateGUIforNode random_calls fs trace
       upd_devicestate set_radioGeneration set_ourMacAddr set_channelName
       set_activePSK set_updateGUIforNode set_random_calls set_fs] in H.

Ltac mrun :=
  repeat first
    [ rewrite bind_assoc
    | rewrite bind_ret
    | rewrite bind_gets
    | rewrite bind_modify
    | progress (unfold notifyObservers)
    | progress (cbn [when]) ];
  mcbn.

Ltac mrun_in H := mcbn_in H.

(** ** Key expansion *)

Lemma expandPSK_key psk active :
  wf_psk psk -> length active = PSK_CAPACITY ->
  take (snd (expandPSK psk active)) (fst (expandPSK psk active)) = expandedKey psk
  /\ length (fst (expandPSK psk active)) = PSK_CAPACITY
  /\ snd (expandPSK psk active) = length (expandedKey psk).
Proof.
  intros [Hb Hs] Ha. unfold expandPSK, expandedKey, memcpy, PSK_CAPACITY in *.
  assert (Hmod : (psk_size psk mod 256)%nat = psk_size psk)
    by (apply Nat.mod_small; lia).
  rewrite Hmod. clear Hmod.
  destruct (Nat.eqb_spec (psk_size psk) 1) as [E|E].
  - rewrite E.
    destruct (psk_bytes psk) as [|v bs]; [simpl in Hb; lia|].
    destruct active as [|a0 act]; [simpl in Ha; lia|].
    cbn [take drop app byte_at nth]. rewrite take_0, drop_0.
    cbn [app nth].
    destruct (Z.eqb_spec v 0) as [Ev|Ev].
    + cbn [fst snd]. rewrite take_0.
      split; [reflexivity| split; [simpl in *; lia | reflexivity]].
    + do 15 (destruct act as [|? act]; [simpl in Ha; lia|]).
      cbn. rewrite take_0, drop_0.
      split; [reflexivity| split; [simpl in *; lia | reflexivity]].
  - cbn [fst snd]. split; [|split].
    + rewrite take_app_le by (rewrite length_take; lia).
      rewrite take_take. f_equal. lia.
    + rewrite length_app, length_take, length_drop. lia.
    + rewrite length_take. lia.
Qed.

Lemma wf_psk_shorten cs :
  wf_psk (ChannelSettings_psk cs) ->
  wf_psk (ChannelSettings_psk (shortenDefaultPsk cs)).
Proof.
  intros [Hb Hs]. unfold shortenDefaultPsk.
  destruct (_ && _)%bool; [|split; assumption].
  split; cbn; [rewrite length_insert; assumption | unfold PSK_CAPACITY; lia].
Qed.

Lemma wf_psk_setDefaultPreferences d :
  wf_psk (psk_of d) -> wf_psk (psk_of (setDefaultPreferences d)).
Proof.
  intros [Hb Hs]. split; cbn;
    [rewrite length_insert; assumption | unfold PSK_CAPACITY; lia].
Qed.

Lemma wf_psk_tail d : wf_psk (psk_of d) -> wf_psk (psk_of (tail_devicestate d)).
Proof.
  intros H. unfold tail_devicestate.
  assert (H1 : wf_psk (psk_of (upd_channelSettings shortenDefaultPsk
            (if bool_decide (ChannelSettings_name (channelSettings_of d) = "Default"%string)
             then upd_channelSettings (set_name EmptyString) d else d)))).
  { destruct (bool_decide _); apply wf_psk_shorten; exact H. }
  cbv zeta. destruct (DeviceState_no_save _); exact H1.
Qed.

Lemma resetRadioConfig_tail_spec s :
  exists s', resetRadioConfig_tail s = Done tt s'
    /\ devicestate s' = tail_devicestate (devicestate s)
    /\ activePSK s' = fst (expandPSK (psk_of (devicestate s')) (activePSK s))
    /\ activePSKSize s' = snd (expandPSK (psk_of (devicestate s')) (activePSK s))
    /\ random_calls s' = random_calls s
    /\ fs s' = fs s.
Proof.
  unfold resetRadioConfig_tail, tail_devicestate. mrun.
  destruct (bool_decide _); mrun;
    match goal with
    | |- context [when (DeviceState_no_save ?d)] =>
        destruct (DeviceState_no_save d) eqn:E
    end; mrun; eexists; (split; [reflexivity|]); mrun; repeat split; reflexivity.
Qed.

Lemma resetRadioConfig_tail_key s :
  length (activePSK s) = PSK_CAPACITY -> wf_psk (psk_of (devicestate s)) ->
  exists s', resetRadioConfig_tail s = Done tt s'
    /\ devicestate s' = tail_devicestate (devicestate s)
    /\ liveKey s' = expandedKey (psk_of (devicestate s'))
    /\ activePSKSize s' = length (expandedKey (psk_of (devicestate s')))
    /\ length (activePSK s') = PSK_CAPACITY
    /\ wf_psk (psk_of (devicestate s'))
    /\ random_calls s' = random_calls s /\ fs s' = fs s.
Proof.
  intros Ha Hw.
  destruct (resetRadioConfig_tail_spec s) as (s' & E & Hd & Hk & Hn & Hr & Hf).
  assert (Hw' : wf_psk (psk_of (devicestate s')))
    by (rewrite Hd; apply wf_psk_tail; exact Hw).
  destruct (expandPSK_key _ _ Hw' Ha) as (K & L & N).
  exists s'. unfold liveKey. rewrite Hk, Hn. repeat split; try assumption.
  all: apply Hw'.
Qed.

(** ** [resetRadioConfig] and [installDefaultDeviceState] *)

Lemma resetRadioConfig_unfold hw retries depth :
  resetRadioConfig hw retries depth =
  resetRadioConfig_with
    (match depth with
     | O => fun _ => OutOfFuel
     | S d => installDefaultDeviceState_with hw retries (resetRadioConfig hw retries d)
     end).
Proof. destruct depth; reflexivity. Qed.

(** Without the factory reset flag the function does not call back. *)
Lemma resetRadioConfig_with_no_reset install s :
  Pref_factory_reset (preferences_of (devicestate s)) = false ->
  exists s', resetRadioConfig_with install s = Done false s'
    /\ devicestate s' =
       tail_devicestate
         (if (psk_size (psk_of (devicestate s)) =? 0)%nat
          then setDefaultPreferences (devicestate s) else devicestate s)
    /\ activePSK s' = fst (expandPSK (psk_of (devicestate s')) (activePSK s))
    /\ activePSKSize s' = snd (expandPSK (psk_of (devicestate s')) (activePSK s))
    /\ random_calls s' = random_calls s
    /\ fs s' = fs s.
Proof.
  intros Hfr. unfold resetRadioConfig_with. mrun. rewrite Hfr. mrun.
  unfold psk_of.
  destruct (psk_size _ =? 0)%nat; mrun;
    match goal with
    | |- context [bind resetRadioConfig_tail ?k ?z] =>
        destruct (resetRadioConfig_tail_spec z) as (s' & E & Hd & Hk & Hn & Hr & Hf);
        rewrite (bind_Done _ k _ _ _ E)
    end; mrun; mrun_in Hd; mrun_in Hk; mrun_in Hn; mrun_in Hr; mrun_in Hf;
    exists s'; repeat split; assumption.
Qed.

Lemma getNode_empty n s :
  DeviceState_node_db_count (devicestate s) = 0%nat -> getNode n s = None.
Proof. intros H. unfold getNode, liveNodes. rewrite H, take_0. reflexivity. Qed.

Lemma pickLoop_absent hw retries r s :
  getNode r s = None -> pickLoop hw retries r s = Done r s.
Proof. intros H. destruct retries; cbn [pickLoop]; rewrite H; reflexivity. Qed.

Lemma pickNewNodeNum_empty hw retries s :
  DeviceState_node_db_count (devicestate s) = 0%nat ->
  pickNewNodeNum hw retries s =
  Done tt (upd_devicestate
             (upd_my_node (set_my_node_num
                             (startNodeNum hw (getNodeNum s) (ourMacAddr s)))) s).
Proof.
  intros H. unfold pickNewNodeNum. mrun.
  rewrite (bind_Done _ _ _ _ _
             (pickLoop_absent hw retries _ s (getNode_empty _ s H))).
  reflexivity.
Qed.

Lemma installDefaultDeviceState_spec hw retries depth s :
  exists s', installDefaultDeviceState hw retries depth s = Done tt s'
    /\ devicestate s' =
       keepRegion (Pref_region (preferences_of (devicestate s)))
                  (MyNodeInfo_region (DeviceState_my_node (devicestate s)))
                  (defaultDeviceState hw)
    /\ (length (activePSK s) = PSK_CAPACITY ->
        length (activePSK s') = PSK_CAPACITY
        /\ liveKey s' = expandedKey (psk_of (devicestate s')))
    /\ random_calls s' = random_calls s
    /\ fs s' = fs s.
Proof.
  unfold installDefaultDeviceState, installDefaultDeviceState_with. mrun.
  rewrite resetRadioConfig_unfold.
  match goal with
  | |- context [bind (resetRadioConfig_with ?i) ?k ?z] =>
      destruct (resetRadioConfig_with_no_reset i z eq_refl)
        as (s1 & E & Hd & Hk & Hn & Hr & Hf); rewrite (bind_Done _ k _ _ _ E)
  end.
  mrun_in Hd; mrun_in Hk; mrun_in Hn; mrun_in Hr; mrun_in Hf.
  mrun.
  match goal with
  | |- context [bind (pickNewNodeNum hw retries) ?k ?z] =>
      rewrite (bind_Done _ k _ _ _ (pickNewNodeNum_empty hw retries z
                 ltac:(mcbn; rewrite Hd; reflexivity)))
  end.
  mrun.
  assert (Hpsk : psk_of (devicestate s1) = mkPsk 1 (1 :: replicate 31 0))
    by (rewrite Hd; reflexivity).
  rewrite Hpsk in Hk, Hn.
  set (code := Pref_region (preferences_of (devicestate s))).
  set (region := MyNodeInfo_region (DeviceState_my_node (devicestate s))).
  unfold keepRegion.
  destruct (negb (code =? RegionCode_Unset)); mrun;
    destruct (negb (bool_decide (region = EmptyString))); mrun;
    (eexists; split; [reflexivity|]); mrun;
    (split; [unfold getNodeNum; mrun; rewrite Hd; reflexivity|]).
  all: assert (Hw : wf_psk (mkPsk 1 (1 :: replicate 31 0)))
         by (split; [reflexivity | unfold PSK_CAPACITY; cbn; lia]).
  all: split; [| split; assumption].
  all: intros Ha; destruct (expandPSK_key _ (activePSK s) Hw Ha) as (K & L & _);
    unfold liveKey; mcbn; rewrite Hk, Hn, K;
    (split; [exact L | unfold psk_of; rewrite Hd; reflexivity]).
Qed.

Lemma psk_of_keepRegion code region d :
  psk_of (keepRegion code region d) = psk_of d.
Proof.
  unfold keepRegion.
  destruct (negb (code =? RegionCode_Unset));
    destruct (negb (bool_decide (region = EmptyString))); reflexivity.
Qed.

Lemma wf_psk_default hw : wf_psk (psk_of (defaultDeviceState hw)).
Proof. split; [reflexivity | unfold PSK_CAPACITY; cbn; lia]. Qed.

(** [resetRadioConfig] returns once the nesting allows one call back, and
    leaves the live key that belongs to the psk it leaves stored. *)
Lemma resetRadioConfig_key hw retries depth s :
  (1 <= depth)%nat ->
  length (activePSK s) = PSK_CAPACITY ->
  wf_psk (psk_of (devicestate s)) ->
  exists b s', resetRadioConfig hw retries depth s = Done b s'
    /\ liveKey s' = expandedKey (psk_of (devicestate s'))
    /\ activePSKSize s' = length (expandedKey (psk_of (devicestate s')))
    /\ length (activePSK s') = PSK_CAPACITY
    /\ wf_psk (psk_of (devicestate s')).
Proof.
  intros Hdepth Ha Hw. destruct depth as [|d]; [lia|].
  rewrite resetRadioConfig_unfold. unfold resetRadioConfig_with. mrun.
  destruct (Pref_factory_reset (preferences_of (devicestate s))) eqn:Hfr.
  - mrun.
    match goal with
    | |- context [bind (installDefaultDeviceState_with hw retries ?r) ?k ?z] =>
        destruct (installDefaultDeviceState_spec hw retries d z)
          as (s1 & E & Hd & Hk & _);
        unfold installDefaultDeviceState in E;
        rewrite (bind_Done _ _ _ _ _ E)
    end.
    mrun. mcbn_in Hk. destruct (Hk Ha) as [L1 _].
    assert (Hw1 : wf_psk (psk_of (devicestate s1)))
      by (rewrite Hd, psk_of_keepRegion; apply wf_psk_default).
    destruct (resetRadioConfig_tail_key s1 L1 Hw1)
      as (s' & E' & _ & K & N & L & W & _).
    rewrite (bind_Done _ _ _ _ _ E'). mrun.
    exists true, s'. repeat split; try assumption; apply W.
  - mrun.
    match goal with
    | |- context [bind (when ?c ?m) ?k ?z] =>
        assert (Hs1 : exists s1, when c m z = Done tt s1
                        /\ length (activePSK s1) = PSK_CAPACITY
                        /\ wf_psk (psk_of (devicestate s1)))
    end.
    { destruct (_ =? _)%nat; mcbn; eexists; (split; [reflexivity|]); mcbn;
        (split; [exact Ha|]);
        [apply wf_psk_setDefaultPreferences; exact Hw | exact Hw]. }
    destruct Hs1 as (s1 & E & L1 & Hw1).
    rewrite (bind_Done _ _ _ _ _ E). mrun.
    destruct (resetRadioConfig_tail_key s1 L1 Hw1)
      as (s' & E' & _ & K & N & L & W & _).
    rewrite (bind_Done _ _ _ _ _ E'). mrun.
    exists false, s'. repeat split; try assumption; apply W.
Qed.

(** A key that is neither absent nor the full default key stays stored as
    it was. *)
Lemma resetRadioConfig_keeps_psk hw retries depth s :
  Pref_factory_reset (preferences_of (devicestate s)) = false ->
  psk_size (psk_of (devicestate s)) <> 0%nat ->
  psk_size (psk_of (devicestate s)) <> length defaultpsk ->
  exists s', resetRadioConfig hw retries depth s = Done false s'
    /\ psk_of (devicestate s') = psk_of (devicestate s).
Proof.
  intros Hfr Hnz Hn16. rewrite resetRadioConfig_unfold.
  destruct (resetRadioConfig_with_no_reset
              (match depth with
               | O => fun _ => OutOfFuel
               | S d => installDefaultDeviceState_with hw retries
                          (resetRadioConfig hw retries d)
               end) s Hfr) as (s' & E & Hd & _).
  exists s'. split; [exact E|]. rewrite Hd.
  destruct (Nat.eqb_spec (psk_size (psk_of (devicestate s))) 0); [contradiction|].
  unfold tail_devicestate. cbv zeta.
  assert (Hshort : forall d, psk_of d = psk_of (devicestate s) ->
            psk_of (upd_channelSettings shortenDefaultPsk d) = psk_of (devicestate s)).
  { intros d Hpsk. unfold psk_of in *. cbn. unfold shortenDefaultPsk.
    destruct (Nat.eqb_spec (psk_size (ChannelSettings_psk
                 (RadioConfig_channel_settings (DeviceState_radio d))))
                (length defaultpsk)) as [E16|E16].
    - exfalso. apply Hn16. rewrite <- Hpsk. exact E16.
    - cbn [andb]. exact Hpsk. }
  destruct (bool_decide _);
    match goal with
    | |- context [DeviceState_no_save ?d] => destruct (DeviceState_no_save d)
    end; try (apply Hshort; reflexivity);
    match goal with
    | |- psk_of (upd_prefs _ ?d) = _ =>
        change (psk_of (upd_prefs developmentPreferences d)) with (psk_of d)
    end; apply Hshort; reflexivity.
Qed.

(** C3. For a stored compact psk of size 1 with index byte v, the key
    expansion of [resetRadioConfig] gives: v = 0, a live key of length zero;
    v = 1, the 16 byte default key as it is; v = N >= 1, the default key
    with its last byte offset by N - 1 modulo 256, of length 16.  A stored
    key of any other size is the live key as it is. *)
Theorem resetRadioConfig_key_expansion hw retries depth s :
  (1 <= depth)%nat ->
  length (activePSK s) = PSK_CAPACITY ->
  wf_psk (psk_of (devicestate s)) ->
  exists b s', resetRadioConfig hw retries depth s = Done b s'
    /\ let psk := psk_of (devicestate s') in
       let v := byte_at 0 (psk_bytes psk) in
       (psk_size psk = 1%nat -> v = 0 ->
          liveKey s' = [] /\ activePSKSize s' = 0%nat)
       /\ (psk_size psk = 1%nat -> v = 1 ->
          liveKey s' = defaultpsk /\ activePSKSize s' = 16%nat)
       /\ (psk_size psk = 1%nat -> 1 <= v ->
          liveKey s' = take 15 defaultpsk ++ [(0xbf + (v - 1)) mod 256]
          /\ activePSKSize s' = 16%nat)
       /\ (psk_size psk <> 1%nat ->
          liveKey s' = take (psk_size psk) (psk_bytes psk)
          /\ activePSKSize s' = psk_size psk).
Proof.
  intros Hdepth Ha Hw.
  destruct (resetRadioConfig_key hw retries depth s Hdepth Ha Hw)
    as (b & s' & E & K & N & L & [Wb Ws]).
  exists b, s'. split; [exact E|]. cbv zeta.
  rewrite K, N. unfold expandedKey.
  repeat split.
  - rewrite H, H0. reflexivity.
  - rewrite H, H0. reflexivity.
  - rewrite H, H0. reflexivity.
  - rewrite H, H0. reflexivity.
  - rewrite H. cbn [Nat.eqb].
    destruct (Z.eqb_spec (byte_at 0 (psk_bytes (psk_of (devicestate s')))) 0); [lia|].
    unfold u8. rewrite <- Z.add_sub_assoc. reflexivity.
  - rewrite H. cbn [Nat.eqb].
    destruct (Z.eqb_spec (byte_at 0 (psk_bytes (psk_of (devicestate s')))) 0); [lia|].
    reflexivity.
  - destruct (Nat.eqb_spec (psk_size (psk_of (devicestate s'))) 1); [contradiction|].
    reflexivity.
  - destruct (Nat.eqb_spec (psk_size (psk_of (devicestate s'))) 1); [contradiction|].
    rewrite length_take. unfold PSK_CAPACITY in *. lia.
Qed.

Lemma resetRadioConfig_key_expansion_witness :
  exists b s',
    resetRadioConfig demo_hw 0 1
      (withPsk (mkPsk 1 (3 :: replicate 31 0)) (bootState demo_hw)) = Done b s'
    /\ liveKey s' = take 15 defaultpsk ++ [0xc1]
    /\ activePSKSize s' = 16%nat.
Proof.
  destruct (resetRadioConfig_key_expansion demo_hw 0 1
              (withPsk (mkPsk 1 (3 :: replicate 31 0)) (bootState demo_hw)))
    as (b & s' & E & _ & _ & H & _).
  - lia.
  - reflexivity.
  - split; [reflexivity | vm_compute; lia].
  - exists b, s'. split; [exact E|].
    vm_compute in E. injection E as _ <-. vm_compute. split; reflexivity.
Defined.

(** ** The channel name *)

Lemma u8_land x : u8 x = Z.land x (Z.ones 8).
Proof. unfold u8. rewrite Z.land_ones by lia. reflexivity. Qed.

Lemma u8_lxor a b : u8 (Z.lxor a b) = Z.lxor (u8 a) (u8 b).
Proof.
  rewrite !u8_land. apply Z.bits_inj'. intros n Hn.
  rewrite Z.lxor_spec, !Z.land_spec, Z.lxor_spec.
  destruct (Z.testbit a n), (Z.testbit b n), (Z.testbit (Z.ones 8) n); reflexivity.
Qed.

Lemma u8_idem x : u8 (u8 x) = u8 x.
Proof. unfold u8. apply Z.mod_mod. lia. Qed.

Lemma u8_fold_lxor l : forall x y,
  u8 x = u8 y -> u8 (fold_left Z.lxor l x) = u8 (fold_left Z.lxor l y).
Proof.
  induction l as [|b l IH]; intros x y H; cbn [fold_left]; [exact H|].
  apply IH. rewrite !u8_lxor, H. reflexivity.
Qed.

(** The loop [code ^= activePSK[i]] on a [uint8_t] computes the XOR of the
    bytes. *)
Lemma xor_loop l : forall acc,
  fold_left (fun code b => u8 (Z.lxor code b)) l (u8 acc)
  = u8 (fold_left Z.lxor l acc).
Proof.
  induction l as [|b l IH]; intros acc; cbn [fold_left]; [reflexivity|].
  rewrite IH. apply u8_fold_lxor. rewrite !u8_lxor, u8_idem.
  reflexivity.
Qed.




Lemma substring_all (str : string) : forall n,
  (String.length str <= n)%nat -> substring 0 n str = str.
Proof.
  induction str as [|c str IH]; intros n H.
  - destruct n; reflexivity.
  - destruct n as [|n]; [cbn in H; lia|]. cbn. rewrite IH; [reflexivity|].
    cbn in H. lia.
Qed.

Lemma channelSuffix_suffixCode s : channelSuffix s = suffixCode s.
Proof.
  unfold channelSuffix, suffixCode, psk_of.
  destruct (psk_size _ =? 1)%nat; cbn [negb]; [reflexivity|].
  change 0 with (u8 0) at 1. rewrite xor_loop.
  unfold u8 at 1. apply Z.mod_small.
  pose proof (Z.mod_pos_bound (u8 (xorBytes (liveKey s))) 26).
  unfold xorBytes in *. lia.
Qed.



Lemma c_str_length s : (String.length (c_str s) <= String.length s)%nat.
Proof.
  induction s as [|c s IH]; cbn [c_str]; [lia|].
  destruct (Ascii.eqb c Ascii.zero); cbn [String.length]; lia.
Qed.






(** The defaults on the demonstration platform. *)
Example macNodeNum_demo : macNodeNum (getMacAddr demo_hw) = 0x28abcdef.
Proof. reflexivity. Qed.

Example ownerId_demo : ownerId (getMacAddr demo_hw) = "!246f28abcdef"%string.
Proof. reflexivity. Qed.

Example default_owner_demo :
  DeviceState_owner (defaultDeviceState demo_hw)
  = mkUser "!246f28abcdef" "Unknown cdef" "?EF" [0x24; 0x6f; 0x28; 0xab; 0xcd; 0xef].
Proof. reflexivity. Qed.

Example default_node_num_demo :
  MyNodeInfo_my_node_num (DeviceState_my_node (defaultDeviceState demo_hw))
  = 0x28abcdef.
Proof. reflexivity. Qed.

(** ** Loading *)

Lemma synthesizedDefaults_eq hw : synthesizedDefaults hw = defaultDeviceState hw.
Proof.
  unfold synthesizedDefaults.
  destruct (installDefaultDeviceState_spec hw 0 0 (bootState hw))
    as (s' & E & Hd & _).
  rewrite E. cbn [stateOf]. rewrite Hd. reflexivity.
Qed.

Lemma FS_open_read_present hw path s blob :
  fs s !! path = Some blob ->
  fs_fault hw (FsOpenRead path) = false ->
  FS_open_read hw path s = Done (Some blob) (emit (EvFs (FsOpenRead path) true) s).
Proof. intros H F. unfold FS_open_read. rewrite H, F. reflexivity. Qed.

(** C2. When the decoder fails on the persisted blob, or the decoded
    version is below the minimum of 11, [loadFromDisk] leaves in
    [devicestate] the synthesized defaults, except that a region code and a
    region string found in the decoded struct are kept. *)
Theorem loadFromDisk_falls_back hw retries depth s blob d ok :
  fs s !! preffile = Some blob ->
  fs_fault hw (FsOpenRead preffile) = false ->
  pb_decode hw blob (zero_DeviceState (MAX_NUM_NODES hw)) = (d, ok) ->
  ok = false \/ DeviceState_version d < 11 ->
  exists s', loadFromDisk hw retries depth s = Done tt s'
    /\ devicestate s' =
       keepRegion (Pref_region (preferences_of d))
                  (MyNodeInfo_region (DeviceState_my_node d))
                  (synthesizedDefaults hw).
Proof.
  intros Hfile Hfault Hdec Hbad. unfold loadFromDisk.
  rewrite (bind_Done _ _ _ _ _ (FS_open_read_present hw _ s blob Hfile Hfault)).
  mrun. rewrite Hdec. mrun.
  match goal with
  | |- context [bind ?m ?k ?z] =>
      assert (Hm : m = installDefaultDeviceState hw retries depth)
  end.
  { destruct ok; cbn [negb]; [|reflexivity].
    destruct Hbad as [Hbad|Hbad]; [discriminate|].
    unfold DEVICESTATE_MIN_VER, DEVICESTATE_CUR_VER.
    destruct (Z.ltb_spec (DeviceState_version d) 11); [reflexivity | lia]. }
  rewrite Hm.
  match goal with
  | |- context [bind _ ?k ?z] =>
      destruct (installDefaultDeviceState_spec hw retries depth z)
        as (s' & E & Hd & _); rewrite (bind_Done _ k _ _ _ E)
  end.
  mcbn_in Hd. unfold FS_close. mrun.
  eexists. split; [reflexivity|]. mcbn.
  rewrite synthesizedDefaults_eq. exact Hd.
Qed.

Lemma loadFromDisk_falls_back_witness :
  exists s',
    loadFromDisk demo_hw 0 0
      (withFiles {[ preffile := [8; 10] ]} (bootState demo_hw)) = Done tt s'
    /\ devicestate s' = keepRegion 0 EmptyString (synthesizedDefaults demo_hw).
Proof.
  apply (loadFromDisk_falls_back demo_hw 0 0
           (withFiles {[ preffile := [8; 10] ]} (bootState demo_hw))
           [8; 10] (zero_DeviceState 4) false).
  - reflexivity.
  - reflexivity.
  - reflexivity.
  - left. reflexivity.
Defined.

(** ** Saving *)

Lemma preffile_neq_preftmp : preffile <> preftmp.
Proof. discriminate. Qed.

Lemma saveToDisk_no_save hw s :
  DeviceState_no_save (devicestate s) = true -> saveToDisk hw s = Done tt s.
Proof. intros H. unfold saveToDisk. mrun. rewrite H. reflexivity. Qed.

Lemma saveToDisk_open_refused hw s :
  DeviceState_no_save (devicestate s) = false ->
  fs_fault hw (FsOpenWrite preftmp) = true ->
  saveToDisk hw s = Done tt (emit (EvFs (FsOpenWrite preftmp) false) s).
Proof.
  intros H F. unfold saveToDisk. mrun. rewrite H. cbn [negb].
  unfold bind, FS_open_write. rewrite F. reflexivity.
Qed.

Lemma saveToDisk_written hw s :
  DeviceState_no_save (devicestate s) = false ->
  fs_fault hw (FsOpenWrite preftmp) = false ->
  let d := set_version DEVICESTATE_CUR_VER (devicestate s) in
  let bytes := fst (pb_encode hw d) in
  exists s', saveToDisk hw s = Done tt s'
    /\ devicestate s' = d
    /\ if snd (pb_encode hw d) then
         trace s' = trace s ++
                    [EvFs (FsOpenWrite preftmp) true;
                     EvFs (FsWrite preftmp bytes) true;
                     EvFs (FsClose preftmp) true;
                     EvFs (FsRemove preffile) (removeResult hw s);
                     EvFs (FsRename preftmp preffile) (renameResult hw)]
         /\ (renameResult hw = true ->
             fs s' !! preffile = Some bytes /\ fs s' !! preftmp = None)
       else
         trace s' = trace s ++
                    [EvFs (FsOpenWrite preftmp) true;
                     EvFs (FsWrite preftmp bytes) true;
                     EvFs (FsClose preftmp) true]
         /\ fs s' !! preffile = fs s !! preffile
         /\ fs s' !! preftmp = Some bytes.
Proof.
  intros H F d bytes. unfold saveToDisk. mrun. rewrite H. cbn [negb].
  unfold bind at 1. unfold FS_open_write. rewrite F. mrun.
  fold d. unfold bytes. destruct (pb_encode hw d) as [bs ok]. cbn [fst snd].
  unfold FS_write, FS_close. mrun.
  set (fs1 := alter (fun old => old ++ bs) preftmp (<[preftmp := []]> (fs s))).
  assert (Htmp : fs1 !! preftmp = Some bs).
  { unfold fs1. rewrite lookup_alter_eq, lookup_insert_eq. reflexivity. }
  assert (Hpref : fs1 !! preffile = fs s !! preffile).
  { unfold fs1. rewrite lookup_alter_ne by (apply not_eq_sym, preffile_neq_preftmp).
    rewrite lookup_insert_ne by (apply not_eq_sym, preffile_neq_preftmp).
    reflexivity. }
  destruct ok; cbn [negb]; mrun.
  - unfold bind, FS_remove, FS_rename. mcbn. rewrite Hpref.
    fold (removeResult hw s).
    destruct (removeResult hw s) eqn:R1; mcbn.
    + rewrite lookup_delete_ne by (apply preffile_neq_preftmp). rewrite Htmp.
      unfold renameResult.
      destruct (fs_fault hw (FsRename preftmp preffile)); cbn [negb]; mcbn;
        (eexists; split; [reflexivity|]); mcbn;
        (split; [reflexivity|]);
        (split; [rewrite <- !app_assoc; reflexivity|]).
      * discriminate.
      * intros _. rewrite lookup_insert_eq.
        rewrite lookup_insert_ne by (apply preffile_neq_preftmp).
        rewrite lookup_delete_eq. split; reflexivity.
    + rewrite Htmp. unfold renameResult.
      destruct (fs_fault hw (FsRename preftmp preffile)); cbn [negb]; mcbn;
        (eexists; split; [reflexivity|]); mcbn;
        (split; [reflexivity|]);
        (split; [rewrite <- !app_assoc; reflexivity|]).
      * discriminate.
      * intros _. rewrite lookup_insert_eq.
        rewrite lookup_insert_ne by (apply preffile_neq_preftmp).
        rewrite lookup_delete_eq. split; reflexivity.
  - eexists. split; [reflexivity|]. mcbn.
    split; [reflexivity|]. split; [rewrite <- !app_assoc; reflexivity|].
    split; assumption.
Qed.

(** C1, amended.  With the no-persist flag set [saveToDisk] changes nothing.
    With the flag clear and the temporary file opened, it stamps version 11
    into the record and writes the encoding to the temporary file; only when
    the encoder succeeds it removes the old file and renames the temporary
    one into its place, and when the encoder fails the old file is as it
    was.  With the flag clear and the open refused, it changes neither the
    record nor any file. *)
Theorem saveToDisk_spec hw s :
  let d := set_version DEVICESTATE_CUR_VER (devicestate s) in
  let bytes := fst (pb_encode hw d) in
  (DeviceState_no_save (devicestate s) = true -> saveToDisk hw s = Done tt s)
  /\ (DeviceState_no_save (devicestate s) = false ->
      fs_fault hw (FsOpenWrite preftmp) = true ->
      exists s', saveToDisk hw s = Done tt s'
        /\ devicestate s' = devicestate s /\ fs s' = fs s)
  /\ (DeviceState_no_save (devicestate s) = false ->
      fs_fault hw (FsOpenWrite preftmp) = false ->
      exists s', saveToDisk hw s = Done tt s'
        /\ DeviceState_version (devicestate s') = 11
        /\ devicestate s' = d
        /\ if snd (pb_encode hw d) then
             trace s' = trace s ++
                        [EvFs (FsOpenWrite preftmp) true;
                         EvFs (FsWrite preftmp bytes) true;
                         EvFs (FsClose preftmp) true;
                         EvFs (FsRemove preffile) (removeResult hw s);
                         EvFs (FsRename preftmp preffile) (renameResult hw)]
             /\ (renameResult hw = true ->
                 fs s' !! preffile = Some bytes /\ fs s' !! preftmp = None)
           else
             trace s' = trace s ++
                        [EvFs (FsOpenWrite preftmp) true;
                         EvFs (FsWrite preftmp bytes) true;
                         EvFs (FsClose preftmp) true]
             /\ fs s' !! preffile = fs s !! preffile
             /\ fs s' !! preftmp = Some bytes).
Proof.
  intros d bytes. split; [|split].
  - apply saveToDisk_no_save.
  - intros H F. rewrite (saveToDisk_open_refused hw s H F).
    eexists. split; [reflexivity|]. split; reflexivity.
  - intros H F. destruct (saveToDisk_written hw s H F) as (s' & E & Hd & Hrest).
    exists s'. split; [exact E|]. split; [rewrite Hd; reflexivity|].
    split; [exact Hd | exact Hrest].
Qed.

Lemma saveToDisk_spec_witness :
  exists s', saveToDisk demo_hw (bootState demo_hw) = Done tt s'
    /\ DeviceState_version (devicestate s') = 11
    /\ fs s' !! preffile = Some [11] /\ fs s' !! preftmp = None.
Proof.
  destruct (proj2 (proj2 (saveToDisk_spec demo_hw (bootState demo_hw)))
              eq_refl eq_refl) as (s' & E & Hv & _ & Hrest).
  exists s'. split; [exact E|]. split; [exact Hv|].
  cbn [demo_hw pb_encode snd fst] in Hrest.
  destruct Hrest as [_ Hfs]. apply Hfs. reflexivity.
Defined.

(** C1 as stated fails when the temporary file cannot be opened: the flag is
    clear, yet no version is stamped and nothing is serialized. *)
Lemma saveToDisk_open_refused_counterexample :
  DeviceState_no_save (devicestate (bootState readonly_hw)) = false
  /\ exists s', saveToDisk readonly_hw (bootState readonly_hw) = Done tt s'
       /\ DeviceState_version (devicestate s') <> DEVICESTATE_CUR_VER
       /\ fs s' !! preftmp = None.
Proof.
  split; [reflexivity|].
  rewrite (saveToDisk_open_refused readonly_hw (bootState readonly_hw) eq_refl eq_refl).
  eexists. split; [reflexivity|]. split; [discriminate | reflexivity].
Qed.

(** ** The peer table *)

Lemma scanNodes_fmap n l : forall l' i,
  NodeInfo_num <$> l = NodeInfo_num <$> l' -> scanNodes n i l = scanNodes n i l'.
Proof.
  induction l as [|x l IH]; intros [|x' l'] i H; try discriminate; [reflexivity|].
  rewrite !fmap_cons in H. injection H as Hx Hl. cbn [scanNodes]. rewrite Hx.
  destruct (NodeInfo_num x' =? n); [reflexivity | apply IH; exact Hl].
Qed.

Lemma scanNodes_Some n l : forall i j,
  scanNodes n i l = Some j ->
  (i <= j < i + length l)%nat /\ NodeInfo_num <$> (l !! (j - i)%nat) = Some n.
Proof.
  induction l as [|x l IH]; intros i j H; cbn [scanNodes] in H; [discriminate|].
  destruct (Z.eqb_spec (NodeInfo_num x) n) as [E|E].
  - injection H as <-. cbn [length]. split; [lia|].
    rewrite Nat.sub_diag. cbn. rewrite E. reflexivity.
  - destruct (IH _ _ H) as [Hr Hl]. cbn [length]. split; [lia|].
    replace (j - i)%nat with (S (j - S i)) by lia. exact Hl.
Qed.

Lemma scanNodes_None n l : forall i,
  scanNodes n i l = None -> n ∉ NodeInfo_num <$> l.
Proof.
  induction l as [|x l IH]; intros i H; cbn [scanNodes] in H.
  - cbn. apply not_elem_of_nil.
  - destruct (Z.eqb_spec (NodeInfo_num x) n) as [E|E]; [discriminate|].
    cbn. rewrite not_elem_of_cons. split; [congruence | eapply IH; exact H].
Qed.

Lemma scanNodes_snoc n l x : forall i,
  scanNodes n i l = None -> NodeInfo_num x = n ->
  scanNodes n i (l ++ [x]) = Some (i + length l)%nat.
Proof.
  induction l as [|y l IH]; intros i H Hx; cbn [scanNodes app length] in *.
  - rewrite Hx, Z.eqb_refl. f_equal. lia.
  - destruct (NodeInfo_num y =? n); [discriminate|].
    rewrite (IH _ H Hx). f_equal. lia.
Qed.

Lemma liveNodes_appendNode hw n s :
  wf_table hw s ->
  (DeviceState_node_db_count (devicestate s) < MAX_NUM_NODES hw)%nat ->
  liveNodes (devicestate (appendNode n s))
  = liveNodes (devicestate s) ++ [set_NodeInfo_num n zero_NodeInfo].
Proof.
  intros [Hl Hc] Hlt. unfold appendNode, liveNodes. mcbn.
  cbn [set_node_db DeviceState_node_db_count DeviceState_node_db].
  rewrite (take_S_r _ _ (set_NodeInfo_num n zero_NodeInfo))
    by (apply list_lookup_insert_eq; lia).
  rewrite take_insert_ge by lia. reflexivity.
Qed.

Lemma length_liveNodes hw s :
  wf_table hw s ->
  length (liveNodes (devicestate s)) = DeviceState_node_db_count (devicestate s).
Proof. intros [Hl Hc]. unfold liveNodes. apply length_take_le. lia. Qed.

Lemma wf_table_appendNode hw n s :
  wf_table hw s ->
  (DeviceState_node_db_count (devicestate s) < MAX_NUM_NODES hw)%nat ->
  wf_table hw (appendNode n s).
Proof.
  intros [Hl Hc] Hlt. unfold wf_table, appendNode. mcbn.
  cbn [set_node_db DeviceState_node_db_count DeviceState_node_db].
  rewrite length_insert. split; [exact Hl | lia].
Qed.

Lemma getNode_appendNode hw n s :
  wf_table hw s ->
  (DeviceState_node_db_count (devicestate s) < MAX_NUM_NODES hw)%nat ->
  getNode n s = None ->
  getNode n (appendNode n s) = Some (DeviceState_node_db_count (devicestate s)).
Proof.
  intros Hwf Hlt Hmiss. unfold getNode in *.
  rewrite (liveNodes_appendNode hw) by assumption.
  rewrite (scanNodes_snoc _ _ _ _ Hmiss) by reflexivity.
  rewrite (length_liveNodes hw) by assumption. reflexivity.
Qed.

Lemma nodeAt_appendNode hw n s :
  wf_table hw s ->
  (DeviceState_node_db_count (devicestate s) < MAX_NUM_NODES hw)%nat ->
  nodeAt (DeviceState_node_db_count (devicestate s)) (appendNode n s)
  = set_NodeInfo_num n zero_NodeInfo.
Proof.
  intros [Hl Hc] Hlt. unfold nodeAt, appendNode. mcbn.
  cbn [set_node_db DeviceState_node_db_count DeviceState_node_db].
  rewrite list_lookup_insert_eq by lia. reflexivity.
Qed.

Lemma getNode_lt hw n s i :
  wf_table hw s -> getNode n s = Some i ->
  (i < DeviceState_node_db_count (devicestate s))%nat
  /\ (i < length (DeviceState_node_db (devicestate s)))%nat.
Proof.
  intros Hwf H. pose proof (length_liveNodes hw s Hwf) as Hlen.
  destruct Hwf as [Hl Hc]. unfold getNode in H.
  apply scanNodes_Some in H. lia.
Qed.

Lemma getOrCreateNode_hit hw n s i :
  getNode n s = Some i -> getOrCreateNode hw n s = Done i s.
Proof. intros H. unfold getOrCreateNode. mrun. rewrite H. reflexivity. Qed.

Lemma getOrCreateNode_miss hw n s :
  getNode n s = None ->
  (DeviceState_node_db_count (devicestate s) < MAX_NUM_NODES hw)%nat ->
  getOrCreateNode hw n s
  = Done (DeviceState_node_db_count (devicestate s)) (appendNode n s).
Proof.
  intros H Hlt. unfold getOrCreateNode. mrun. rewrite H. mrun.
  unfold bind, assert.
  destruct (Nat.ltb_spec (DeviceState_node_db_count (devicestate s))
                         (MAX_NUM_NODES hw)); [reflexivity | lia].
Qed.

Lemma getOrCreateNode_full hw n s :
  getNode n s = None ->
  (MAX_NUM_NODES hw <= DeviceState_node_db_count (devicestate s))%nat ->
  getOrCreateNode hw n s = AssertFailed.
Proof.
  intros H Hge. unfold getOrCreateNode. mrun. rewrite H. mrun.
  unfold bind, assert.
  destruct (Nat.ltb_spec (DeviceState_node_db_count (devicestate s))
                         (MAX_NUM_NODES hw)); [lia | reflexivity].
Qed.

(** The upsert, under the precondition its [assert] states. *)
Lemma getOrCreateNode_spec hw n s :
  wf_table hw s -> hasRoom hw n s ->
  exists i s1, getOrCreateNode hw n s = Done i s1
    /\ getNode n s1 = Some i
    /\ (i < length (DeviceState_node_db (devicestate s1)))%nat
    /\ wf_table hw s1
    /\ liveNums s1 = numsAfter n s
    /\ NodeInfo_user (nodeAt i s1) = storedUser n s
    /\ (is_Some (getNode n s) -> s1 = s)
    /\ (getNode n s = None -> s1 = appendNode n s
                              /\ i = DeviceState_node_db_count (devicestate s))
    /\ trace s1 = trace s
    /\ updateGUIforNode s1 = updateGUIforNode s
    /\ getNodeNum s1 = getNodeNum s.
Proof.
  intros Hwf Hroom. unfold numsAfter, storedUser.
  destruct (getNode n s) as [i|] eqn:Hget.
  - exists i, s. rewrite (getOrCreateNode_hit hw n s i Hget).
    destruct (getNode_lt hw n s i Hwf Hget) as [_ Hlt].
    repeat split; try assumption; try reflexivity; try apply Hwf; congruence.
  - destruct Hroom as [[? Hsome]|Hlt]; [congruence|].
    exists (DeviceState_node_db_count (devicestate s)), (appendNode n s).
    rewrite (getOrCreateNode_miss hw n s Hget Hlt).
    pose proof (wf_table_appendNode hw n s Hwf Hlt) as Hwf'.
    repeat split; try reflexivity; try apply Hwf'.
    + apply (getNode_appendNode hw); assumption.
    + destruct Hwf' as [Hl' _]. rewrite Hl'. exact Hlt.
    + unfold liveNums. rewrite (liveNodes_appendNode hw) by assumption.
      rewrite fmap_app. reflexivity.
    + rewrite (nodeAt_appendNode hw) by assumption. reflexivity.
    + intros [? Hsome]. congruence.
Qed.

(** *** Writing into a record *)

Lemma upd_node_devicestate i f s :
  devicestate (upd_node i f s)
  = set_node_db (DeviceState_node_db_count (devicestate s))
                (<[i := f (nodeAt i s)]> (DeviceState_node_db (devicestate s)))
                (devicestate s).
Proof. reflexivity. Qed.

Lemma upd_node_frame i f s :
  trace (upd_node i f s) = trace s
  /\ updateGUIforNode (upd_node i f s) = updateGUIforNode s
  /\ getNodeNum (upd_node i f s) = getNodeNum s
  /\ DeviceState_node_db_count (devicestate (upd_node i f s))
     = DeviceState_node_db_count (devicestate s)
  /\ length (DeviceState_node_db (devicestate (upd_node i f s)))
     = length (DeviceState_node_db (devicestate s)).
Proof.
  repeat split; try reflexivity.
  rewrite upd_node_devicestate. cbn [set_node_db DeviceState_node_db].
  apply length_insert.
Qed.

Lemma wf_table_upd_node hw i f s : wf_table hw s -> wf_table hw (upd_node i f s).
Proof.
  intros [Hl Hc]. destruct (upd_node_frame i f s) as (_ & _ & _ & Ec & El).
  unfold wf_table. rewrite Ec, El. split; assumption.
Qed.

Lemma nodeAt_lookup i s x :
  DeviceState_node_db (devicestate s) !! i = Some x -> nodeAt i s = x.
Proof. intros H. unfold nodeAt. rewrite H. reflexivity. Qed.

Lemma liveNums_upd_node i f s :
  (forall nd, NodeInfo_num (f nd) = NodeInfo_num nd) ->
  liveNums (upd_node i f s) = liveNums s.
Proof.
  intros Hf. unfold liveNums, liveNodes. rewrite upd_node_devicestate.
  cbn [set_node_db DeviceState_node_db DeviceState_node_db_count].
  rewrite !fmap_take. f_equal.
  rewrite list_fmap_insert, Hf.
  destruct (DeviceState_node_db (devicestate s) !! i) as [x|] eqn:E.
  - rewrite (nodeAt_lookup i s x E). apply list_insert_id.
    rewrite list_lookup_fmap, E. reflexivity.
  - apply list_insert_ge. rewrite length_fmap.
    apply lookup_ge_None. exact E.
Qed.

Lemma getNode_liveNums n s s' : liveNums s = liveNums s' -> getNode n s = getNode n s'.
Proof. intros H. unfold getNode. apply scanNodes_fmap. exact H. Qed.

Lemma getNode_upd_node n i f s :
  (forall nd, NodeInfo_num (f nd) = NodeInfo_num nd) ->
  getNode n (upd_node i f s) = getNode n s.
Proof. intros Hf. apply getNode_liveNums, liveNums_upd_node, Hf. Qed.

Lemma nodeAt_upd_node i f s :
  (i < length (DeviceState_node_db (devicestate s)))%nat ->
  nodeAt i (upd_node i f s) = f (nodeAt i s).
Proof.
  intros Hlt. unfold nodeAt at 1. rewrite upd_node_devicestate.
  cbn [set_node_db DeviceState_node_db].
  rewrite list_lookup_insert_eq by exact Hlt. reflexivity.
Qed.

(** Two states with the same [devicestate] show the same table. *)
Lemma nodeAt_devicestate i s s' :
  devicestate s = devicestate s' -> nodeAt i s = nodeAt i s'.
Proof. intros H. unfold nodeAt. rewrite H. reflexivity. Qed.

Lemma liveNums_devicestate s s' :
  devicestate s = devicestate s' -> liveNums s = liveNums s'.
Proof. intros H. unfold liveNums. rewrite H. reflexivity. Qed.

Lemma wf_table_devicestate hw s s' :
  devicestate s = devicestate s' -> wf_table hw s -> wf_table hw s'.
Proof. intros H. unfold wf_table. rewrite H. tauto. Qed.

(** *** [updateUser] *)

(** The state [updateUser] leaves, given the slot and state its upsert
    returned. *)
Lemma updateUser_run hw nodeId p s i s1 :
  getOrCreateNode hw nodeId s = Done i s1 ->
  let s3 := upd_node i (set_NodeInfo_has_user true)
              (upd_node i (set_NodeInfo_user p) s1) in
  updateUser hw nodeId p s
  = Done tt (if User_memcmp hw (NodeInfo_user (nodeAt i s1)) p
             then emit (EvNotifyObservers true)
                    (emit EvPowerTrigger_NODEDB_UPDATED
                       (set_updateGUIforNode (Some i) s3))
             else s3).
Proof.
  intros E s3. unfold updateUser. rewrite (bind_Done _ _ _ _ _ E). mrun.
  destruct (User_memcmp _ _ _); mrun; reflexivity.
Qed.

Lemma updateUser_spec hw nodeId p s :
  wf_table hw s -> hasRoom hw nodeId s ->
  exists i s', updateUser hw nodeId p s = Done tt s'
    /\ getNode nodeId s' = Some i
    /\ NodeInfo_user (nodeAt i s') = p
    /\ NodeInfo_has_user (nodeAt i s') = true
    /\ (sameBytes hw (storedUser nodeId s) p ->
        updateGUIforNode s' = updateGUIforNode s /\ trace s' = trace s)
    /\ (~ sameBytes hw (storedUser nodeId s) p ->
        updateGUIforNode s' = Some i
        /\ trace s' = trace s ++ [EvPowerTrigger_NODEDB_UPDATED;
                                  EvNotifyObservers true])
    /\ liveNums s' = numsAfter nodeId s
    /\ wf_table hw s'.
Proof.
  intros Hwf Hroom.
  destruct (getOrCreateNode_spec hw nodeId s Hwf Hroom)
    as (i & s1 & E & Hget & Hlt & Hwf1 & Hnums & Huser & _ & _ & Htr & Hgui & _).
  exists i. rewrite (updateUser_run hw nodeId p s i s1 E). cbv zeta.
  set (s2 := upd_node i (set_NodeInfo_user p) s1).
  set (s3 := upd_node i (set_NodeInfo_has_user true) s2).
  assert (Hlt2 : (i < length (DeviceState_node_db (devicestate s2)))%nat).
  { destruct (upd_node_frame i (set_NodeInfo_user p) s1) as (_ & _ & _ & _ & El).
    unfold s2. rewrite El. exact Hlt. }
  assert (Hnode : nodeAt i s3
                  = set_NodeInfo_has_user true (set_NodeInfo_user p (nodeAt i s1))).
  { unfold s3. rewrite nodeAt_upd_node by exact Hlt2.
    unfold s2. rewrite nodeAt_upd_node by exact Hlt. reflexivity. }
  assert (Hnums3 : liveNums s3 = liveNums s1).
  { unfold s3, s2. rewrite !liveNums_upd_node by reflexivity. reflexivity. }
  assert (Hwf3 : wf_table hw s3)
    by (unfold s3, s2; apply wf_table_upd_node, wf_table_upd_node, Hwf1).
  assert (Hget3 : getNode nodeId s3 = Some i)
    by (rewrite (getNode_liveNums _ _ _ Hnums3); exact Hget).
  assert (Htr3 : trace s3 = trace s) by exact Htr.
  assert (Hgui3 : updateGUIforNode s3 = updateGUIforNode s) by exact Hgui.
  rewrite Huser. unfold User_memcmp, sameBytes.
  destruct (bool_decide_reflect
              (User_bytes hw (storedUser nodeId s) <> User_bytes hw p))
    as [Hne|Heq].
  - eexists. split; [reflexivity|].
    split; [rewrite <- Hget3; apply getNode_liveNums, liveNums_devicestate; reflexivity|].
    rewrite (nodeAt_devicestate i _ s3) by reflexivity. rewrite Hnode.
    split; [reflexivity|]. split; [reflexivity|].
    split; [intros Heq; contradiction|].
    split; [intros _; mcbn; rewrite Htr3, <- app_assoc; split; reflexivity|].
    split; [rewrite <- Hnums, <- Hnums3; apply liveNums_devicestate; reflexivity|].
    apply (wf_table_devicestate hw s3); [reflexivity | exact Hwf3].
  - apply dec_stable in Heq.
    exists s3. split; [reflexivity|]. split; [exact Hget3|].
    rewrite Hnode. split; [reflexivity|]. split; [reflexivity|].
    split; [intros _; split; assumption|].
    split; [intros Hne; contradiction|].
    split; [rewrite Hnums3; exact Hnums | exact Hwf3].
Qed.

(** C6. [updateUser] overwrites the stored user and marks "has user"; when
    the payload equals the stored one byte for byte it sets no GUI refresh,
    raises no power management event and notifies no observer; when some
    byte differs it does all three. *)
Theorem updateUser_effects hw nodeId p s :
  wf_table hw s -> hasRoom hw nodeId s ->
  exists i s', updateUser hw nodeId p s = Done tt s'
    /\ getNode nodeId s' = Some i
    /\ NodeInfo_user (nodeAt i s') = p
    /\ NodeInfo_has_user (nodeAt i s') = true
    /\ (sameBytes hw (storedUser nodeId s) p ->
        updateGUIforNode s' = updateGUIforNode s /\ trace s' = trace s)
    /\ (~ sameBytes hw (storedUser nodeId s) p ->
        updateGUIforNode s' = Some i
        /\ trace s' = trace s ++ [EvPowerTrigger_NODEDB_UPDATED;
                                  EvNotifyObservers true]).
Proof.
  intros Hwf Hroom.
  destruct (updateUser_spec hw nodeId p s Hwf Hroom)
    as (i & s' & E & H1 & H2 & H3 & H4 & H5 & _).
  exists i, s'. repeat split; try assumption; try (apply H4; assumption);
    apply H5; assumption.
Qed.

Lemma updateUser_effects_witness :
  exists i s',
    updateUser demo_hw 0x42 userA
      (stateOf (updateUser demo_hw 0x42 userA (bootState demo_hw))
               (bootState demo_hw)) = Done tt s'
    /\ getNode 0x42 s' = Some i
    /\ updateGUIforNode s' = Some 0%nat
    /\ trace s' = [EvPowerTrigger_NODEDB_UPDATED; EvNotifyObservers true].
Proof.
  destruct (updateUser_effects demo_hw 0x42 userA
              (stateOf (updateUser demo_hw 0x42 userA (bootState demo_hw))
                       (bootState demo_hw)))
    as (i & s' & E & Hget & _ & _ & Hsame & _).
  - split; [reflexivity | vm_compute; lia].
  - left. exists 0%nat. reflexivity.
  - exists i, s'. split; [exact E|]. split; [exact Hget|].
    destruct (Hsame eq_refl) as [Hgui Htr]. split; [exact Hgui | exact Htr].
Defined.

(** Bytes behind a terminator count: a payload that reads as the stored
    user and carries one more byte behind the terminator of the long name
    is a change, while NULs at the end of an array are its padding. *)
Example updateUser_behind_terminator :
  c_str (User_long_name userA_behind) = User_long_name userA
  /\ ~ sameBytes demo_hw userA userA_behind
  /\ sameBytes demo_hw userA
       (mkUser (User_id userA) (User_long_name userA +:+ String Ascii.zero "")
               (User_short_name userA) (User_macaddr userA))
  /\ exists s',
       updateUser demo_hw 0x42 userA_behind
         (stateOf (updateUser demo_hw 0x42 userA (bootState demo_hw))
                  (bootState demo_hw)) = Done tt s'
       /\ updateGUIforNode s' = Some 0%nat
       /\ trace s' = [EvPowerTrigger_NODEDB_UPDATED; EvNotifyObservers true;
                      EvPowerTrigger_NODEDB_UPDATED; EvNotifyObservers true].
Proof.
  split; [reflexivity|]. split; [intros H; vm_compute in H; discriminate H|].
  split; [reflexivity|].
  eexists. split; [vm_compute; reflexivity|]. split; reflexivity.
Qed.

(** *** [updatePosition] *)

Lemma updatePosition_spec hw nodeId p s :
  wf_table hw s -> hasRoom hw nodeId s ->
  exists i s', updatePosition hw nodeId p s = Done tt s'
    /\ getNode nodeId s' = Some i
    /\ NodeInfo_position (nodeAt i s') = p
    /\ NodeInfo_has_position (nodeAt i s') = true
    /\ updateGUIforNode s' = Some i
    /\ trace s' = trace s ++ [EvNotifyObservers true]
    /\ liveNums s' = numsAfter nodeId s
    /\ wf_table hw s'.
Proof.
  intros Hwf Hroom.
  destruct (getOrCreateNode_spec hw nodeId s Hwf Hroom)
    as (i & s1 & E & Hget & Hlt & Hwf1 & Hnums & _ & _ & _ & Htr & _ & _).
  exists i. unfold updatePosition. rewrite (bind_Done _ _ _ _ _ E). mrun.
  set (s2 := upd_node i (set_NodeInfo_position p) s1).
  set (s3 := upd_node i (set_NodeInfo_has_position true) s2).
  assert (Hlt2 : (i < length (DeviceState_node_db (devicestate s2)))%nat).
  { destruct (upd_node_frame i (set_NodeInfo_position p) s1) as (_ & _ & _ & _ & El).
    unfold s2. rewrite El. exact Hlt. }
  assert (Hnode : nodeAt i s3
                  = set_NodeInfo_has_position true
                      (set_NodeInfo_position p (nodeAt i s1))).
  { unfold s3. rewrite nodeAt_upd_node by exact Hlt2.
    unfold s2. rewrite nodeAt_upd_node by exact Hlt. reflexivity. }
  assert (Hnums3 : liveNums s3 = liveNums s1).
  { unfold s3, s2. rewrite !liveNums_upd_node by reflexivity. reflexivity. }
  assert (Hwf3 : wf_table hw s3)
    by (unfold s3, s2; apply wf_table_upd_node, wf_table_upd_node, Hwf1).
  assert (Hget3 : getNode nodeId s3 = Some i)
    by (rewrite (getNode_liveNums _ _ _ Hnums3); exact Hget).
  assert (Htr3 : trace s3 = trace s) by exact Htr.
  eexists. split; [reflexivity|].
  split; [rewrite <- Hget3; apply getNode_liveNums, liveNums_devicestate; reflexivity|].
  rewrite (nodeAt_devicestate i _ s3) by reflexivity. rewrite Hnode.
  split; [reflexivity|]. split; [reflexivity|]. split; [reflexivity|].
  split; [mcbn; rewrite Htr3; reflexivity|].
  split; [rewrite <- Hnums, <- Hnums3; apply liveNums_devicestate; reflexivity|].
  apply (wf_table_devicestate hw s3); [reflexivity | exact Hwf3].
Qed.

(** *** [updateFrom] *)

Lemma updateFrom_decoded hw mp p s i s1 :
  MeshPacket_payload mp = MeshPacket_decoded p ->
  getOrCreateNode hw (MeshPacket_from mp) s = Done i s1 ->
  updateFrom hw mp s
  = match p with
    | SubPacket_position pos => updatePosition hw (MeshPacket_from mp) pos
    | SubPacket_data _ =>
        me <- gets getNodeNum;;
        when ((MeshPacket_to mp =? NODENUM_BROADCAST hw)
              || (MeshPacket_to mp =? me))%bool
             (modify (emit (EvCallPlugins mp)))
    | SubPacket_user u => updateUser hw (MeshPacket_from mp) u
    | SubPacket_other => notifyObservers false
    end (heardFrom mp i s1).
Proof.
  intros Hp E. unfold updateFrom, heardFrom. rewrite Hp.
  rewrite (bind_Done _ _ _ _ _ E).
  destruct (negb (MeshPacket_rx_time mp =? 0)); mrun; reflexivity.
Qed.

Lemma heardFrom_spec hw mp i s1 :
  wf_table hw s1 ->
  (i < length (DeviceState_node_db (devicestate s1)))%nat ->
  liveNums (heardFrom mp i s1) = liveNums s1
  /\ wf_table hw (heardFrom mp i s1)
  /\ trace (heardFrom mp i s1) = trace s1
  /\ updateGUIforNode (heardFrom mp i s1) = updateGUIforNode s1
  /\ getNodeNum (heardFrom mp i s1) = getNodeNum s1
  /\ NodeInfo_snr (nodeAt i (heardFrom mp i s1)) = MeshPacket_rx_snr mp
  /\ (MeshPacket_rx_time mp <> 0 ->
      NodeInfo_has_position (nodeAt i (heardFrom mp i s1)) = true
      /\ Position_time (NodeInfo_position (nodeAt i (heardFrom mp i s1)))
         = MeshPacket_rx_time mp)
  /\ (MeshPacket_rx_time mp = 0 ->
      NodeInfo_has_position (nodeAt i (heardFrom mp i s1))
      = NodeInfo_has_position (nodeAt i s1)
      /\ NodeInfo_position (nodeAt i (heardFrom mp i s1))
         = NodeInfo_position (nodeAt i s1)).
Proof.
  intros Hwf Hlt. unfold heardFrom.
  destruct (Z.eqb_spec (MeshPacket_rx_time mp) 0) as [Ez|Ez]; cbn [negb].
  - rewrite liveNums_upd_node by reflexivity.
    rewrite nodeAt_upd_node by exact Hlt.
    repeat split; try reflexivity; try contradiction.
    all: apply wf_table_upd_node, Hwf.
  - set (s2 := upd_node i (set_NodeInfo_has_position true) s1).
    set (s3 := upd_node i _ s2).
    assert (Hlt2 : (i < length (DeviceState_node_db (devicestate s2)))%nat).
    { destruct (upd_node_frame i (set_NodeInfo_has_position true) s1)
        as (_ & _ & _ & _ & El). unfold s2. rewrite El. exact Hlt. }
    assert (Hlt3 : (i < length (DeviceState_node_db (devicestate s3)))%nat).
    { unfold s3. rewrite (proj2 (proj2 (proj2 (proj2 (upd_node_frame i _ s2))))).
      exact Hlt2. }
    rewrite liveNums_upd_node by reflexivity.
    rewrite nodeAt_upd_node by exact Hlt3.
    unfold s3 at 5 6 7 8. rewrite !nodeAt_upd_node by exact Hlt2.
    unfold s2 at 3 4 5 6. rewrite !nodeAt_upd_node by exact Hlt.
    unfold s3, s2. rewrite !liveNums_upd_node by reflexivity.
    repeat split; try reflexivity; try contradiction.
    all: apply wf_table_upd_node, wf_table_upd_node, wf_table_upd_node, Hwf.
Qed.

Lemma numsAfter_hit n s i : getNode n s = Some i -> numsAfter n s = liveNums s.
Proof. intros H. unfold numsAfter. rewrite H. reflexivity. Qed.

Lemma hasRoom_hit hw n s i : getNode n s = Some i -> hasRoom hw n s.
Proof. intros H. left. exists i. exact H. Qed.

Lemma updateFrom_spec hw mp s :
  wf_table hw s -> hasRoom hw (MeshPacket_from mp) s ->
  exists s', updateFrom hw mp s = Done tt s'
    /\ liveNums s' = match MeshPacket_payload mp with
                     | MeshPacket_decoded _ => numsAfter (MeshPacket_from mp) s
                     | MeshPacket_encrypted _ => liveNums s
                     end
    /\ wf_table hw s'.
Proof.
  intros Hwf Hroom.
  destruct (MeshPacket_payload mp) as [p|bytes] eqn:Hp.
  2:{ exists s. unfold updateFrom. rewrite Hp. repeat split; try reflexivity; apply Hwf. }
  destruct (getOrCreateNode_spec hw _ s Hwf Hroom)
    as (i & s1 & E & Hget & Hlt & Hwf1 & Hnums & _).
  rewrite (updateFrom_decoded hw mp p s i s1 Hp E).
  destruct (heardFrom_spec hw mp i s1 Hwf1 Hlt) as (Hn & Hwfh & _).
  assert (Hgeth : getNode (MeshPacket_from mp) (heardFrom mp i s1) = Some i)
    by (rewrite (getNode_liveNums _ _ _ Hn); exact Hget).
  destruct p as [pos|payload|u|].
  - destruct (updatePosition_spec hw (MeshPacket_from mp) pos _ Hwfh
                (hasRoom_hit hw _ _ _ Hgeth))
      as (j & s' & E' & _ & _ & _ & _ & _ & Hn' & Hwf').
    exists s'. split; [exact E'|]. split; [|exact Hwf'].
    rewrite Hn', (numsAfter_hit _ _ _ Hgeth), Hn. exact Hnums.
  - mrun.
    destruct (_ || _)%bool; mrun; (eexists; split; [reflexivity|]);
      (split; [rewrite <- Hnums, <- Hn; apply liveNums_devicestate; reflexivity|]);
      apply (wf_table_devicestate hw (heardFrom mp i s1)); try reflexivity; exact Hwfh.
  - destruct (updateUser_spec hw (MeshPacket_from mp) u _ Hwfh
                (hasRoom_hit hw _ _ _ Hgeth))
      as (j & s' & E' & _ & _ & _ & _ & _ & Hn' & Hwf').
    exists s'. split; [exact E'|]. split; [|exact Hwf'].
    rewrite Hn', (numsAfter_hit _ _ _ Hgeth), Hn. exact Hnums.
  - unfold notifyObservers. mrun. eexists. split; [reflexivity|].
    split; [rewrite <- Hnums, <- Hn; apply liveNums_devicestate; reflexivity|].
    apply (wf_table_devicestate hw (heardFrom mp i s1)); try reflexivity; exact Hwfh.
Qed.

(** C10. A decoded application packet addressed neither to broadcast nor
    to this node still upserts the sender, records the link quality and,
    with a receipt time, the position time; it notifies no observer, sets
    no GUI refresh and raises no power management event. *)
Theorem updateFrom_data_elsewhere hw mp payload s :
  wf_table hw s -> hasRoom hw (MeshPacket_from mp) s ->
  MeshPacket_payload mp = MeshPacket_decoded (SubPacket_data payload) ->
  MeshPacket_to mp <> NODENUM_BROADCAST hw ->
  MeshPacket_to mp <> getNodeNum s ->
  exists i s', updateFrom hw mp s = Done tt s'
    /\ getNode (MeshPacket_from mp) s' = Some i
    /\ liveNums s' = numsAfter (MeshPacket_from mp) s
    /\ NodeInfo_snr (nodeAt i s') = MeshPacket_rx_snr mp
    /\ (MeshPacket_rx_time mp <> 0 ->
        NodeInfo_has_position (nodeAt i s') = true
        /\ Position_time (NodeInfo_position (nodeAt i s')) = MeshPacket_rx_time mp)
    /\ trace s' = trace s
    /\ updateGUIforNode s' = updateGUIforNode s.
Proof.
  intros Hwf Hroom Hp Hbc Hme.
  destruct (getOrCreateNode_spec hw _ s Hwf Hroom)
    as (i & s1 & E & Hget & Hlt & Hwf1 & Hnums & _ & _ & _ & Htr & Hgui & Hnum).
  rewrite (updateFrom_decoded hw mp _ s i s1 Hp E).
  destruct (heardFrom_spec hw mp i s1 Hwf1 Hlt)
    as (Hn & Hwfh & Htrh & Hguih & Hnumh & Hsnr & Htime & _).
  mrun. rewrite Hnumh, Hnum.
  destruct (Z.eqb_spec (MeshPacket_to mp) (NODENUM_BROADCAST hw)); [contradiction|].
  destruct (Z.eqb_spec (MeshPacket_to mp) (getNodeNum s)); [contradiction|].
  cbn [orb]. mrun.
  exists i, (heardFrom mp i s1). split; [reflexivity|].
  split; [rewrite (getNode_liveNums _ _ _ Hn); exact Hget|].
  split; [rewrite Hn; exact Hnums|].
  split; [exact Hsnr|]. split; [exact Htime|].
  split; [rewrite Htrh; exact Htr | rewrite Hguih; exact Hgui].
Qed.

Lemma updateFrom_data_elsewhere_witness :
  exists i s',
    updateFrom demo_hw dataPacket (bootState demo_hw) = Done tt s'
    /\ getNode 0x42 s' = Some i
    /\ liveNums s' = [0x42]
    /\ NodeInfo_snr (nodeAt i s') = 7
    /\ Position_time (NodeInfo_position (nodeAt i s')) = 1000
    /\ trace s' = []
    /\ updateGUIforNode s' = None.
Proof.
  destruct (updateFrom_data_elsewhere demo_hw dataPacket [1; 2; 3]
              (bootState demo_hw))
    as (i & s' & E & Hget & Hn & Hsnr & Htime & Htr & Hgui).
  - split; [reflexivity | vm_compute; lia].
  - right. vm_compute. lia.
  - reflexivity.
  - discriminate.
  - discriminate.
  - exists i, s'. split; [exact E|]. split; [exact Hget|]. split; [exact Hn|].
    split; [exact Hsnr|]. split; [apply Htime; discriminate|].
    split; [exact Htr | exact Hgui].
Defined.

(** A position packet heard at time 5000 on a fresh table: the sender is
    online ten seconds later and offline two hundred seconds later. *)
Example updateFrom_position_then_online :
  let s := stateOf (updateFrom demo_hw positionPacket (bootState demo_hw))
                   (bootState demo_hw) in
  getNode 0x42 s = Some 0%nat
  /\ NodeInfo_has_position (nodeAt 0 s) = true
  /\ Position_time (NodeInfo_position (nodeAt 0 s)) = 4990
  /\ trace s = [EvNotifyObservers true]
  /\ getNumOnlineNodes 5000 s = 1%nat
  /\ getNumOnlineNodes 5190 s = 0%nat.
Proof. repeat split; reflexivity. Qed.

(** *** Idempotence of the upsert *)

(** C7. Two upserts of the same key in a row return the same slot, the
    second one changes nothing, and an upsert of a key that is present
    leaves the table as it is; keys stay free of duplicates. *)
Theorem getOrCreateNode_idempotent hw n s :
  wf_table hw s -> hasRoom hw n s ->
  exists i s1, getOrCreateNode hw n s = Done i s1
    /\ getOrCreateNode hw n s1 = Done i s1
    /\ (is_Some (getNode n s) -> s1 = s)
    /\ (NoDup (liveNums s) -> NoDup (liveNums s1))
    /\ (length (liveNums s1) <= S (length (liveNums s)))%nat.
Proof.
  intros Hwf Hroom.
  destruct (getOrCreateNode_spec hw n s Hwf Hroom)
    as (i & s1 & E & Hget & _ & _ & Hnums & _ & Hsame & _).
  exists i, s1. split; [exact E|].
  split; [apply getOrCreateNode_hit; exact Hget|].
  split; [exact Hsame|].
  rewrite Hnums. unfold numsAfter.
  destruct (getNode n s) as [j|] eqn:Hj.
  - split; [tauto | lia].
  - split.
    + intros Hnd. apply NoDup_app. split; [exact Hnd|]. split.
      * intros x Hx Hin. apply list_elem_of_singleton in Hin. subst x.
        unfold getNode in Hj. apply scanNodes_None in Hj. contradiction.
      * apply NoDup_singleton.
    + rewrite length_app. cbn. lia.
Qed.

Lemma getOrCreateNode_idempotent_witness :
  exists i s1,
    getOrCreateNode demo_hw 0x42 (bootState demo_hw) = Done i s1
    /\ getOrCreateNode demo_hw 0x42 s1 = Done i s1.
Proof.
  destruct (getOrCreateNode_idempotent demo_hw 0x42 (bootState demo_hw))
    as (i & s1 & E1 & E2 & _).
  - split; [reflexivity | vm_compute; lia].
  - right. vm_compute. lia.
  - exists i, s1. split; assumption.
Defined.

(** *** Keys of the table *)

Lemma validKeys_numsAfter hw n s :
  validKeys hw s -> validKey hw n -> Forall (validKey hw) (numsAfter n s).
Proof.
  intros Hs Hn. unfold numsAfter.
  destruct (getNode n s); [exact Hs|].
  apply Forall_app. split; [exact Hs|]. apply Forall_singleton. exact Hn.
Qed.

(** C8, amended.  Every operation that inserts into the table stores the
    key it is given, so it keeps the table free of the keys 0 and
    broadcast whenever that key is neither of them. *)
Theorem inserts_preserve_validKeys hw s :
  wf_table hw s -> validKeys hw s ->
  (forall n, validKey hw n -> hasRoom hw n s ->
     exists i s', getOrCreateNode hw n s = Done i s' /\ validKeys hw s')
  /\ (forall n p, validKey hw n -> hasRoom hw n s ->
     exists s', updatePosition hw n p s = Done tt s' /\ validKeys hw s')
  /\ (forall n u, validKey hw n -> hasRoom hw n s ->
     exists s', updateUser hw n u s = Done tt s' /\ validKeys hw s')
  /\ (forall mp, validKey hw (MeshPacket_from mp) ->
     hasRoom hw (MeshPacket_from mp) s ->
     exists s', updateFrom hw mp s = Done tt s' /\ validKeys hw s').
Proof.
  intros Hwf Hvalid. repeat split.
  - intros n Hn Hroom.
    destruct (getOrCreateNode_spec hw n s Hwf Hroom)
      as (i & s' & E & _ & _ & _ & Hnums & _).
    exists i, s'. split; [exact E|]. unfold validKeys. rewrite Hnums.
    apply validKeys_numsAfter; assumption.
  - intros n p Hn Hroom.
    destruct (updatePosition_spec hw n p s Hwf Hroom)
      as (i & s' & E & _ & _ & _ & _ & _ & Hnums & _).
    exists s'. split; [exact E|]. unfold validKeys. rewrite Hnums.
    apply validKeys_numsAfter; assumption.
  - intros n u Hn Hroom.
    destruct (updateUser_spec hw n u s Hwf Hroom)
      as (i & s' & E & _ & _ & _ & _ & _ & Hnums & _).
    exists s'. split; [exact E|]. unfold validKeys. rewrite Hnums.
    apply validKeys_numsAfter; assumption.
  - intros mp Hn Hroom.
    destruct (updateFrom_spec hw mp s Hwf Hroom) as (s' & E & Hnums & _).
    exists s'. split; [exact E|]. unfold validKeys. rewrite Hnums.
    destruct (MeshPacket_payload mp); [|exact Hvalid].
    apply validKeys_numsAfter; assumption.
Qed.

Lemma inserts_preserve_validKeys_witness :
  exists s', updateFrom demo_hw dataPacket (bootState demo_hw) = Done tt s'
    /\ validKeys demo_hw s'.
Proof.
  apply (proj2 (proj2 (proj2
           (inserts_preserve_validKeys demo_hw (bootState demo_hw)
              ltac:(split; [reflexivity | vm_compute; lia])
              ltac:(apply Forall_nil_2))))).
  - split; discriminate.
  - right. vm_compute. lia.
Defined.

(** C8 as stated fails: a packet with sender 0 puts a record keyed 0 into
    a table that had none. *)
Lemma updateFrom_zero_sender_counterexample :
  validKeys demo_hw (bootState demo_hw)
  /\ exists s', updateFrom demo_hw zeroSenderPacket (bootState demo_hw) = Done tt s'
       /\ liveNums s' = [0]
       /\ ~ validKeys demo_hw s'.
Proof.
  split; [apply Forall_nil_2|].
  eexists. split; [vm_compute; reflexivity|].
  split; [reflexivity|].
  unfold validKeys. intros H. apply Forall_cons_1 in H.
  destruct H as [[H0 _] _]. apply H0. reflexivity.
Qed.

(** ** Liveness *)

Lemma online_fold now l : forall acc,
  fold_left
    (fun numseen nd =>
       if sinceLastSeen now nd <? NUM_ONLINE_SECS then S numseen else numseen)
    l acc
  = (acc + length (filter (fun nd => (sinceLastSeen now nd < 120)%Z) l))%nat.
Proof.
  induction l as [|x l IH]; intros acc; cbn [fold_left].
  - cbn. lia.
  - rewrite IH, filter_cons. change NUM_ONLINE_SECS with 120.
    destruct (Z.ltb_spec (sinceLastSeen now x) 120);
      destruct (decide (sinceLastSeen now x < 120)); try lia; cbn [length]; lia.
Qed.

Lemma s32_small x : - 2 ^ 31 <= x < 2 ^ 31 -> s32 x = x.
Proof.
  intros H. unfold s32, u32.
  destruct (Z.ltb_spec (x mod 2 ^ 32) (2 ^ 31)) as [L|L];
    revert L; Z.div_mod_to_equations; lia.
Qed.

Lemma sinceLastSeen_close now nd :
  clocksClose now nd -> sinceLastSeen now nd = claimedElapsed now nd.
Proof.
  unfold clocksClose, sinceLastSeen, claimedElapsed. intros H.
  rewrite (s32_small _ H). unfold u32.
  destruct (Z.ltb_spec (now - Position_time (NodeInfo_position nd)) 0).
  - rewrite Z.max_l by lia. reflexivity.
  - rewrite Z.max_r by lia. apply Z.mod_small. lia.
Qed.

Lemma filter_online_close now l :
  Forall (clocksClose now) l ->
  filter (fun nd => sinceLastSeen now nd < 120) l
  = filter (fun nd => claimedElapsed now nd < 120) l.
Proof.
  induction 1 as [|x l Hx Hl IH]; [reflexivity|].
  rewrite !filter_cons, IH, (sinceLastSeen_close now x Hx). reflexivity.
Qed.

(** C9, amended.  [getNumOnlineNodes] counts the records whose elapsed
    time, the 32 bit difference of the clocks read as a signed integer and
    raised to 0 when negative, is below 120.  That is the count of the
    records with max(0, now - time) < 120 whenever each difference fits a
    signed 32 bit integer; a record with a time ahead of now by at most
    2^31 has elapsed time 0 and counts as online. *)
Theorem getNumOnlineNodes_close now s :
  Forall (clocksClose now) (liveNodes (devicestate s)) ->
  getNumOnlineNodes now s = claimedOnlineCount now s
  /\ forall nd, nd ∈ liveNodes (devicestate s) ->
       now < Position_time (NodeInfo_position nd) ->
       sinceLastSeen now nd = 0 /\ sinceLastSeen now nd < NUM_ONLINE_SECS.
Proof.
  intros Hclose. split.
  - unfold getNumOnlineNodes, claimedOnlineCount.
    rewrite online_fold, (filter_online_close _ _ Hclose). reflexivity.
  - intros nd Hin Hahead.
    rewrite Forall_forall in Hclose. specialize (Hclose nd Hin).
    rewrite (sinceLastSeen_close now nd Hclose). unfold claimedElapsed.
    rewrite Z.max_l by lia. split; [reflexivity | reflexivity].
Qed.

Lemma getNumOnlineNodes_close_witness :
  getNumOnlineNodes 1010
    (withNodes demo_hw [nodeSeenAt 0x42 1000; nodeSeenAt 0x43 2000; nodeSeenAt 0x44 800]
               (bootState demo_hw)) = 2%nat.
Proof.
  refine (eq_trans (proj1 (getNumOnlineNodes_close 1010
            (withNodes demo_hw
               [nodeSeenAt 0x42 1000; nodeSeenAt 0x43 2000; nodeSeenAt 0x44 800]
               (bootState demo_hw)) _)) _).
  - change (Forall (clocksClose 1010)
              [nodeSeenAt 0x42 1000; nodeSeenAt 0x43 2000; nodeSeenAt 0x44 800]).
    repeat (apply Forall_cons_2; [vm_compute; split; [discriminate | reflexivity]|]).
    apply Forall_nil_2.
  - reflexivity.
Defined.

(** C9 as stated fails: with now = 0, a record with time 3000000000 lies
    ahead of now and yet is not counted, the 32 bit difference being
    positive when read as a signed integer. *)
Lemma getNumOnlineNodes_counterexample :
  0 < Position_time (NodeInfo_position (nodeSeenAt 0x42 3000000000))
  /\ claimedOnlineCount 0
       (withNodes demo_hw [nodeSeenAt 0x42 3000000000] (bootState demo_hw)) = 1%nat
  /\ getNumOnlineNodes 0
       (withNodes demo_hw [nodeSeenAt 0x42 3000000000] (bootState demo_hw)) = 0%nat.
Proof. split; [reflexivity|]. split; reflexivity. Qed.

(** ** Node numbers *)

Lemma pickLoop_unfold hw retries r s :
  pickLoop hw retries r s
  = if collides r s then
      match retries with
      | O => OutOfFuel
      | S k =>
          pickLoop hw k
            (u32 (random hw (random_calls s) NUM_RESERVED (NODENUM_BROADCAST hw)))
            (set_random_calls (S (random_calls s)) s)
      end
    else Done r s.
Proof.
  unfold collides. destruct retries; cbn [pickLoop];
    destruct (getNode r s); try reflexivity;
    destruct (bool_decide _); reflexivity.
Qed.

Lemma set_random_calls_id s : set_random_calls (random_calls s) s = s.
Proof. destruct s; reflexivity. Qed.

(** The loop returns the first candidate that does not collide, when the
    retries allowed reach that far. *)
Lemma pickLoop_finds hw k : forall retries r s,
  (forall j, (j < k)%nat -> collides (nthCandidate hw (random_calls s) r j) s = true) ->
  collides (nthCandidate hw (random_calls s) r k) s = false ->
  (k <= retries)%nat ->
  pickLoop hw retries r s
  = Done (nthCandidate hw (random_calls s) r k)
         (set_random_calls (random_calls s + k) s).
Proof.
  induction k as [|k IH]; intros retries r s Hbefore Hat Hle.
  - cbn [nthCandidate] in *. rewrite pickLoop_unfold, Hat.
    rewrite Nat.add_0_r, set_random_calls_id. reflexivity.
  - rewrite pickLoop_unfold.
    pose proof (Hbefore 0%nat ltac:(lia)) as H0. cbn [nthCandidate] in H0.
    rewrite H0.
    destruct retries as [|retries]; [lia|].
    rewrite (IH retries _ (set_random_calls (S (random_calls s)) s)).
    + cbn [nthCandidate]. mcbn. f_equal.
      replace (S (random_calls s) + k)%nat with (random_calls s + S k)%nat by lia.
      reflexivity.
    + intros j Hj. exact (Hbefore (S j) ltac:(lia)).
    + exact Hat.
    + lia.
Qed.

Lemma u32_random_range hw i :
  NODENUM_BROADCAST hw < 2 ^ 32 -> randomInRange hw ->
  NUM_RESERVED
  <= u32 (random hw i NUM_RESERVED (NODENUM_BROADCAST hw))
  < NODENUM_BROADCAST hw.
Proof.
  intros Hb Hr. specialize (Hr i). unfold u32, NUM_RESERVED in *.
  rewrite Z.mod_small by lia. exact Hr.
Qed.

(** Whatever the loop returns is a start value or a draw. *)
Lemma pickLoop_range hw retries : forall r s r' s',
  NODENUM_BROADCAST hw < 2 ^ 32 -> randomInRange hw ->
  NUM_RESERVED <= r -> r <> NODENUM_BROADCAST hw ->
  pickLoop hw retries r s = Done r' s' ->
  NUM_RESERVED <= r' /\ r' <> NODENUM_BROADCAST hw
  /\ devicestate s' = devicestate s.
Proof.
  induction retries as [|retries IH]; intros r s r' s' Hb Hr Hlo Hne H;
    rewrite pickLoop_unfold in H; destruct (collides r s).
  - discriminate.
  - injection H as <- <-. auto.
  - pose proof (u32_random_range hw (random_calls s) Hb Hr) as Hu.
    destruct (IH _ _ _ _ Hb Hr (proj1 Hu) ltac:(lia) H) as (A & B & C).
    auto.
  - injection H as <- <-. auto.
Qed.

Lemma startNodeNum_range hw stored mac :
  NUM_RESERVED < NODENUM_BROADCAST hw ->
  NUM_RESERVED <= startNodeNum hw stored mac
  /\ startNodeNum hw stored mac <> NODENUM_BROADCAST hw.
Proof.
  intros Hb. unfold startNodeNum.
  set (r := if stored =? 0 then macNodeNum mac else stored).
  destruct (Z.eqb_spec r (NODENUM_BROADCAST hw)); cbn [orb]; [lia|].
  destruct (Z.ltb_spec r NUM_RESERVED); lia.
Qed.

(** C5, amended.  Whenever [pickNewNodeNum] returns, the number it stored
    is neither broadcast nor below [NUM_RESERVED]; and it returns after k
    retries when the k-th candidate is the first that is absent from the
    table or carries this device's MAC.  How many retries that takes is up
    to the random source. *)
Theorem pickNewNodeNum_amended hw retries s :
  NUM_RESERVED < NODENUM_BROADCAST hw < 2 ^ 32 ->
  randomInRange hw ->
  let start := startNodeNum hw (getNodeNum s) (ourMacAddr s) in
  (forall s', pickNewNodeNum hw retries s = Done tt s' ->
     NUM_RESERVED <= getNodeNum s' /\ getNodeNum s' <> NODENUM_BROADCAST hw)
  /\ (forall k,
        (forall j, (j < k)%nat ->
           collides (nthCandidate hw (random_calls s) start j) s = true) ->
        collides (nthCandidate hw (random_calls s) start k) s = false ->
        (k <= retries)%nat ->
        exists s', pickNewNodeNum hw retries s = Done tt s'
          /\ getNodeNum s' = nthCandidate hw (random_calls s) start k
          /\ NUM_RESERVED <= getNodeNum s'
          /\ getNodeNum s' <> NODENUM_BROADCAST hw
          /\ random_calls s' = (random_calls s + k)%nat).
Proof.
  intros [Hlo Hhi] Hr start.
  destruct (startNodeNum_range hw (getNodeNum s) (ourMacAddr s) Hlo) as [S1 S2].
  assert (Hsafe : forall s', pickNewNodeNum hw retries s = Done tt s' ->
            NUM_RESERVED <= getNodeNum s' /\ getNodeNum s' <> NODENUM_BROADCAST hw).
  { intros s' H. unfold pickNewNodeNum in H. rewrite !bind_gets in H.
    unfold bind in H. fold start in H.
    destruct (pickLoop hw retries start s) as [r' s1| |] eqn:E; try discriminate.
    cbn [modify] in H. injection H as <-.
    destruct (pickLoop_range hw retries _ _ _ _ Hhi Hr S1 S2 E) as (R1 & R2 & _).
    split; [exact R1 | exact R2]. }
  split; [exact Hsafe|].
  intros k Hbefore Hat Hle.
  pose proof (pickLoop_finds hw k retries start s Hbefore Hat Hle) as E.
  assert (Hrun : pickNewNodeNum hw retries s
                 = Done tt (upd_devicestate
                              (upd_my_node
                                 (set_my_node_num
                                    (nthCandidate hw (random_calls s) start k)))
                              (set_random_calls (random_calls s + k) s))).
  { unfold pickNewNodeNum. rewrite !bind_gets. fold start.
    rewrite (bind_Done _ _ _ _ _ E). reflexivity. }
  eexists. split; [exact Hrun|].
  destruct (Hsafe _ Hrun) as [R1 R2].
  split; [reflexivity|]. split; [exact R1|]. split; [exact R2 | reflexivity].
Qed.

Lemma pickNewNodeNum_amended_witness :
  exists s',
    pickNewNodeNum demo_hw 3
      (withNodes demo_hw [nodeWithMac 4 [1; 1; 1; 1; 1; 1];
                          nodeWithMac 5 [2; 2; 2; 2; 2; 2]]
                 (bootState demo_hw)) = Done tt s'
    /\ getNodeNum s' = 6
    /\ random_calls s' = 3%nat.
Proof.
  destruct (proj2 (pickNewNodeNum_amended demo_hw 3
              (withNodes demo_hw [nodeWithMac 4 [1; 1; 1; 1; 1; 1];
                                  nodeWithMac 5 [2; 2; 2; 2; 2; 2]]
                         (bootState demo_hw))
              ltac:(vm_compute; split; reflexivity)
              ltac:(intros i; cbn [demo_hw random NODENUM_BROADCAST];
                    unfold NUM_RESERVED;
                    pose proof (Z.mod_pos_bound (Z.of_nat i) (4294967295 - 4));
                    lia))
            3%nat) as (s' & E & Hnum & _ & _ & Hcalls).
  - intros j Hj. destruct j as [|[|[|j]]]; [reflexivity..|lia].
  - reflexivity.
  - lia.
  - exists s'. split; [exact E|]. split; [exact Hnum | exact Hcalls].
Defined.

Lemma pickLoop_stuck retries : forall calls,
  pickLoop stuck_hw retries 4
    (set_random_calls calls
       (withNodes stuck_hw [nodeWithMac 4 [1; 1; 1; 1; 1; 1]] (bootState stuck_hw)))
  = OutOfFuel.
Proof.
  induction retries as [|retries IH]; intros calls; rewrite pickLoop_unfold.
  - reflexivity.
  - change (collides 4 _) with true. cbv iota. exact (IH (S calls)).
Qed.

(** C5 as stated fails: the source has no bound on the retries.  With a
    record under the number 4 and another MAC in the table, and a random
    source that keeps returning 4, no number of retries lets
    [pickNewNodeNum] return. *)
Lemma pickNewNodeNum_unbounded_counterexample :
  randomInRange stuck_hw
  /\ ~ exists retries,
         returns (pickNewNodeNum stuck_hw retries
                    (withNodes stuck_hw [nodeWithMac 4 [1; 1; 1; 1; 1; 1]]
                               (bootState stuck_hw))).
Proof.
  split.
  - intros i. cbn [stuck_hw random NODENUM_BROADCAST]. unfold NUM_RESERVED. lia.
  - intros [retries H]. unfold pickNewNodeNum in H. rewrite !bind_gets in H.
    unfold bind in H.
    change (startNodeNum stuck_hw _ _) with 4 in H.
    pose proof (pickLoop_stuck retries 0) as E. 
    change (set_random_calls 0 ?s) with s in E.
    rewrite E in H. exact H.
Qed.

(** * Further properties of the code *)

(** ** [resetRadioConfig]: everything it leaves *)

Lemma resolveChannelName_shorten cs :
  resolveChannelName (shortenDefaultPsk cs) = resolveChannelName cs.
Proof. unfold shortenDefaultPsk. destruct (_ && _)%bool; reflexivity. Qed.

Lemma resolveChannelName_nonempty cs : resolveChannelName cs <> EmptyString.
Proof.
  unfold resolveChannelName.
  destruct (bool_decide_reflect (ChannelSettings_name cs = EmptyString)) as [E|E];
    [|exact E].
  destruct (negb _); [discriminate|].
  repeat (destruct (_ =? _); [discriminate|]). discriminate.
Qed.

Lemma channelSettings_tail d :
  channelSettings_of (tail_devicestate d)
  = shortenDefaultPsk
      (if bool_decide (ChannelSettings_name (channelSettings_of d) = "Default"%string)
       then set_name EmptyString (channelSettings_of d)
       else channelSettings_of d).
Proof.
  unfold tail_devicestate. cbv zeta.
  destruct (bool_decide _);
    match goal with
    | |- context [DeviceState_no_save ?x] => destruct (DeviceState_no_save x)
    end; reflexivity.
Qed.

Lemma shortenDefaultPsk_name cs :
  ChannelSettings_name (shortenDefaultPsk cs) = ChannelSettings_name cs.
Proof. unfold shortenDefaultPsk. destruct (_ && _)%bool; reflexivity. Qed.

Lemma channelSettings_upd f d :
  channelSettings_of (upd_channelSettings f d) = f (channelSettings_of d).
Proof. destruct d as [? [? ? ? ?] ? ? ? ? ? ? ? ? ?]. reflexivity. Qed.

Lemma channelSettings_upd_prefs f d :
  channelSettings_of (upd_prefs f d) = channelSettings_of d.
Proof. destruct d as [? [? ? ? ?] ? ? ? ? ? ? ? ? ?]. reflexivity. Qed.

(** The text behind the pointer that [resolveChannelRef] gives, while the
    name of the settings is the one it was given. *)
Lemma channelName_text cs name :
  name = ChannelSettings_name cs ->
  match resolveChannelRef cs with
  | Name_of_settings => name
  | Name_literal text => text
  end = resolveChannelName cs.
Proof.
  intros ->. unfold resolveChannelRef, resolveChannelName. cbv zeta.
  destruct (bool_decide _); [|reflexivity].
  repeat match goal with |- context [if ?b then _ else _] => destruct b end;
    reflexivity.
Qed.

Lemma resetRadioConfig_tail_full s :
  exists s', resetRadioConfig_tail s = Done tt s'
    /\ devicestate s' = tail_devicestate (devicestate s)
    /\ activePSK s' = fst (expandPSK (psk_of (devicestate s')) (activePSK s))
    /\ activePSKSize s' = snd (expandPSK (psk_of (devicestate s')) (activePSK s))
    /\ channelName s' = resolveChannelName (channelSettings_of (devicestate s'))
    /\ radioGeneration s' = radioGeneration s
    /\ ourMacAddr s' = ourMacAddr s
    /\ updateGUIforNode s' = updateGUIforNode s
    /\ random_calls s' = random_calls s
    /\ fs s' = fs s
    /\ trace s' = trace s ++ [EvSetKey (activePSKSize s') (activePSK s'); EvInitRegion].
Proof.
  destruct (resetRadioConfig_tail_spec s) as (s' & E & Hd & Hk & Hn & Hr & Hf).
  exists s'. split; [exact E|]. split; [exact Hd|]. split; [exact Hk|].
  split; [exact Hn|].
  rewrite Hd, channelSettings_tail, resolveChannelName_shorten.
  revert E. unfold resetRadioConfig_tail. mrun.
  destruct (bool_decide _); mrun;
    match goal with
    | |- context [when (DeviceState_no_save ?d)] =>
        destruct (DeviceState_no_save d)
    end; mrun; intros E; injection E as <-; mcbn;
    rewrite <- !app_assoc; (split; [|repeat split; try reflexivity; assumption]).
  all: clear; unfold channelName; mcbn; apply channelName_text;
    rewrite ?channelSettings_upd_prefs, !channelSettings_upd,
      shortenDefaultPsk_name; reflexivity.
Qed.

(** What the function leaves when it does no factory reset. *)
Lemma resetRadioConfig_plain hw retries depth s :
  Pref_factory_reset (preferences_of (devicestate s)) = false ->
  exists s', resetRadioConfig hw retries depth s = Done false s'
    /\ devicestate s' =
       tail_devicestate
         (if (psk_size (psk_of (devicestate s)) =? 0)%nat
          then setDefaultPreferences (devicestate s) else devicestate s)
    /\ activePSK s' = fst (expandPSK (psk_of (devicestate s')) (activePSK s))
    /\ activePSKSize s' = snd (expandPSK (psk_of (devicestate s')) (activePSK s))
    /\ channelName s' = resolveChannelName (channelSettings_of (devicestate s'))
    /\ radioGeneration s' = u32 (radioGeneration s + 1)
    /\ ourMacAddr s' = ourMacAddr s
    /\ updateGUIforNode s' = updateGUIforNode s
    /\ random_calls s' = random_calls s
    /\ fs s' = fs s
    /\ trace s' = trace s ++ [EvSetKey (activePSKSize s') (activePSK s'); EvInitRegion].
Proof.
  intros Hfr. rewrite resetRadioConfig_unfold. unfold resetRadioConfig_with.
  mrun. rewrite Hfr. mrun. unfold psk_of.
  destruct (psk_size _ =? 0)%nat; mrun;
    match goal with
    | |- context [bind resetRadioConfig_tail ?k ?z] =>
        destruct (resetRadioConfig_tail_full z)
          as (s' & E & Hd & Hk & Hn & Hc & Hg & Hm & Hu & Hr & Hf & Ht);
        rewrite (bind_Done _ k _ _ _ E)
    end; mrun; mcbn_in Hd; mcbn_in Hk; mcbn_in Hn; mcbn_in Hg; mcbn_in Hm;
    mcbn_in Hu; mcbn_in Hr; mcbn_in Hf; mcbn_in Ht;
    exists s'; repeat split; assumption.
Qed.

Lemma installDefaultDeviceState_full hw retries depth s :
  exists s', installDefaultDeviceState hw retries depth s = Done tt s'
    /\ devicestate s' =
       keepRegion (Pref_region (preferences_of (devicestate s)))
                  (MyNodeInfo_region (DeviceState_my_node (devicestate s)))
                  (defaultDeviceState hw)
    /\ activePSK s' = fst (expandPSK (mkPsk 1 (1 :: replicate 31 0)) (activePSK s))
    /\ activePSKSize s' = snd (expandPSK (mkPsk 1 (1 :: replicate 31 0)) (activePSK s))
    /\ channelName s' = "LongSlow"%string
    /\ radioGeneration s' = u32 (radioGeneration s + 1)
    /\ ourMacAddr s' = getMacAddr hw
    /\ updateGUIforNode s' = updateGUIforNode s
    /\ random_calls s' = random_calls s
    /\ fs s' = fs s
    /\ trace s' = trace s ++ [EvSetKey (activePSKSize s') (activePSK s');
                              EvInitRegion; EvGeneratePacketId].
Proof.
  unfold installDefaultDeviceState, installDefaultDeviceState_with. mrun.
  match goal with
  | |- context [bind (resetRadioConfig hw retries depth) ?k ?z] =>
      destruct (resetRadioConfig_plain hw retries depth z eq_refl)
        as (s1 & E & Hd & Hk & Hn & Hc & Hg & Hm & Hu & Hr & Hf & Ht);
      rewrite (bind_Done _ k _ _ _ E)
  end.
  mcbn_in Hd; mcbn_in Hk; mcbn_in Hn; mcbn_in Hg; mcbn_in Hm;
    mcbn_in Hu; mcbn_in Hr; mcbn_in Hf; mcbn_in Ht.
  mrun.
  match goal with
  | |- context [bind (pickNewNodeNum hw retries) ?k ?z] =>
      rewrite (bind_Done _ k _ _ _ (pickNewNodeNum_empty hw retries z
                 ltac:(mcbn; rewrite Hd; reflexivity)))
  end.
  mrun.
  assert (Hpsk : psk_of (devicestate s1) = mkPsk 1 (1 :: replicate 31 0))
    by (rewrite Hd; reflexivity).
  rewrite Hpsk in Hk, Hn.
  assert (Hname : channelName s1 = "LongSlow"%string)
    by (rewrite Hc, Hd; reflexivity).
  set (code := Pref_region (preferences_of (devicestate s))).
  set (region := MyNodeInfo_region (DeviceState_my_node (devicestate s))).
  unfold keepRegion.
  destruct (negb (code =? RegionCode_Unset)); mrun;
    destruct (negb (bool_decide (region = EmptyString))); mrun;
    (eexists; split; [reflexivity|]); mcbn;
    (split; [unfold getNodeNum; mcbn; rewrite Hd; reflexivity|]);
    rewrite Ht, <- !app_assoc; repeat split; assumption.
Qed.

Lemma shortenDefaultPsk_idem cs :
  shortenDefaultPsk (shortenDefaultPsk cs) = shortenDefaultPsk cs.
Proof.
  destruct cs as [tx mc [size bytes] name bw]. unfold shortenDefaultPsk.
  cbn [ChannelSettings_psk psk_size psk_bytes].
  destruct ((size =? length defaultpsk)%nat
            && bool_decide (take (length defaultpsk) bytes = defaultpsk))%bool eqn:E.
  - reflexivity.
  - cbn [ChannelSettings_psk psk_size psk_bytes]. rewrite E. reflexivity.
Qed.

Lemma dropDefaultName_idem cs : dropDefaultName (dropDefaultName cs) = dropDefaultName cs.
Proof.
  destruct cs as [tx mc psk name bw]. unfold dropDefaultName.
  cbn [ChannelSettings_name].
  destruct (bool_decide (name = "Default"%string)) eqn:E.
  - reflexivity.
  - cbn [ChannelSettings_name]. rewrite E. reflexivity.
Qed.

Lemma dropDefaultName_shorten cs :
  dropDefaultName (shortenDefaultPsk cs) = shortenDefaultPsk (dropDefaultName cs).
Proof.
  destruct cs as [tx mc [size bytes] name bw].
  unfold dropDefaultName, shortenDefaultPsk.
  cbn [ChannelSettings_psk psk_size psk_bytes ChannelSettings_name].
  destruct ((size =? length defaultpsk)%nat
            && bool_decide (take (length defaultpsk) bytes = defaultpsk))%bool eqn:E;
    cbn [set_psk ChannelSettings_name];
    destruct (bool_decide (name = "Default"%string));
    cbn [set_name ChannelSettings_psk psk_size psk_bytes]; rewrite E; reflexivity.
Qed.

(** [tail_devicestate], piece by piece. *)
Lemma tail_devicestate_parts d :
  channelSettings_of (tail_devicestate d)
  = shortenDefaultPsk (dropDefaultName (channelSettings_of d))
  /\ preferences_of (tail_devicestate d)
     = (if DeviceState_no_save d
        then developmentPreferences (preferences_of d) else preferences_of d)
  /\ DeviceState_my_node (tail_devicestate d) = DeviceState_my_node d
  /\ DeviceState_owner (tail_devicestate d) = DeviceState_owner d
  /\ DeviceState_node_db (tail_devicestate d) = DeviceState_node_db d
  /\ DeviceState_node_db_count (tail_devicestate d) = DeviceState_node_db_count d
  /\ DeviceState_version (tail_devicestate d) = DeviceState_version d
  /\ DeviceState_no_save (tail_devicestate d) = DeviceState_no_save d
  /\ DeviceState_receive_queue_count (tail_devicestate d)
     = DeviceState_receive_queue_count d
  /\ DeviceState_has_radio (tail_devicestate d) = DeviceState_has_radio d
  /\ DeviceState_has_my_node (tail_devicestate d) = DeviceState_has_my_node d
  /\ DeviceState_has_owner (tail_devicestate d) = DeviceState_has_owner d
  /\ RadioConfig_has_preferences (DeviceState_radio (tail_devicestate d))
     = RadioConfig_has_preferences (DeviceState_radio d)
  /\ RadioConfig_has_channel_settings (DeviceState_radio (tail_devicestate d))
     = RadioConfig_has_channel_settings (DeviceState_radio d).
Proof.
  destruct d as [hr [hp prefs hc cs] hm mn ho ow cnt db rq ver ns].
  unfold tail_devicestate, dropDefaultName. cbv zeta.
  cbn [channelSettings_of DeviceState_radio RadioConfig_channel_settings].
  destruct (bool_decide _); destruct ns; repeat split; reflexivity.
Qed.

Lemma DeviceState_eq_parts d d' :
  channelSettings_of d = channelSettings_of d' ->
  preferences_of d = preferences_of d' ->
  DeviceState_my_node d = DeviceState_my_node d' ->
  DeviceState_owner d = DeviceState_owner d' ->
  DeviceState_node_db d = DeviceState_node_db d' ->
  DeviceState_node_db_count d = DeviceState_node_db_count d' ->
  DeviceState_version d = DeviceState_version d' ->
  DeviceState_no_save d = DeviceState_no_save d' ->
  DeviceState_receive_queue_count d = DeviceState_receive_queue_count d' ->
  DeviceState_has_radio d = DeviceState_has_radio d' ->
  DeviceState_has_my_node d = DeviceState_has_my_node d' ->
  DeviceState_has_owner d = DeviceState_has_owner d' ->
  RadioConfig_has_preferences (DeviceState_radio d)
  = RadioConfig_has_preferences (DeviceState_radio d') ->
  RadioConfig_has_channel_settings (DeviceState_radio d)
  = RadioConfig_has_channel_settings (DeviceState_radio d') ->
  d = d'.
Proof.
  destruct d as [hr [hp prefs hc cs] hm mn ho ow cnt db rq ver ns].
  destruct d' as [hr' [hp' prefs' hc' cs'] hm' mn' ho' ow' cnt' db' rq' ver' ns'].
  cbn. intros. subst. reflexivity.
Qed.

Lemma developmentPreferences_idem p :
  developmentPreferences (developmentPreferences p) = developmentPreferences p.
Proof. reflexivity. Qed.

Lemma tail_devicestate_idem d :
  tail_devicestate (tail_devicestate d) = tail_devicestate d.
Proof.
  pose proof (tail_devicestate_parts d)
    as (C & P & M & O & N & K & V & S & Q & H1 & H2 & H3 & H4 & H5).
  pose proof (tail_devicestate_parts (tail_devicestate d))
    as (C' & P' & M' & O' & N' & K' & V' & S' & Q' & H1' & H2' & H3' & H4' & H5').
  apply DeviceState_eq_parts; try congruence.
  - rewrite C', C, dropDefaultName_shorten, dropDefaultName_idem,
      shortenDefaultPsk_idem. reflexivity.
  - rewrite P', S, P. destruct (DeviceState_no_save d); reflexivity.
Qed.

Lemma keepRegion_parts code region d :
  channelSettings_of (keepRegion code region d) = channelSettings_of d
  /\ Pref_factory_reset (preferences_of (keepRegion code region d))
     = Pref_factory_reset (preferences_of d)
  /\ DeviceState_no_save (keepRegion code region d) = DeviceState_no_save d
  /\ DeviceState_node_db_count (keepRegion code region d)
     = DeviceState_node_db_count d
  /\ DeviceState_node_db (keepRegion code region d) = DeviceState_node_db d
  /\ DeviceState_owner (keepRegion code region d) = DeviceState_owner d
  /\ MyNodeInfo_my_node_num (DeviceState_my_node (keepRegion code region d))
     = MyNodeInfo_my_node_num (DeviceState_my_node d).
Proof.
  unfold keepRegion.
  destruct (negb (code =? RegionCode_Unset));
    destruct (negb (bool_decide (region = EmptyString)));
    repeat split; reflexivity.
Qed.

Lemma tail_keepRegion_default hw code region :
  tail_devicestate (keepRegion code region (defaultDeviceState hw))
  = keepRegion code region (defaultDeviceState hw).
Proof.
  unfold keepRegion.
  destruct (negb (code =? RegionCode_Unset));
    destruct (negb (bool_decide (region = EmptyString))); reflexivity.
Qed.

(** What the function leaves when it does a factory reset. *)
Lemma resetRadioConfig_reset hw retries depth s :
  Pref_factory_reset (preferences_of (devicestate s)) = true ->
  (1 <= depth)%nat ->
  exists s', resetRadioConfig hw retries depth s = Done true s'
    /\ devicestate s' =
       keepRegion (Pref_region (preferences_of (devicestate s)))
                  (MyNodeInfo_region (DeviceState_my_node (devicestate s)))
                  (defaultDeviceState hw)
    /\ channelName s' = "LongSlow"%string
    /\ radioGeneration s' = u32 (u32 (radioGeneration s + 1) + 1)
    /\ ourMacAddr s' = getMacAddr hw
    /\ updateGUIforNode s' = updateGUIforNode s
    /\ random_calls s' = random_calls s
    /\ fs s' = fs s.
Proof.
  intros Hfr Hdepth. destruct depth as [|d]; [lia|].
  rewrite resetRadioConfig_unfold. unfold resetRadioConfig_with. mrun.
  rewrite Hfr. mrun.
  match goal with
  | |- context [bind (installDefaultDeviceState_with hw retries ?r) ?k ?z] =>
      destruct (installDefaultDeviceState_full hw retries d z)
        as (s1 & E & Hd & _ & _ & _ & Hg & Hm & Hu & Hr & Hf & _);
      unfold installDefaultDeviceState in E;
      rewrite (bind_Done _ _ _ _ _ E)
  end.
  mcbn_in Hd; mcbn_in Hg; mcbn_in Hm; mcbn_in Hu; mcbn_in Hr; mcbn_in Hf.
  mrun.
  destruct (resetRadioConfig_tail_full s1)
    as (s' & E' & Hd' & _ & _ & Hc' & Hg' & Hm' & Hu' & Hr' & Hf' & _).
  rewrite (bind_Done _ _ _ _ _ E'). mrun.
  rewrite Hd, tail_keepRegion_default in Hd'.
  exists s'. split; [reflexivity|]. split; [exact Hd'|].
  split.
  { rewrite Hc', Hd'.
    rewrite (proj1 (keepRegion_parts _ _ _)). reflexivity. }
  repeat split; congruence.
Qed.

Lemma u32_succ_neq g : 0 <= g < 2 ^ 32 -> u32 (g + 1) <> g /\ u32 (g + 2) <> g.
Proof. intros H. unfold u32. split; Z.div_mod_to_equations; lia. Qed.

Lemma u32_succ_succ g : u32 (u32 (g + 1) + 1) = u32 (g + 2).
Proof.
  unfold u32. rewrite Z.add_mod_idemp_l by lia. f_equal. lia.
Qed.

(** X1. Every call of [resetRadioConfig] changes [radioGeneration]: by one
    without a factory reset and by two with one (the reset runs the function
    once more), counted modulo 2^32; the result tells whether the factory
    reset flag was set. *)
Theorem resetRadioConfig_bumps_generation hw retries depth s :
  (1 <= depth)%nat ->
  0 <= radioGeneration s < 2 ^ 32 ->
  exists b s', resetRadioConfig hw retries depth s = Done b s'
    /\ b = Pref_factory_reset (preferences_of (devicestate s))
    /\ radioGeneration s'
       = (if b then u32 (radioGeneration s + 2) else u32 (radioGeneration s + 1))
    /\ radioGeneration s' <> radioGeneration s.
Proof.
  intros Hdepth Hg. destruct (u32_succ_neq _ Hg) as [N1 N2].
  destruct (Pref_factory_reset (preferences_of (devicestate s))) eqn:Hfr.
  - destruct (resetRadioConfig_reset hw retries depth s Hfr Hdepth)
      as (s' & E & _ & _ & G & _).
    exists true, s'. rewrite G, u32_succ_succ. auto.
  - destruct (resetRadioConfig_plain hw retries depth s Hfr)
      as (s' & E & _ & _ & _ & _ & G & _).
    exists false, s'. rewrite G. auto.
Qed.

Lemma resetRadioConfig_bumps_generation_witness :
  exists b s',
    resetRadioConfig demo_hw 0 1
      (set_radioGeneration (2 ^ 32 - 1) (bootState demo_hw)) = Done b s'
    /\ radioGeneration s' = 0.
Proof.
  destruct (resetRadioConfig_bumps_generation demo_hw 0 1
              (set_radioGeneration (2 ^ 32 - 1) (bootState demo_hw)))
    as (b & s' & E & Hb & G & _).
  - lia.
  - cbn [radioGeneration set_radioGeneration]. lia.
  - exists b, s'. split; [exact E|]. rewrite G, Hb. reflexivity.
Defined.

(** X2. With the factory reset flag set, [resetRadioConfig] returns true and
    leaves the default record with the region setting kept; the flag is
    then clear, so the next call returns false and changes nothing in the
    record. *)
Theorem resetRadioConfig_factory_reset_once hw retries depth s :
  Pref_factory_reset (preferences_of (devicestate s)) = true ->
  (1 <= depth)%nat ->
  exists s', resetRadioConfig hw retries depth s = Done true s'
    /\ devicestate s' =
       keepRegion (Pref_region (preferences_of (devicestate s)))
                  (MyNodeInfo_region (DeviceState_my_node (devicestate s)))
                  (defaultDeviceState hw)
    /\ Pref_factory_reset (preferences_of (devicestate s')) = false
    /\ DeviceState_node_db_count (devicestate s') = 0%nat
    /\ exists s'', resetRadioConfig hw retries depth s' = Done false s''
         /\ devicestate s'' = devicestate s'.
Proof.
  intros Hfr Hdepth.
  destruct (resetRadioConfig_reset hw retries depth s Hfr Hdepth)
    as (s' & E & Hd & _).
  exists s'. split; [exact E|]. split; [exact Hd|].
  pose proof (keepRegion_parts
                (Pref_region (preferences_of (devicestate s)))
                (MyNodeInfo_region (DeviceState_my_node (devicestate s)))
                (defaultDeviceState hw)) as (C & F & _ & K & _).
  assert (Hfr' : Pref_factory_reset (preferences_of (devicestate s')) = false)
    by (rewrite Hd, F; reflexivity).
  split; [exact Hfr'|]. split; [rewrite Hd, K; reflexivity|].
  destruct (resetRadioConfig_plain hw retries depth s' Hfr')
    as (s'' & E' & Hd' & _).
  exists s''. split; [exact E'|]. rewrite Hd'.
  replace (psk_size (psk_of (devicestate s')) =? 0)%nat with false
    by (unfold psk_of; rewrite Hd, C; reflexivity).
  rewrite Hd. apply tail_keepRegion_default.
Qed.

Lemma resetRadioConfig_factory_reset_once_witness :
  exists s',
    resetRadioConfig demo_hw 0 1
      (radioState zero_ChannelSettings (mkUserPreferences 0 0 0 0 3 true) false)
    = Done true s'
    /\ Pref_region (preferences_of (devicestate s')) = 3
    /\ Pref_factory_reset (preferences_of (devicestate s')) = false.
Proof.
  destruct (resetRadioConfig_factory_reset_once demo_hw 0 1
              (radioState zero_ChannelSettings (mkUserPreferences 0 0 0 0 3 true) false))
    as (s' & E & Hd & Hfr & _).
  - reflexivity.
  - lia.
  - exists s'. split; [exact E|]. split; [rewrite Hd; reflexivity | exact Hfr].
Defined.

Lemma resetRadioConfig_normal_form hw retries depth s :
  (1 <= depth)%nat ->
  exists b s' d, resetRadioConfig hw retries depth s = Done b s'
    /\ devicestate s' = tail_devicestate d
    /\ channelName s' = resolveChannelName (channelSettings_of (devicestate s'))
    /\ Pref_factory_reset (preferences_of (devicestate s')) = false
    /\ psk_size (psk_of (devicestate s')) <> 0%nat.
Proof.
  intros Hdepth.
  destruct (Pref_factory_reset (preferences_of (devicestate s))) eqn:Hfr.
  - destruct (resetRadioConfig_reset hw retries depth s Hfr Hdepth)
      as (s' & E & Hd & Hc & _).
    pose proof (keepRegion_parts
                  (Pref_region (preferences_of (devicestate s)))
                  (MyNodeInfo_region (DeviceState_my_node (devicestate s)))
                  (defaultDeviceState hw)) as (C & F & _).
    exists true, s', (devicestate s'). split; [exact E|].
    split; [rewrite Hd, tail_keepRegion_default; reflexivity|].
    split; [rewrite Hc, Hd, C; reflexivity|].
    split; [rewrite Hd, F; reflexivity|].
    unfold psk_of. rewrite Hd, C. discriminate.
  - destruct (resetRadioConfig_plain hw retries depth s Hfr)
      as (s' & E & Hd & _ & _ & Hc & _).
    eexists false, s', _. split; [exact E|]. split; [exact Hd|].
    split; [exact Hc|].
    match type of Hd with _ = tail_devicestate ?x => set (d0 := x) in * end.
    pose proof (tail_devicestate_parts d0) as (C & P & _).
    assert (Hfr0 : Pref_factory_reset (preferences_of d0) = false).
    { unfold d0. destruct (_ =? _)%nat; [|exact Hfr].
      destruct (devicestate s) as [? [? ? ? ?] ? ? ? ? ? ? ? ? ?]. exact Hfr. }
    assert (Hsz0 : psk_size (psk_of d0) <> 0%nat).
    { unfold d0. destruct (Nat.eqb_spec (psk_size (psk_of (devicestate s))) 0);
        [discriminate | assumption]. }
    split.
    + rewrite Hd, P. destruct (DeviceState_no_save d0); exact Hfr0.
    + unfold psk_of in *. rewrite Hd, C.
      unfold shortenDefaultPsk, dropDefaultName.
      destruct (bool_decide _); cbn [set_name ChannelSettings_psk];
        destruct (_ && _)%bool; cbn [set_psk ChannelSettings_psk psk_size];
        try discriminate; exact Hsz0.
Qed.

Lemma dropDefaultName_name cs :
  ChannelSettings_name (dropDefaultName cs) <> "Default"%string.
Proof.
  unfold dropDefaultName.
  destruct (bool_decide_reflect (ChannelSettings_name cs = "Default"%string));
    [discriminate | assumption].
Qed.

(** X3. After [resetRadioConfig] the stored channel name is never the old
    "Default", and [channelName] is never empty: it is the stored name when
    there is one, "Unset" when a bandwidth is given without a name, and a
    preset name or "Invalid" otherwise. *)
Theorem resetRadioConfig_channel_name hw retries depth s :
  (1 <= depth)%nat ->
  exists b s', resetRadioConfig hw retries depth s = Done b s'
    /\ let cs := channelSettings_of (devicestate s') in
       ChannelSettings_name cs <> "Default"%string
       /\ channelName s' <> EmptyString
       /\ (ChannelSettings_name cs <> EmptyString ->
           channelName s' = ChannelSettings_name cs)
       /\ (ChannelSettings_name cs = EmptyString ->
           ChannelSettings_bandwidth cs <> 0 -> channelName s' = "Unset"%string)
       /\ (ChannelSettings_name cs = EmptyString ->
           ChannelSettings_bandwidth cs = 0 ->
           channelName s'
           = if ChannelSettings_modem_config cs =? 0 then "Medium"%string
             else if ChannelSettings_modem_config cs =? 1 then "ShortFast"%string
             else if ChannelSettings_modem_config cs =? 2 then "LongAlt"%string
             else if ChannelSettings_modem_config cs =? 3 then "LongSlow"%string
             else "Invalid"%string).
Proof.
  intros Hdepth.
  destruct (resetRadioConfig_normal_form hw retries depth s Hdepth)
    as (b & s' & d & E & Hd & Hc & _).
  exists b, s'. split; [exact E|]. cbv zeta. rewrite Hc.
  split.
  { rewrite Hd, (proj1 (tail_devicestate_parts d)), shortenDefaultPsk_name.
    apply dropDefaultName_name. }
  split; [apply resolveChannelName_nonempty|].
  unfold resolveChannelName.
  split; [|split].
  - intros Hne.
    destruct (bool_decide_reflect
                (ChannelSettings_name (channelSettings_of (devicestate s'))
                 = EmptyString)); [contradiction | reflexivity].
  - intros He Hbw. rewrite He. cbn [bool_decide decide_rel].
    rewrite bool_decide_eq_true_2 by reflexivity.
    destruct (Z.eqb_spec (ChannelSettings_bandwidth
                            (channelSettings_of (devicestate s'))) 0);
      [contradiction | reflexivity].
  - intros He Hbw. rewrite He, Hbw.
    rewrite bool_decide_eq_true_2 by reflexivity. reflexivity.
Qed.

Lemma resetRadioConfig_channel_name_witness :
  exists b s',
    resetRadioConfig demo_hw 0 1
      (radioState (mkChannelSettings 0 1 (mkPsk 1 (5 :: replicate 31 0)) "Default" 0)
                  zero_UserPreferences false) = Done b s'
    /\ ChannelSettings_name (channelSettings_of (devicestate s')) = EmptyString
    /\ channelName s' = "ShortFast"%string.
Proof.
  destruct (resetRadioConfig_channel_name demo_hw 0 1
              (radioState (mkChannelSettings 0 1 (mkPsk 1 (5 :: replicate 31 0))
                                             "Default" 0)
                          zero_UserPreferences false))
    as (b & s' & E & _).
  - lia.
  - exists b, s'. split; [exact E|].
    vm_compute in E. injection E as _ <-. split; reflexivity.
Defined.

(** X4. A stored key of 16 bytes that is the default key becomes the
    compact index 1 in the record, and the live key is the default key. *)
Theorem resetRadioConfig_migrates_default_key hw retries depth s :
  Pref_factory_reset (preferences_of (devicestate s)) = false ->
  length (activePSK s) = PSK_CAPACITY ->
  length (psk_bytes (psk_of (devicestate s))) = PSK_CAPACITY ->
  psk_size (psk_of (devicestate s)) = 16%nat ->
  take 16 (psk_bytes (psk_of (devicestate s))) = defaultpsk ->
  exists s', resetRadioConfig hw retries depth s = Done false s'
    /\ psk_of (devicestate s')
       = mkPsk 1 (<[0%nat := 1]> (psk_bytes (psk_of (devicestate s))))
    /\ liveKey s' = defaultpsk
    /\ activePSKSize s' = 16%nat.
Proof.
  intros Hfr Ha Hb Hsz Hkey.
  destruct (resetRadioConfig_plain hw retries depth s Hfr)
    as (s' & E & Hd & Hk & Hn & _).
  rewrite Hsz in Hd. cbn [Nat.eqb] in Hd.
  assert (Hpsk : psk_of (devicestate s')
                 = mkPsk 1 (<[0%nat := 1]> (psk_bytes (psk_of (devicestate s))))).
  { unfold psk_of at 1. rewrite Hd, (proj1 (tail_devicestate_parts _)).
    unfold shortenDefaultPsk.
    assert (Hp : ChannelSettings_psk (dropDefaultName (channelSettings_of (devicestate s)))
                 = psk_of (devicestate s))
      by (unfold dropDefaultName, psk_of; destruct (bool_decide _); reflexivity).
    rewrite Hp, Hsz. change (length defaultpsk) with 16%nat. cbn [Nat.eqb andb].
    rewrite bool_decide_eq_true_2 by exact Hkey. reflexivity. }
  exists s'. split; [exact E|]. split; [exact Hpsk|].
  assert (Hw : wf_psk (psk_of (devicestate s'))).
  { rewrite Hpsk. split; cbn [psk_bytes psk_size];
      [rewrite length_insert; exact Hb | unfold PSK_CAPACITY; lia]. }
  destruct (expandPSK_key _ _ Hw Ha) as (K & _ & N).
  unfold liveKey. rewrite Hk, Hn, K, N, Hpsk. unfold expandedKey.
  cbn [psk_size psk_bytes Nat.eqb].
  destruct (psk_bytes (psk_of (devicestate s))) as [|b0 bs];
    [discriminate Hb|].
  cbn. split; reflexivity.
Qed.

Lemma resetRadioConfig_migrates_default_key_witness :
  exists s',
    resetRadioConfig demo_hw 0 0
      (radioState (mkChannelSettings 0 3 legacyDefaultPsk "x" 0)
                  zero_UserPreferences false) = Done false s'
    /\ psk_size (psk_of (devicestate s')) = 1%nat
    /\ liveKey s' = defaultpsk.
Proof.
  destruct (resetRadioConfig_migrates_default_key demo_hw 0 0
              (radioState (mkChannelSettings 0 3 legacyDefaultPsk "x" 0)
                          zero_UserPreferences false))
    as (s' & E & Hp & Hk & _); try reflexivity.
  exists s'. split; [exact E|]. split; [rewrite Hp; reflexivity | exact Hk].
Defined.

(** X5. Without any key material (and without a factory reset)
    [resetRadioConfig] installs the default channel: the long range preset,
    transmit power 0, no name, the compact key index 1; the live key is the
    default key and [channelName] is "LongSlow", or "Unset" when a raw
    bandwidth is set. *)
Theorem resetRadioConfig_installs_default_channel hw retries depth s :
  Pref_factory_reset (preferences_of (devicestate s)) = false ->
  psk_size (psk_of (devicestate s)) = 0%nat ->
  length (activePSK s) = PSK_CAPACITY ->
  length (psk_bytes (psk_of (devicestate s))) = PSK_CAPACITY ->
  exists s', resetRadioConfig hw retries depth s = Done false s'
    /\ channelSettings_of (devicestate s')
       = mkChannelSettings 0 ChannelSettings_ModemConfig_Bw125Cr48Sf4096
           (mkPsk 1 (<[0%nat := 1]> (psk_bytes (psk_of (devicestate s)))))
           EmptyString
           (ChannelSettings_bandwidth (channelSettings_of (devicestate s)))
    /\ RadioConfig_has_channel_settings (DeviceState_radio (devicestate s')) = true
    /\ RadioConfig_has_preferences (DeviceState_radio (devicestate s')) = true
    /\ liveKey s' = defaultpsk
    /\ channelName s'
       = if ChannelSettings_bandwidth (channelSettings_of (devicestate s)) =? 0
         then "LongSlow"%string else "Unset"%string.
Proof.
  intros Hfr Hsz Ha Hb.
  destruct (resetRadioConfig_plain hw retries depth s Hfr)
    as (s' & E & Hd & Hk & Hn & Hc & _).
  rewrite Hsz in Hd. cbn [Nat.eqb] in Hd.
  pose proof (tail_devicestate_parts (setDefaultPreferences (devicestate s)))
    as (C & _ & _ & _ & _ & _ & _ & _ & _ & _ & _ & _ & H4 & H5).
  rewrite <- Hd in C, H4, H5.
  assert (Hcs : channelSettings_of (devicestate s')
       = mkChannelSettings 0 ChannelSettings_ModemConfig_Bw125Cr48Sf4096
           (mkPsk 1 (<[0%nat := 1]> (psk_bytes (psk_of (devicestate s)))))
           EmptyString
           (ChannelSettings_bandwidth (channelSettings_of (devicestate s))))
    by (rewrite C; reflexivity).
  exists s'. split; [exact E|]. split; [exact Hcs|].
  split; [rewrite H5; reflexivity|]. split; [rewrite H4; reflexivity|].
  split.
  - assert (Hw : wf_psk (psk_of (devicestate s'))).
    { unfold psk_of. rewrite Hcs. split; cbn [ChannelSettings_psk psk_bytes psk_size];
        [rewrite length_insert; exact Hb | unfold PSK_CAPACITY; lia]. }
    destruct (expandPSK_key _ _ Hw Ha) as (K & _ & _).
    unfold liveKey. rewrite Hk, Hn, K. unfold psk_of. rewrite Hcs.
    unfold expandedKey. cbn [ChannelSettings_psk psk_size psk_bytes Nat.eqb].
    destruct (psk_bytes (psk_of (devicestate s))) as [|b0 bs];
      [discriminate Hb|]. reflexivity.
  - rewrite Hc, Hcs. unfold resolveChannelName.
    cbn [ChannelSettings_name ChannelSettings_bandwidth ChannelSettings_modem_config].
    rewrite bool_decide_eq_true_2 by reflexivity.
    destruct (_ =? 0); reflexivity.
Qed.

Lemma resetRadioConfig_installs_default_channel_witness :
  exists s',
    resetRadioConfig demo_hw 0 0
      (radioState (mkChannelSettings 7 1 zero_PskBytes "" 125)
                  zero_UserPreferences false) = Done false s'
    /\ liveKey s' = defaultpsk
    /\ channelName s' = "Unset"%string.
Proof.
  destruct (resetRadioConfig_installs_default_channel demo_hw 0 0
              (radioState (mkChannelSettings 7 1 zero_PskBytes "" 125)
                          zero_UserPreferences false))
    as (s' & E & _ & _ & _ & Hk & Hc); try reflexivity.
  exists s'. split; [exact E|]. split; [exact Hk | exact Hc].
Defined.

(** X6. Running [resetRadioConfig] a second time changes nothing it
    derives: the record, the channel name and the live key stay as the
    first run left them. *)
Theorem resetRadioConfig_idempotent hw retries depth s :
  (1 <= depth)%nat ->
  length (activePSK s) = PSK_CAPACITY ->
  wf_psk (psk_of (devicestate s)) ->
  exists b s1 s2,
    resetRadioConfig hw retries depth s = Done b s1
    /\ resetRadioConfig hw retries depth s1 = Done false s2
    /\ devicestate s2 = devicestate s1
    /\ channelName s2 = channelName s1
    /\ liveKey s2 = liveKey s1
    /\ activePSKSize s2 = activePSKSize s1.
Proof.
  intros Hdepth Ha Hw.
  destruct (resetRadioConfig_normal_form hw retries depth s Hdepth)
    as (b & s1 & d & E & Hd & Hc & Hfr & Hsz).
  destruct (resetRadioConfig_key hw retries depth s Hdepth Ha Hw)
    as (b' & s1' & E1 & K1 & N1 & L1 & W1).
  rewrite E in E1. injection E1 as <- <-.
  destruct (resetRadioConfig_plain hw retries depth s1 Hfr)
    as (s2 & E2 & Hd2 & _ & _ & Hc2 & _).
  destruct (resetRadioConfig_key hw retries depth s1 Hdepth L1 W1)
    as (b2 & s2' & E2' & K2 & N2 & _).
  rewrite E2 in E2'. injection E2' as <- <-.
  assert (Hsame : devicestate s2 = devicestate s1).
  { rewrite Hd2.
    destruct (Nat.eqb_spec (psk_size (psk_of (devicestate s1))) 0);
      [contradiction|].
    rewrite Hd. apply tail_devicestate_idem. }
  exists b, s1, s2. split; [exact E|]. split; [exact E2|].
  split; [exact Hsame|].
  split; [rewrite Hc2, Hc, Hsame; reflexivity|].
  split; [rewrite K2, K1, Hsame; reflexivity | rewrite N2, N1, Hsame; reflexivity].
Qed.

Lemma resetRadioConfig_idempotent_witness :
  exists b s1 s2,
    resetRadioConfig demo_hw 0 1
      (radioState (mkChannelSettings 0 1 legacyDefaultPsk "Default" 0)
                  zero_UserPreferences true) = Done b s1
    /\ resetRadioConfig demo_hw 0 1 s1 = Done false s2
    /\ devicestate s2 = devicestate s1.
Proof.
  destruct (resetRadioConfig_idempotent demo_hw 0 1
              (radioState (mkChannelSettings 0 1 legacyDefaultPsk "Default" 0)
                          zero_UserPreferences true))
    as (b & s1 & s2 & E1 & E2 & Hd & _).
  - lia.
  - reflexivity.
  - split; [reflexivity | vm_compute; lia].
  - exists b, s1, s2. split; [exact E1|]. split; [exact E2 | exact Hd].
Defined.

Lemma setDefaultPreferences_parts d :
  preferences_of (setDefaultPreferences d) = preferences_of d
  /\ DeviceState_my_node (setDefaultPreferences d) = DeviceState_my_node d
  /\ DeviceState_owner (setDefaultPreferences d) = DeviceState_owner d
  /\ DeviceState_node_db (setDefaultPreferences d) = DeviceState_node_db d
  /\ DeviceState_node_db_count (setDefaultPreferences d) = DeviceState_node_db_count d
  /\ DeviceState_version (setDefaultPreferences d) = DeviceState_version d
  /\ DeviceState_no_save (setDefaultPreferences d) = DeviceState_no_save d.
Proof. repeat split; reflexivity. Qed.

(** X7. Without a factory reset [resetRadioConfig] leaves the local node
    info, the owner, the node table, the version and the no-save flag as
    they were; the preferences change only in development mode, where five
    of them are overwritten; and the crypto engine is given the live key
    once, followed by one call of [initRegion]. *)
Theorem resetRadioConfig_frame hw retries depth s :
  Pref_factory_reset (preferences_of (devicestate s)) = false ->
  exists s', resetRadioConfig hw retries depth s = Done false s'
    /\ DeviceState_my_node (devicestate s') = DeviceState_my_node (devicestate s)
    /\ DeviceState_owner (devicestate s') = DeviceState_owner (devicestate s)
    /\ DeviceState_node_db (devicestate s') = DeviceState_node_db (devicestate s)
    /\ DeviceState_node_db_count (devicestate s')
       = DeviceState_node_db_count (devicestate s)
    /\ DeviceState_version (devicestate s') = DeviceState_version (devicestate s)
    /\ DeviceState_no_save (devicestate s') = DeviceState_no_save (devicestate s)
    /\ preferences_of (devicestate s')
       = (if DeviceState_no_save (devicestate s)
          then mkUserPreferences 360 10 10 60 RegionCode_TW false
          else preferences_of (devicestate s))
    /\ fs s' = fs s
    /\ random_calls s' = random_calls s
    /\ updateGUIforNode s' = updateGUIforNode s
    /\ trace s' = trace s ++ [EvSetKey (activePSKSize s') (activePSK s');
                              EvInitRegion].
Proof.
  intros Hfr.
  destruct (resetRadioConfig_plain hw retries depth s Hfr)
    as (s' & E & Hd & _ & _ & _ & _ & _ & Hu & Hr & Hf & Ht).
  exists s'. split; [exact E|].
  match type of Hd with _ = tail_devicestate ?x => set (d0 := x) in * end.
  assert (H0 : preferences_of d0 = preferences_of (devicestate s)
       /\ DeviceState_my_node d0 = DeviceState_my_node (devicestate s)
       /\ DeviceState_owner d0 = DeviceState_owner (devicestate s)
       /\ DeviceState_node_db d0 = DeviceState_node_db (devicestate s)
       /\ DeviceState_node_db_count d0 = DeviceState_node_db_count (devicestate s)
       /\ DeviceState_version d0 = DeviceState_version (devicestate s)
       /\ DeviceState_no_save d0 = DeviceState_no_save (devicestate s)).
  { unfold d0. destruct (_ =? _)%nat;
      [apply setDefaultPreferences_parts | repeat split; reflexivity]. }
  destruct H0 as (P0 & M0 & O0 & N0 & K0 & V0 & S0).
  pose proof (tail_devicestate_parts d0) as (_ & P & M & O & N & K & V & S & _).
  rewrite Hd.
  split; [congruence|]. split; [congruence|]. split; [congruence|].
  split; [congruence|]. split; [congruence|]. split; [congruence|].
  split.
  { rewrite P, S0, P0. destruct (DeviceState_no_save (devicestate s));
      [|reflexivity].
    unfold developmentPreferences. rewrite Hfr. reflexivity. }
  repeat split; assumption.
Qed.

Lemma resetRadioConfig_frame_witness :
  exists s',
    resetRadioConfig demo_hw 0 0
      (radioState (mkChannelSettings 0 1 (mkPsk 1 (1 :: replicate 31 0)) "" 0)
                  (mkUserPreferences 900 60 60 300 1 false) true) = Done false s'
    /\ preferences_of (devicestate s')
       = mkUserPreferences 360 10 10 60 RegionCode_TW false
    /\ trace s' = [EvSetKey 16 (defaultpsk ++ replicate 16 0); EvInitRegion].
Proof.
  destruct (resetRadioConfig_frame demo_hw 0 0
              (radioState (mkChannelSettings 0 1 (mkPsk 1 (1 :: replicate 31 0)) "" 0)
                          (mkUserPreferences 900 60 60 300 1 false) true))
    as (s' & E & _ & _ & _ & _ & _ & _ & P & _ & _ & _ & T).
  - reflexivity.
  - exists s'. split; [exact E|]. split; [exact P|].
    vm_compute in E. injection E as <-. reflexivity.
Defined.

(** ** The channel name text *)

Lemma substring_length_le str : forall n,
  (String.length (substring 0 n str) <= n)%nat.
Proof.
  induction str as [|c str IH]; intros [|n]; cbn; try lia.
  specialize (IH n). lia.
Qed.

Lemma substring_prefix str : forall n,
  String.prefix (substring 0 n str) str = true.
Proof.
  induction str as [|c str IH]; intros [|n]; cbn; try reflexivity.
  destruct (ascii_dec c c); [apply IH | contradiction].
Qed.

Lemma c_str_substring_prefix str : forall n,
  String.prefix (c_str (substring 0 n str)) str = true.
Proof.
  induction str as [|c str IH]; intros [|n]; cbn [substring c_str];
    try reflexivity.
  destruct (Ascii.eqb c Ascii.zero); [reflexivity|].
  cbn [String.prefix]. destruct (ascii_dec c c); [apply IH | contradiction].
Qed.

(** X8. Whatever the channel name, [getChannelName] returns at most 31
    characters, the start of "#name-X", and leaves the state as it was. *)
Theorem getChannelName_bounded s :
  exists text, getChannelName s = Done text s
    /\ (String.length text <= 31)%nat
    /\ String.prefix text (fullChannelText s) = true.
Proof.
  eexists. split; [reflexivity|]. unfold snprintf.
  rewrite channelSuffix_suffixCode. split.
  - etransitivity; [apply c_str_length | apply (substring_length_le _ 31)].
  - apply c_str_substring_prefix.
Qed.

(** ** Keys of the compact indices *)

Lemma u8_index_injective v1 v2 :
  1 <= v1 < 256 -> 1 <= v2 < 256 ->
  u8 (0xbf + v1 - 1) = u8 (0xbf + v2 - 1) -> v1 = v2.
Proof. unfold u8. intros H1 H2. Z.div_mod_to_equations. lia. Qed.

(** X9. Two compact key indices give the same live key only when they are
    the same index: the 256 indices name 256 different keys. *)
Theorem expandPSK_index_injective psk1 psk2 active1 active2 :
  wf_psk psk1 -> wf_psk psk2 ->
  length active1 = PSK_CAPACITY -> length active2 = PSK_CAPACITY ->
  psk_size psk1 = 1%nat -> psk_size psk2 = 1%nat ->
  0 <= byte_at 0 (psk_bytes psk1) < 256 ->
  0 <= byte_at 0 (psk_bytes psk2) < 256 ->
  take (snd (expandPSK psk1 active1)) (fst (expandPSK psk1 active1))
  = take (snd (expandPSK psk2 active2)) (fst (expandPSK psk2 active2)) ->
  byte_at 0 (psk_bytes psk1) = byte_at 0 (psk_bytes psk2).
Proof.
  intros W1 W2 A1 A2 S1 S2 R1 R2.
  destruct (expandPSK_key psk1 active1 W1 A1) as (K1 & _).
  destruct (expandPSK_key psk2 active2 W2 A2) as (K2 & _).
  rewrite K1, K2. unfold expandedKey. rewrite S1, S2. cbn [Nat.eqb].
  destruct (Z.eqb_spec (byte_at 0 (psk_bytes psk1)) 0) as [E1|E1];
    destruct (Z.eqb_spec (byte_at 0 (psk_bytes psk2)) 0) as [E2|E2];
    intros H; try congruence; try discriminate H.
  apply app_inj_tail in H. destruct H as [_ H].
  apply u8_index_injective; [lia | lia | exact H].
Qed.

Lemma expandPSK_index_injective_witness :
  byte_at 0 (psk_bytes (mkPsk 1 (7 :: replicate 31 0)))
  = byte_at 0 (psk_bytes (mkPsk 1 (7 :: replicate 31 1))).
Proof.
  apply (expandPSK_index_injective
           (mkPsk 1 (7 :: replicate 31 0)) (mkPsk 1 (7 :: replicate 31 1))
           (replicate 32 0) (replicate 32 9)).
  - split; [reflexivity | vm_compute; lia].
  - split; [reflexivity | vm_compute; lia].
  - reflexivity.
  - reflexivity.
  - reflexivity.
  - reflexivity.
  - cbn [byte_at psk_bytes nth]. lia.
  - cbn [byte_at psk_bytes nth]. lia.
  - reflexivity.
Defined.

(** ** [installDefaultDeviceState], [loadFromDisk], [saveToDisk] *)

Lemma keepRegion_region code region d :
  Pref_region (preferences_of d) = RegionCode_Unset ->
  MyNodeInfo_region (DeviceState_my_node d) = EmptyString ->
  Pref_region (preferences_of (keepRegion code region d)) = code
  /\ MyNodeInfo_region (DeviceState_my_node (keepRegion code region d)) = region.
Proof.
  destruct d as [hr [hp [a1 a2 a3 a4 rc fr] hc cs] hm
                 [b1 b2 rg b4 b5 b6 b7 b8 b9 b10 b11 b12] ho ow cnt db rq ver ns].
  cbn. intros Hc Hr. subst rc rg. unfold keepRegion.
  destruct (Z.eqb_spec code RegionCode_Unset) as [Ec|Ec];
    destruct (bool_decide_reflect (region = EmptyString)) as [Er|Er];
    cbn; split; congruence.
Qed.

(** X10. [installDefaultDeviceState] always returns.  It empties the node
    table, so that every lookup misses; it keeps the region code and the
    region string as they were; it picks the node number from the MAC,
    never a reserved number or the broadcast number; the owner carries the
    hardware MAC; both the factory reset flag and the no-save flag are
    clear.  It takes no random draw and touches no file. *)
Theorem installDefaultDeviceState_fresh hw retries depth s :
  NUM_RESERVED < NODENUM_BROADCAST hw ->
  exists s', installDefaultDeviceState hw retries depth s = Done tt s'
    /\ DeviceState_node_db_count (devicestate s') = 0%nat
    /\ (forall n, getNode n s' = None)
    /\ Pref_region (preferences_of (devicestate s'))
       = Pref_region (preferences_of (devicestate s))
    /\ MyNodeInfo_region (DeviceState_my_node (devicestate s'))
       = MyNodeInfo_region (DeviceState_my_node (devicestate s))
    /\ getNodeNum s' = startNodeNum hw 0 (getMacAddr hw)
    /\ NUM_RESERVED <= getNodeNum s'
    /\ getNodeNum s' <> NODENUM_BROADCAST hw
    /\ User_macaddr (DeviceState_owner (devicestate s'))
       = take MACADDR_SIZE (getMacAddr hw)
    /\ Pref_factory_reset (preferences_of (devicestate s')) = false
    /\ DeviceState_no_save (devicestate s') = false
    /\ random_calls s' = random_calls s
    /\ fs s' = fs s.
Proof.
  intros Hb.
  destruct (installDefaultDeviceState_full hw retries depth s)
    as (s' & E & Hd & _ & _ & _ & _ & _ & _ & Hr & Hf & _).
  exists s'. split; [exact E|].
  pose proof (keepRegion_parts
                (Pref_region (preferences_of (devicestate s)))
                (MyNodeInfo_region (DeviceState_my_node (devicestate s)))
                (defaultDeviceState hw)) as (C & F & S & K & N & O & M).
  pose proof (keepRegion_region
                (Pref_region (preferences_of (devicestate s)))
                (MyNodeInfo_region (DeviceState_my_node (devicestate s)))
                (defaultDeviceState hw) eq_refl eq_refl) as [R1 R2].
  assert (Hcount : DeviceState_node_db_count (devicestate s') = 0%nat)
    by (rewrite Hd, K; reflexivity).
  assert (Hnum : getNodeNum s' = startNodeNum hw 0 (getMacAddr hw))
    by (unfold getNodeNum; rewrite Hd, M; reflexivity).
  destruct (startNodeNum_range hw 0 (getMacAddr hw) Hb) as [L1 L2].
  split; [exact Hcount|].
  split; [intros n; apply getNode_empty; exact Hcount|].
  split; [rewrite Hd; exact R1|]. split; [rewrite Hd; exact R2|].
  split; [exact Hnum|]. rewrite Hnum. split; [exact L1|]. split; [exact L2|].
  split; [rewrite Hd, O; reflexivity|].
  split; [rewrite Hd, F; reflexivity|].
  split; [rewrite Hd, S; reflexivity|].
  split; assumption.
Qed.

Lemma installDefaultDeviceState_fresh_witness :
  exists s',
    installDefaultDeviceState demo_hw 0 0
      (withNodes demo_hw [nodeWithMac 4 [1; 1; 1; 1; 1; 1]]
         (radioState zero_ChannelSettings (mkUserPreferences 0 0 0 0 3 false) true))
    = Done tt s'
    /\ getNode 4 s' = None
    /\ Pref_region (preferences_of (devicestate s')) = 3
    /\ getNodeNum s' = 0x28abcdef.
Proof.
  destruct (installDefaultDeviceState_fresh demo_hw 0 0
              (withNodes demo_hw [nodeWithMac 4 [1; 1; 1; 1; 1; 1]]
                 (radioState zero_ChannelSettings
                             (mkUserPreferences 0 0 0 0 3 false) true)))
    as (s' & E & _ & Hget & Hreg & _ & Hnum & _).
  - reflexivity.
  - exists s'. split; [exact E|]. split; [apply Hget|].
    split; [exact Hreg | exact Hnum].
Defined.

(** X11. Without a persisted file, or with a file the file system does not
    open, [loadFromDisk] leaves the record and the files as they are. *)
Theorem loadFromDisk_absent hw retries depth s :
  fs s !! preffile = None \/ fs_fault hw (FsOpenRead preffile) = true ->
  exists s', loadFromDisk hw retries depth s = Done tt s'
    /\ devicestate s' = devicestate s
    /\ fs s' = fs s
    /\ trace s' = trace s ++ [EvFs (FsOpenRead preffile) false].
Proof.
  intros H. unfold loadFromDisk, bind, FS_open_read.
  destruct (fs s !! preffile) as [blob|] eqn:Hfile.
  - destruct H as [H|H]; [discriminate|]. rewrite H.
    eexists. split; [reflexivity|]. repeat split; reflexivity.
  - eexists. split; [reflexivity|]. repeat split; reflexivity.
Qed.

Lemma loadFromDisk_absent_witness :
  exists s', loadFromDisk demo_hw 0 0 (bootState demo_hw) = Done tt s'
    /\ devicestate s' = devicestate (bootState demo_hw).
Proof.
  destruct (loadFromDisk_absent demo_hw 0 0 (bootState demo_hw))
    as (s' & E & Hd & _).
  - left. reflexivity.
  - exists s'. split; [exact E | exact Hd].
Defined.

Lemma loadFromDisk_decoded_state hw retries depth s blob d :
  fs s !! preffile = Some blob ->
  fs_fault hw (FsOpenRead preffile) = false ->
  pb_decode hw blob (zero_DeviceState (MAX_NUM_NODES hw)) = (d, true) ->
  11 <= DeviceState_version d ->
  exists s', loadFromDisk hw retries depth s = Done tt s'
    /\ devicestate s' = d
    /\ fs s' = fs s
    /\ random_calls s' = random_calls s
    /\ trace s' = trace s ++ [EvFs (FsOpenRead preffile) true;
                              EvFs (FsClose preffile) true].
Proof.
  intros Hfile Hfault Hdec Hver. unfold loadFromDisk.
  rewrite (bind_Done _ _ _ _ _ (FS_open_read_present hw _ s blob Hfile Hfault)).
  mrun. rewrite Hdec. mrun. cbn [negb].
  unfold DEVICESTATE_MIN_VER, DEVICESTATE_CUR_VER.
  destruct (Z.ltb_spec (DeviceState_version d) 11); [lia|].
  unfold FS_close. mrun.
  eexists. split; [reflexivity|]. mcbn. rewrite <- app_assoc.
  repeat split; reflexivity.
Qed.


(** X12. When the decoder accepts the persisted blob and the decoded
    version is at least 11, [loadFromDisk] leaves in [devicestate] the
    decoded record, whatever the record held before; the files stay. *)
Theorem loadFromDisk_decoded hw retries depth s blob d :
  fs s !! preffile = Some blob ->
  fs_fault hw (FsOpenRead preffile) = false ->
  pb_decode hw blob (zero_DeviceState (MAX_NUM_NODES hw)) = (d, true) ->
  11 <= DeviceState_version d ->
  exists s', loadFromDisk hw retries depth s = Done tt s'
    /\ devicestate s' = d
    /\ fs s' = fs s
    /\ random_calls s' = random_calls s
    /\ trace s' = trace s ++ [EvFs (FsOpenRead preffile) true;
                              EvFs (FsClose preffile) true].
Proof.
  intros Hfile Hfault Hdec Hver. unfold loadFromDisk.
  rewrite (bind_Done _ _ _ _ _ (FS_open_read_present hw _ s blob Hfile Hfault)).
  mrun. rewrite Hdec. mrun. cbn [negb].
  unfold DEVICESTATE_MIN_VER, DEVICESTATE_CUR_VER.
  destruct (Z.ltb_spec (DeviceState_version d) 11); [lia|].
  unfold FS_close. mrun.
  eexists. split; [reflexivity|]. mcbn. rewrite <- app_assoc.
  repeat split; reflexivity.
Qed.

Lemma loadFromDisk_decoded_witness :
  exists s',
    loadFromDisk codec_hw 0 0
      (withFiles {[ preffile := [12] ]} (bootState codec_hw)) = Done tt s'
    /\ DeviceState_version (devicestate s') = 12.
Proof.
  destruct (loadFromDisk_decoded codec_hw 0 0
              (withFiles {[ preffile := [12] ]} (bootState codec_hw))
              [12] (set_version 12 (zero_DeviceState 4)))
    as (s' & E & Hd & _).
  - reflexivity.
  - reflexivity.
  - reflexivity.
  - cbn. lia.
  - exists s'. split; [exact E|]. rewrite Hd. reflexivity.
Defined.

(** X13. Save, then load: when the file system refuses nothing and the
    decoder reads back what the encoder wrote, [loadFromDisk] after
    [saveToDisk] leaves the record that was saved, stamped with
    version 11. *)
Theorem save_then_load hw retries depth s :
  let d := set_version DEVICESTATE_CUR_VER (devicestate s) in
  DeviceState_no_save (devicestate s) = false ->
  fs_fault hw (FsOpenWrite preftmp) = false ->
  fs_fault hw (FsRename preftmp preffile) = false ->
  fs_fault hw (FsOpenRead preffile) = false ->
  snd (pb_encode hw d) = true ->
  pb_decode hw (fst (pb_encode hw d)) (zero_DeviceState (MAX_NUM_NODES hw))
  = (d, true) ->
  exists s1 s2, saveToDisk hw s = Done tt s1
    /\ loadFromDisk hw retries depth s1 = Done tt s2
    /\ devicestate s2 = d
    /\ fs s2 !! preffile = Some (fst (pb_encode hw d))
    /\ fs s2 !! preftmp = None.
Proof.
  intros d Hns Fw Fr Fo Hok Hdec.
  destruct (saveToDisk_written hw s Hns Fw) as (s1 & E1 & Hd1 & Hrest).
  fold d in Hrest. rewrite Hok in Hrest. destruct Hrest as [_ Hfs].
  destruct (Hfs ltac:(unfold renameResult; rewrite Fr; reflexivity))
    as [Hpref Htmp].
  destruct (loadFromDisk_decoded_state hw retries depth s1 _ d Hpref Fo Hdec
              ltac:(cbn; unfold DEVICESTATE_CUR_VER; lia))
    as (s2 & E2 & Hd2 & Hf2 & _).
  exists s1, s2. split; [exact E1|]. split; [exact E2|]. split; [exact Hd2|].
  rewrite Hf2. split; assumption.
Qed.

Lemma save_then_load_witness :
  exists s1 s2,
    saveToDisk codec_hw (bootState codec_hw) = Done tt s1
    /\ loadFromDisk codec_hw 0 0 s1 = Done tt s2
    /\ DeviceState_version (devicestate s2) = 11.
Proof.
  destruct (save_then_load codec_hw 0 0 (bootState codec_hw))
    as (s1 & s2 & E1 & E2 & Hd & _); try reflexivity.
  exists s1, s2. split; [exact E1|]. split; [exact E2|]. rewrite Hd. reflexivity.
Defined.

(** X29. [channelName] is a pointer, and a load writes under it: after a
    load that keeps the decoded record, [channelName] shows the channel
    name of that record when it pointed at the name of the channel
    settings, and its literal when it pointed at one. *)
Theorem loadFromDisk_channelName hw retries depth s blob d :
  fs s !! preffile = Some blob ->
  fs_fault hw (FsOpenRead preffile) = false ->
  pb_decode hw blob (zero_DeviceState (MAX_NUM_NODES hw)) = (d, true) ->
  11 <= DeviceState_version d ->
  exists s', loadFromDisk hw retries depth s = Done tt s'
    /\ channelName s'
       = match channelNamePtr s with
         | Name_of_settings => ChannelSettings_name (channelSettings_of d)
         | Name_literal text => text
         end.
Proof.
  intros Hfile Hfault Hdec Hver. unfold loadFromDisk.
  rewrite (bind_Done _ _ _ _ _ (FS_open_read_present hw _ s blob Hfile Hfault)).
  mrun. rewrite Hdec. mrun. cbn [negb].
  unfold DEVICESTATE_MIN_VER, DEVICESTATE_CUR_VER.
  destruct (Z.ltb_spec (DeviceState_version d) 11); [lia|].
  unfold FS_close. mrun.
  eexists. split; [reflexivity|]. unfold channelName. mcbn. reflexivity.
Qed.

Lemma loadFromDisk_channelName_witness :
  channelName
    (set_channelName Name_of_settings
       (withFiles {[ preffile := [11] ]}
          (upd_devicestate (upd_channelSettings (set_name "Oslo"))
             (bootState named_hw))))
  = "Oslo"%string
  /\ exists s',
       loadFromDisk named_hw 0 0
         (set_channelName Name_of_settings
            (withFiles {[ preffile := [11] ]}
               (upd_devicestate (upd_channelSettings (set_name "Oslo"))
                  (bootState named_hw)))) = Done tt s'
       /\ channelName s' = "Berlin"%string.
Proof.
  split; [reflexivity|].
  destruct (loadFromDisk_channelName named_hw 0 0
              (set_channelName Name_of_settings
                 (withFiles {[ preffile := [11] ]}
                    (upd_devicestate (upd_channelSettings (set_name "Oslo"))
                       (bootState named_hw))))
              [11]
              (upd_channelSettings (set_name "Berlin")
                 (set_version 11 (zero_DeviceState 4))))
    as (s' & E & Hn).
  - reflexivity.
  - reflexivity.
  - reflexivity.
  - cbn. lia.
  - exists s'. split; [exact E | exact Hn].
Defined.

(** ** Lookups in the node table *)

Lemma scanNodes_first n l : forall k j,
  scanNodes n k l = Some j ->
  exists i, j = (k + i)%nat /\ (i < length l)%nat
    /\ NodeInfo_num <$> (l !! i) = Some n
    /\ forall i' x, (i' < i)%nat -> l !! i' = Some x -> NodeInfo_num x <> n.
Proof.
  induction l as [|y l IH]; intros k j H; cbn [scanNodes] in H; [discriminate|].
  destruct (Z.eqb_spec (NodeInfo_num y) n) as [E|E].
  - injection H as <-. exists 0%nat. cbn. rewrite E.
    repeat split; try lia; reflexivity.
  - destruct (IH _ _ H) as (i & -> & Hlt & Hnum & Hbefore).
    exists (S i). cbn [length]. repeat split; try lia; [exact Hnum|].
    intros [|i'] x Hi Hx; cbn in Hx.
    + injection Hx as <-. exact E.
    + eapply Hbefore; [|exact Hx]. lia.
Qed.

Lemma scanNodes_None_iff n l k :
  scanNodes n k l = None <-> forall x, x ∈ l -> NodeInfo_num x <> n.
Proof.
  revert k. induction l as [|y l IH]; intros k; cbn [scanNodes].
  - split; [intros _ x Hx; inversion Hx | reflexivity].
  - destruct (Z.eqb_spec (NodeInfo_num y) n) as [E|E].
    + split; [discriminate|]. intros H. exfalso. apply (H y); [left | exact E].
    + rewrite IH. split.
      * intros H x Hx. apply elem_of_cons in Hx. destruct Hx as [->|Hx]; auto.
      * intros H x Hx. apply H. right. exact Hx.
Qed.

Lemma liveNodes_lookup hw s i :
  wf_table hw s ->
  (i < DeviceState_node_db_count (devicestate s))%nat ->
  liveNodes (devicestate s) !! i = Some (nodeAt i s).
Proof.
  intros [Hl Hc] Hi. unfold liveNodes, nodeAt.
  rewrite lookup_take_lt by exact Hi.
  destruct (DeviceState_node_db (devicestate s) !! i) as [x|] eqn:E;
    [reflexivity|].
  apply lookup_ge_None in E. lia.
Qed.

(** X14. [getNode] returns the first occupied slot that carries the
    number, and returns nothing exactly when no occupied slot carries it. *)
Theorem getNode_first_match hw n s :
  wf_table hw s ->
  (forall i, getNode n s = Some i ->
     (i < DeviceState_node_db_count (devicestate s))%nat
     /\ NodeInfo_num (nodeAt i s) = n
     /\ forall j, (j < i)%nat -> NodeInfo_num (nodeAt j s) <> n)
  /\ (getNode n s = None <->
      forall i, (i < DeviceState_node_db_count (devicestate s))%nat ->
                NodeInfo_num (nodeAt i s) <> n).
Proof.
  intros Hwf. pose proof (length_liveNodes hw s Hwf) as Hlen. split.
  - intros i H. unfold getNode in H.
    destruct (scanNodes_first _ _ _ _ H) as (i0 & Hi & Hlt & Hnum & Hbefore).
    cbn in Hi. subst i0. rewrite Hlen in Hlt. split; [exact Hlt|].
    rewrite (liveNodes_lookup hw s i Hwf Hlt) in Hnum. cbn in Hnum.
    split; [congruence|].
    intros j Hj. apply (Hbefore j _ Hj).
    apply (liveNodes_lookup hw); [exact Hwf | lia].
  - unfold getNode. rewrite scanNodes_None_iff. split.
    + intros H i Hi. apply H. apply list_elem_of_lookup. exists i.
      apply (liveNodes_lookup hw); assumption.
    + intros H x Hx. apply list_elem_of_lookup in Hx. destruct Hx as [i Hx].
      assert (Hi : (i < DeviceState_node_db_count (devicestate s))%nat).
      { rewrite <- Hlen. apply lookup_lt_Some in Hx. exact Hx. }
      rewrite (liveNodes_lookup hw s i Hwf Hi) in Hx. injection Hx as <-.
      apply H. exact Hi.
Qed.

Lemma getNode_first_match_witness :
  getNode 5 (withNodes demo_hw [nodeWithMac 4 [1; 1; 1; 1; 1; 1];
                                nodeWithMac 5 [2; 2; 2; 2; 2; 2];
                                nodeWithMac 5 [3; 3; 3; 3; 3; 3]]
                       (bootState demo_hw)) = Some 1%nat
  /\ NodeInfo_num (nodeAt 1 (withNodes demo_hw
                               [nodeWithMac 4 [1; 1; 1; 1; 1; 1];
                                nodeWithMac 5 [2; 2; 2; 2; 2; 2];
                                nodeWithMac 5 [3; 3; 3; 3; 3; 3]]
                               (bootState demo_hw))) = 5.
Proof.
  split; [reflexivity|].
  apply (proj1 (getNode_first_match demo_hw 5
                  (withNodes demo_hw [nodeWithMac 4 [1; 1; 1; 1; 1; 1];
                                      nodeWithMac 5 [2; 2; 2; 2; 2; 2];
                                      nodeWithMac 5 [3; 3; 3; 3; 3; 3]]
                             (bootState demo_hw))
                  ltac:(split; [reflexivity | vm_compute; lia])) 1%nat eq_refl).
Defined.

(** X15. With the table full, an upsert of a number that is not in the
    table fails the assertion; so do [updatePosition], [updateUser] and
    [updateFrom] for such a sender.  No record is evicted or overwritten. *)
Theorem upserts_abort_when_full hw n s :
  getNode n s = None ->
  (MAX_NUM_NODES hw <= DeviceState_node_db_count (devicestate s))%nat ->
  getOrCreateNode hw n s = AssertFailed
  /\ (forall p, updatePosition hw n p s = AssertFailed)
  /\ (forall u, updateUser hw n u s = AssertFailed)
  /\ (forall mp p, MeshPacket_from mp = n ->
        MeshPacket_payload mp = MeshPacket_decoded p ->
        updateFrom hw mp s = AssertFailed).
Proof.
  intros Hmiss Hfull.
  pose proof (getOrCreateNode_full hw n s Hmiss Hfull) as E.
  split; [exact E|]. split; [|split].
  - intros p. unfold updatePosition, bind. rewrite E. reflexivity.
  - intros u. unfold updateUser, bind. rewrite E. reflexivity.
  - intros mp p Hfrom Hp. unfold updateFrom. rewrite Hp, Hfrom.
    unfold bind at 1. rewrite E. reflexivity.
Qed.

Lemma upserts_abort_when_full_witness :
  updateFrom demo_hw dataPacket
    (withNodes demo_hw [nodeWithMac 4 [1; 1; 1; 1; 1; 1];
                        nodeWithMac 5 [2; 2; 2; 2; 2; 2];
                        nodeWithMac 6 [3; 3; 3; 3; 3; 3];
                        nodeWithMac 7 [4; 4; 4; 4; 4; 4]]
               (bootState demo_hw)) = AssertFailed.
Proof.
  apply (proj2 (proj2 (proj2
          (upserts_abort_when_full demo_hw 0x42
             (withNodes demo_hw [nodeWithMac 4 [1; 1; 1; 1; 1; 1];
                                 nodeWithMac 5 [2; 2; 2; 2; 2; 2];
                                 nodeWithMac 6 [3; 3; 3; 3; 3; 3];
                                 nodeWithMac 7 [4; 4; 4; 4; 4; 4]]
                        (bootState demo_hw))
             eq_refl ltac:(vm_compute; lia))))
          dataPacket (SubPacket_data [1; 2; 3]) eq_refl eq_refl).
Defined.

Lemma scanNodes_snoc_other m l x : forall k,
  NodeInfo_num x <> m -> scanNodes m k (l ++ [x]) = scanNodes m k l.
Proof.
  induction l as [|y l IH]; intros k Hx; cbn [scanNodes app].
  - destruct (Z.eqb_spec (NodeInfo_num x) m); [contradiction | reflexivity].
  - destruct (NodeInfo_num y =? m); [reflexivity | apply IH; exact Hx].
Qed.

Lemma nodeAt_appendNode_other n s j :
  j <> DeviceState_node_db_count (devicestate s) ->
  nodeAt j (appendNode n s) = nodeAt j s.
Proof.
  intros Hj. unfold nodeAt, appendNode. mcbn.
  cbn [set_node_db DeviceState_node_db].
  rewrite list_lookup_insert_ne by (intros E; apply Hj; symmetry; exact E).
  reflexivity.
Qed.

(** X16. An upsert of a number that is not in the table, with a slot free,
    takes the next free slot and leaves there a zeroed record with that
    number: no user, no position.  The records in the occupied slots and
    the lookups of every other number are as before. *)
Theorem getOrCreateNode_creates_blank hw n s :
  wf_table hw s ->
  getNode n s = None ->
  (DeviceState_node_db_count (devicestate s) < MAX_NUM_NODES hw)%nat ->
  exists s', getOrCreateNode hw n s
             = Done (DeviceState_node_db_count (devicestate s)) s'
    /\ nodeAt (DeviceState_node_db_count (devicestate s)) s'
       = mkNodeInfo n false zero_User false zero_Position 0
    /\ DeviceState_node_db_count (devicestate s')
       = S (DeviceState_node_db_count (devicestate s))
    /\ (forall j, (j < DeviceState_node_db_count (devicestate s))%nat ->
          nodeAt j s' = nodeAt j s)
    /\ (forall m, m <> n -> getNode m s' = getNode m s).
Proof.
  intros Hwf Hmiss Hlt. exists (appendNode n s).
  split; [apply getOrCreateNode_miss; assumption|].
  split; [apply (nodeAt_appendNode hw); assumption|].
  split; [reflexivity|]. split.
  - intros j Hj. apply nodeAt_appendNode_other. lia.
  - intros m Hm. unfold getNode.
    rewrite (liveNodes_appendNode hw) by assumption.
    apply scanNodes_snoc_other. cbn. congruence.
Qed.

Lemma getOrCreateNode_creates_blank_witness :
  exists s',
    getOrCreateNode demo_hw 9
      (withNodes demo_hw [nodeWithMac 4 [1; 1; 1; 1; 1; 1]] (bootState demo_hw))
    = Done 1%nat s'
    /\ NodeInfo_has_user (nodeAt 1 s') = false
    /\ getNode 4 s' = Some 0%nat.
Proof.
  destruct (getOrCreateNode_creates_blank demo_hw 9
              (withNodes demo_hw [nodeWithMac 4 [1; 1; 1; 1; 1; 1]]
                         (bootState demo_hw)))
    as (s' & E & Hblank & _ & _ & Hother).
  - split; [reflexivity | vm_compute; lia].
  - reflexivity.
  - vm_compute. lia.
  - exists s'. split; [exact E|]. split.
    + change 1%nat with (DeviceState_node_db_count
                           (devicestate (withNodes demo_hw
                              [nodeWithMac 4 [1; 1; 1; 1; 1; 1]]
                              (bootState demo_hw)))).
      rewrite Hblank. reflexivity.
    + rewrite Hother by discriminate. reflexivity.
Defined.

(** ** Updates of the node table *)

Lemma nodeAt_upd_node_ne i j f s : j <> i -> nodeAt j (upd_node i f s) = nodeAt j s.
Proof.
  intros Hj. unfold nodeAt at 1. rewrite upd_node_devicestate.
  cbn [set_node_db DeviceState_node_db].
  rewrite list_lookup_insert_ne by (intros E; apply Hj; symmetry; exact E).
  reflexivity.
Qed.

Lemma updatePosition_run hw nodeId p s i s1 :
  getOrCreateNode hw nodeId s = Done i s1 ->
  updatePosition hw nodeId p s
  = Done tt (emit (EvNotifyObservers true)
               (set_updateGUIforNode (Some i)
                  (upd_node i (set_NodeInfo_has_position true)
                     (upd_node i (set_NodeInfo_position p) s1)))).
Proof.
  intros E. unfold updatePosition. rewrite (bind_Done _ _ _ _ _ E). mrun.
  reflexivity.
Qed.

(** X17. [updatePosition] overwrites the position of the record, marks
    "has position", names the record for the GUI and notifies the observers
    with a forced update, whether or not the position differs from the
    stored one; the user of the record and all other records stay. *)
Theorem updatePosition_effects hw nodeId p s :
  wf_table hw s -> hasRoom hw nodeId s ->
  exists i s', updatePosition hw nodeId p s = Done tt s'
    /\ getNode nodeId s' = Some i
    /\ NodeInfo_position (nodeAt i s') = p
    /\ NodeInfo_has_position (nodeAt i s') = true
    /\ NodeInfo_user (nodeAt i s') = storedUser nodeId s
    /\ updateGUIforNode s' = Some i
    /\ trace s' = trace s ++ [EvNotifyObservers true]
    /\ (forall j, j <> i ->
          (j < DeviceState_node_db_count (devicestate s))%nat ->
          nodeAt j s' = nodeAt j s).
Proof.
  intros Hwf Hroom.
  destruct (getOrCreateNode_spec hw nodeId s Hwf Hroom)
    as (i & s1 & E & Hget & Hlt & Hwf1 & Hnums & Huser & Hhit & Hmiss & Htr & _).
  destruct (updatePosition_spec hw nodeId p s Hwf Hroom)
    as (i' & s' & E' & Hget' & Hpos & Hhas & Hgui & Htr' & _).
  pose proof (updatePosition_run hw nodeId p s i s1 E) as Hrun.
  rewrite Hrun in E'. injection E' as <-.
  assert (Hi : i' = i).
  { match type of Hgui with updateGUIforNode ?x = _ =>
      change (updateGUIforNode x) with (Some i) in Hgui end.
    congruence. }
  subst i'.
  eexists i, _. split; [exact Hrun|]. split; [exact Hget'|].
  split; [exact Hpos|]. split; [exact Hhas|].
  set (s2 := upd_node i (set_NodeInfo_position p) s1).
  assert (Hlt2 : (i < length (DeviceState_node_db (devicestate s2)))%nat).
  { unfold s2. rewrite (proj2 (proj2 (proj2 (proj2 (upd_node_frame i _ s1))))).
    exact Hlt. }
  split.
  { rewrite (nodeAt_devicestate i _ (upd_node i (set_NodeInfo_has_position true) s2))
      by reflexivity.
    rewrite nodeAt_upd_node by exact Hlt2. unfold s2.
    rewrite nodeAt_upd_node by exact Hlt. exact Huser. }
  split; [reflexivity|]. split; [exact Htr'|].
  intros j Hj Hjc.
  rewrite (nodeAt_devicestate j _ (upd_node i (set_NodeInfo_has_position true) s2))
    by reflexivity.
  rewrite nodeAt_upd_node_ne by exact Hj. unfold s2.
  rewrite nodeAt_upd_node_ne by exact Hj.
  destruct (getNode nodeId s) as [i0|] eqn:Hg.
  - rewrite (Hhit ltac:(eexists; reflexivity)). reflexivity.
  - destruct (Hmiss eq_refl) as [-> _]. apply nodeAt_appendNode_other. lia.
Qed.

Lemma updatePosition_effects_witness :
  exists i s',
    updatePosition demo_hw 0x42 (mkPosition 10 20 4990)
      (stateOf (updatePosition demo_hw 0x42 (mkPosition 10 20 4990)
                  (bootState demo_hw)) (bootState demo_hw)) = Done tt s'
    /\ getNode 0x42 s' = Some i
    /\ trace s' = [EvNotifyObservers true; EvNotifyObservers true].
Proof.
  destruct (updatePosition_effects demo_hw 0x42 (mkPosition 10 20 4990)
              (stateOf (updatePosition demo_hw 0x42 (mkPosition 10 20 4990)
                          (bootState demo_hw)) (bootState demo_hw)))
    as (i & s' & E & Hget & _ & _ & _ & _ & Htr & _).
  - split; [reflexivity | vm_compute; lia].
  - left. exists 0%nat. reflexivity.
  - exists i, s'. split; [exact E|]. split; [exact Hget | exact Htr].
Defined.

Lemma heardFrom_nodeAt mp i s1 :
  (i < length (DeviceState_node_db (devicestate s1)))%nat ->
  nodeAt i (heardFrom mp i s1)
  = set_NodeInfo_snr (MeshPacket_rx_snr mp)
      (if negb (MeshPacket_rx_time mp =? 0)
       then set_NodeInfo_position
              (set_Position_time (MeshPacket_rx_time mp)
                 (NodeInfo_position (nodeAt i s1)))
              (set_NodeInfo_has_position true (nodeAt i s1))
       else nodeAt i s1)
  /\ forall j, j <> i -> nodeAt j (heardFrom mp i s1) = nodeAt j s1.
Proof.
  intros Hlt. unfold heardFrom.
  destruct (negb (MeshPacket_rx_time mp =? 0)).
  - set (s2 := upd_node i (set_NodeInfo_has_position true) s1).
    assert (Hlt2 : (i < length (DeviceState_node_db (devicestate s2)))%nat).
    { unfold s2. rewrite (proj2 (proj2 (proj2 (proj2 (upd_node_frame i _ s1))))).
      exact Hlt. }
    set (s3 := upd_node i _ s2).
    assert (Hlt3 : (i < length (DeviceState_node_db (devicestate s3)))%nat).
    { unfold s3. rewrite (proj2 (proj2 (proj2 (proj2 (upd_node_frame i _ s2))))).
      exact Hlt2. }
    split.
    + rewrite nodeAt_upd_node by exact Hlt3. unfold s3.
      rewrite nodeAt_upd_node by exact Hlt2. unfold s2.
      rewrite nodeAt_upd_node by exact Hlt. reflexivity.
    + intros j Hj. rewrite nodeAt_upd_node_ne by exact Hj. unfold s3.
      rewrite nodeAt_upd_node_ne by exact Hj. unfold s2.
      apply nodeAt_upd_node_ne. exact Hj.
  - split; [apply nodeAt_upd_node; exact Hlt|].
    intros j Hj. apply nodeAt_upd_node_ne. exact Hj.
Qed.

(** The state in which [updateFrom] dispatches, with what is known of it. *)
Lemma updateFrom_heard hw mp p s :
  wf_table hw s -> hasRoom hw (MeshPacket_from mp) s ->
  MeshPacket_payload mp = MeshPacket_decoded p ->
  exists i s1,
    getOrCreateNode hw (MeshPacket_from mp) s = Done i s1
    /\ updateFrom hw mp s
       = match p with
         | SubPacket_position pos => updatePosition hw (MeshPacket_from mp) pos
         | SubPacket_data _ =>
             me <- gets getNodeNum;;
             when ((MeshPacket_to mp =? NODENUM_BROADCAST hw)
                   || (MeshPacket_to mp =? me))%bool
                  (modify (emit (EvCallPlugins mp)))
         | SubPacket_user u => updateUser hw (MeshPacket_from mp) u
         | SubPacket_other => notifyObservers false
         end (heardFrom mp i s1)
    /\ getOrCreateNode hw (MeshPacket_from mp) (heardFrom mp i s1)
       = Done i (heardFrom mp i s1)
    /\ getNode (MeshPacket_from mp) (heardFrom mp i s1) = Some i
    /\ (i < length (DeviceState_node_db (devicestate s1)))%nat
    /\ (i < length (DeviceState_node_db (devicestate (heardFrom mp i s1))))%nat
    /\ wf_table hw (heardFrom mp i s1)
    /\ trace (heardFrom mp i s1) = trace s
    /\ updateGUIforNode (heardFrom mp i s1) = updateGUIforNode s
    /\ getNodeNum (heardFrom mp i s1) = getNodeNum s
    /\ storedUser (MeshPacket_from mp) (heardFrom mp i s1)
       = storedUser (MeshPacket_from mp) s
    /\ liveNums (heardFrom mp i s1) = numsAfter (MeshPacket_from mp) s.
Proof.
  intros Hwf Hroom Hp.
  destruct (getOrCreateNode_spec hw _ s Hwf Hroom)
    as (i & s1 & E & Hget & Hlt & Hwf1 & Hnums & Huser & _ & _ & Htr & Hgui & Hnum).
  destruct (heardFrom_spec hw mp i s1 Hwf1 Hlt)
    as (Hn & Hwfh & Htrh & Hguih & Hnumh & _).
  assert (Hgeth : getNode (MeshPacket_from mp) (heardFrom mp i s1) = Some i)
    by (rewrite (getNode_liveNums _ _ _ Hn); exact Hget).
  exists i, s1. split; [exact E|].
  split; [exact (updateFrom_decoded hw mp p s i s1 Hp E)|].
  split; [apply getOrCreateNode_hit; exact Hgeth|].
  split; [exact Hgeth|]. split; [exact Hlt|].
  split; [destruct Hwfh as [Hl _]; destruct Hwf1 as [Hl1 _]; rewrite Hl, <- Hl1;
          exact Hlt|].
  split; [exact Hwfh|].
  split; [congruence|]. split; [congruence|]. split; [congruence|].
  split; [|congruence].
  unfold storedUser at 1. rewrite Hgeth.
  rewrite (proj1 (heardFrom_nodeAt mp i s1 Hlt)).
  destruct (negb _); exact Huser.
Qed.

(** X18. A legacy position packet leaves the position of the payload in the
    sender's record, so the position time is the time in the payload and
    not the receipt time; the link quality is recorded, the record is
    named for the GUI and the observers get one forced update. *)
Theorem updateFrom_position hw mp pos s :
  wf_table hw s -> hasRoom hw (MeshPacket_from mp) s ->
  MeshPacket_payload mp = MeshPacket_decoded (SubPacket_position pos) ->
  exists i s', updateFrom hw mp s = Done tt s'
    /\ getNode (MeshPacket_from mp) s' = Some i
    /\ NodeInfo_position (nodeAt i s') = pos
    /\ NodeInfo_has_position (nodeAt i s') = true
    /\ NodeInfo_snr (nodeAt i s') = MeshPacket_rx_snr mp
    /\ updateGUIforNode s' = Some i
    /\ trace s' = trace s ++ [EvNotifyObservers true].
Proof.
  intros Hwf Hroom Hp.
  destruct (updateFrom_heard hw mp _ s Hwf Hroom Hp)
    as (i & s1 & E & Hrun & Eh & Hgeth & Hlt & Hlth & Hwfh & Htr & _).
  set (h := heardFrom mp i s1) in *.
  rewrite Hrun, (updatePosition_run hw _ pos h i h Eh).
  set (s2 := upd_node i (set_NodeInfo_position pos) h).
  assert (Hlt2 : (i < length (DeviceState_node_db (devicestate s2)))%nat).
  { unfold s2. rewrite (proj2 (proj2 (proj2 (proj2 (upd_node_frame i _ h))))).
    exact Hlth. }
  set (s3 := upd_node i (set_NodeInfo_has_position true) s2).
  assert (Hnode : nodeAt i s3
                  = set_NodeInfo_has_position true
                      (set_NodeInfo_position pos (nodeAt i h))).
  { unfold s3. rewrite nodeAt_upd_node by exact Hlt2. unfold s2.
    rewrite nodeAt_upd_node by exact Hlth. reflexivity. }
  assert (Hget3 : getNode (MeshPacket_from mp) s3 = Some i).
  { unfold s3, s2. rewrite !getNode_upd_node by reflexivity. exact Hgeth. }
  eexists i, _. split; [reflexivity|].
  split; [rewrite <- Hget3; apply getNode_liveNums, liveNums_devicestate; reflexivity|].
  rewrite (nodeAt_devicestate i _ s3) by reflexivity. rewrite Hnode.
  split; [reflexivity|]. split; [reflexivity|].
  split.
  { cbn [set_NodeInfo_has_position set_NodeInfo_position NodeInfo_snr].
    unfold h. rewrite (proj1 (heardFrom_nodeAt mp i s1 Hlt)). reflexivity. }
  split; [reflexivity|]. mcbn.
  change (trace s3) with (trace h). rewrite Htr. reflexivity.
Qed.

Lemma updateFrom_position_witness :
  exists i s',
    updateFrom demo_hw positionPacket (bootState demo_hw) = Done tt s'
    /\ getNode 0x42 s' = Some i
    /\ Position_time (NodeInfo_position (nodeAt i s')) = 4990
    /\ MeshPacket_rx_time positionPacket = 5000.
Proof.
  destruct (updateFrom_position demo_hw positionPacket (mkPosition 10 20 4990)
              (bootState demo_hw))
    as (i & s' & E & Hget & Hpos & _).
  - split; [reflexivity | vm_compute; lia].
  - right. vm_compute. lia.
  - reflexivity.
  - exists i, s'. split; [exact E|]. split; [exact Hget|].
    rewrite Hpos. split; reflexivity.
Defined.

(** X19. How [updateFrom] dispatches a decoded packet.  An application
    packet to broadcast or to this node is handed to the plugins, once, and
    nothing else is signalled.  A packet of a kind that is not interpreted
    notifies the observers without forcing an update.  A legacy user packet
    acts as [updateUser]: no signal when the user equals the stored one
    byte for byte, the GUI record, the power event and a forced update when
    some byte differs. *)
Theorem updateFrom_dispatch hw mp s :
  wf_table hw s -> hasRoom hw (MeshPacket_from mp) s ->
  (forall payload,
     MeshPacket_payload mp = MeshPacket_decoded (SubPacket_data payload) ->
     MeshPacket_to mp = NODENUM_BROADCAST hw \/ MeshPacket_to mp = getNodeNum s ->
     exists s', updateFrom hw mp s = Done tt s'
       /\ trace s' = trace s ++ [EvCallPlugins mp]
       /\ updateGUIforNode s' = updateGUIforNode s)
  /\ (MeshPacket_payload mp = MeshPacket_decoded SubPacket_other ->
      exists s', updateFrom hw mp s = Done tt s'
        /\ trace s' = trace s ++ [EvNotifyObservers false]
        /\ updateGUIforNode s' = updateGUIforNode s)
  /\ (forall u,
        MeshPacket_payload mp = MeshPacket_decoded (SubPacket_user u) ->
        exists i s', updateFrom hw mp s = Done tt s'
          /\ getNode (MeshPacket_from mp) s' = Some i
          /\ NodeInfo_user (nodeAt i s') = u
          /\ NodeInfo_has_user (nodeAt i s') = true
          /\ (sameBytes hw (storedUser (MeshPacket_from mp) s) u ->
              updateGUIforNode s' = updateGUIforNode s /\ trace s' = trace s)
          /\ (~ sameBytes hw (storedUser (MeshPacket_from mp) s) u ->
              updateGUIforNode s' = Some i
              /\ trace s' = trace s ++ [EvPowerTrigger_NODEDB_UPDATED;
                                        EvNotifyObservers true])).
Proof.
  intros Hwf Hroom. split; [|split].
  - intros payload Hp Hto.
    destruct (updateFrom_heard hw mp _ s Hwf Hroom Hp)
      as (i & s1 & _ & Hrun & _ & _ & _ & _ & _ & Htr & Hgui & Hnum & _).
    rewrite Hrun. mrun. rewrite Hnum.
    assert (Hc : ((MeshPacket_to mp =? NODENUM_BROADCAST hw)
                  || (MeshPacket_to mp =? getNodeNum s))%bool = true).
    { destruct Hto as [-> | ->]; rewrite Z.eqb_refl;
        [reflexivity | apply orb_true_r]. }
    rewrite Hc. mcbn. eexists. split; [reflexivity|]. mcbn.
    rewrite Htr. split; [reflexivity | exact Hgui].
  - intros Hp.
    destruct (updateFrom_heard hw mp _ s Hwf Hroom Hp)
      as (i & s1 & _ & Hrun & _ & _ & _ & _ & _ & Htr & Hgui & _).
    rewrite Hrun. unfold notifyObservers. mcbn.
    eexists. split; [reflexivity|]. mcbn. rewrite Htr.
    split; [reflexivity | exact Hgui].
  - intros u Hp.
    destruct (updateFrom_heard hw mp _ s Hwf Hroom Hp)
      as (i & s1 & _ & Hrun & _ & Hgeth & _ & _ & Hwfh & Htr & Hgui & _ & Hst & _).
    destruct (updateUser_spec hw (MeshPacket_from mp) u (heardFrom mp i s1) Hwfh
                (hasRoom_hit hw _ _ _ Hgeth))
      as (j & s' & E' & G & U & H & Hsame & Hdiff & _).
    rewrite Hst, Htr, Hgui in *.
    exists j, s'. rewrite Hrun.
    split; [exact E'|]. split; [exact G|]. split; [exact U|].
    split; [exact H|]. split; [exact Hsame | exact Hdiff].
Qed.

Lemma updateFrom_dispatch_witness :
  exists s', updateFrom demo_hw broadcastPacket (bootState demo_hw) = Done tt s'
    /\ trace s' = [EvCallPlugins broadcastPacket].
Proof.
  destruct (proj1 (updateFrom_dispatch demo_hw broadcastPacket (bootState demo_hw)
                     ltac:(split; [reflexivity | vm_compute; lia])
                     ltac:(right; vm_compute; lia))
              [1; 2; 3] eq_refl ltac:(left; reflexivity))
    as (s' & E & Htr & _).
  exists s'. split; [exact E | exact Htr].
Defined.

(** ** What the updates keep *)

Lemma recordGrows_refl a : recordGrows a a.
Proof. repeat split; auto. Qed.

Lemma tableGrows_refl s : tableGrows s s.
Proof. split; [lia|]. split; [lia|]. intros; apply recordGrows_refl. Qed.

Lemma tableGrows_devicestate s s1 s2 :
  devicestate s1 = devicestate s2 -> tableGrows s s1 -> tableGrows s s2.
Proof.
  intros H (A & B & C). unfold tableGrows. rewrite <- H.
  split; [exact A|]. split; [exact B|]. intros j Hj.
  rewrite <- (nodeAt_devicestate j s1 s2 H). apply C. exact Hj.
Qed.

Lemma tableGrows_upd_node s s1 i f :
  (forall a, recordGrows a (f a)) ->
  tableGrows s s1 -> tableGrows s (upd_node i f s1).
Proof.
  intros Hf (A & B & C).
  destruct (upd_node_frame i f s1) as (_ & _ & _ & Ec & El).
  unfold tableGrows. rewrite Ec. split; [exact A|]. split; [exact B|].
  intros j Hj. specialize (C j Hj).
  destruct (Nat.eq_dec j i) as [->|Hne].
  - destruct (Nat.lt_ge_cases i (length (DeviceState_node_db (devicestate s1))))
      as [Hlt|Hge].
    + rewrite nodeAt_upd_node by exact Hlt.
      destruct C as (C1 & C2 & C3). destruct (Hf (nodeAt i s1)) as (F1 & F2 & F3).
      split; [congruence|]. split; auto.
    + unfold nodeAt at 2. rewrite upd_node_devicestate.
      cbn [set_node_db DeviceState_node_db].
      rewrite list_insert_ge by exact Hge. exact C.
  - rewrite nodeAt_upd_node_ne by exact Hne. exact C.
Qed.

Lemma tableGrows_heardFrom s mp i s1 :
  tableGrows s s1 -> tableGrows s (heardFrom mp i s1).
Proof.
  intros H. unfold heardFrom.
  apply tableGrows_upd_node; [intros a; repeat split; auto|].
  destruct (negb _); [|exact H].
  apply tableGrows_upd_node; [intros a; repeat split; auto|].
  apply tableGrows_upd_node; [intros a; repeat split; auto|]. exact H.
Qed.

Lemma getOrCreateNode_grows hw n s :
  wf_table hw s -> hasRoom hw n s ->
  exists i s1, getOrCreateNode hw n s = Done i s1 /\ tableGrows s s1.
Proof.
  intros Hwf Hroom.
  destruct (getOrCreateNode_spec hw n s Hwf Hroom)
    as (i & s1 & E & _ & _ & _ & _ & _ & Hhit & Hmiss & _).
  exists i, s1. split; [exact E|].
  destruct (getNode n s) as [i0|] eqn:G.
  - rewrite (Hhit ltac:(eexists; reflexivity)). apply tableGrows_refl.
  - destruct (Hmiss eq_refl) as [-> _].
    split; [cbn; lia|]. split; [cbn; lia|].
    intros j Hj. rewrite nodeAt_appendNode_other by lia. apply recordGrows_refl.
Qed.

Lemma tableGrows_trans s1 s2 s3 :
  tableGrows s1 s2 -> tableGrows s2 s3 ->
  DeviceState_node_db_count (devicestate s3)
  = DeviceState_node_db_count (devicestate s2) ->
  tableGrows s1 s3.
Proof.
  intros (A & B & C) (A' & B' & C') Hc.
  split; [lia|]. split; [lia|]. intros j Hj.
  destruct (C j Hj) as (X1 & X2 & X3).
  destruct (C' j ltac:(lia)) as (Y1 & Y2 & Y3).
  split; [congruence|]. split; auto.
Qed.

(** X20. [updateFrom], [updateUser] and [updatePosition] never free a slot,
    never change the number of an occupied record and never clear its
    "has user" or "has position" flag; the table grows by at most one
    record. *)
Theorem updates_grow_table hw s :
  wf_table hw s ->
  (forall mp, hasRoom hw (MeshPacket_from mp) s ->
     exists s', updateFrom hw mp s = Done tt s' /\ tableGrows s s')
  /\ (forall n u, hasRoom hw n s ->
     exists s', updateUser hw n u s = Done tt s' /\ tableGrows s s')
  /\ (forall n p, hasRoom hw n s ->
     exists s', updatePosition hw n p s = Done tt s' /\ tableGrows s s').
Proof.
  intros Hwf.
  assert (HU : forall s0 n u, wf_table hw s0 -> hasRoom hw n s0 ->
            exists s', updateUser hw n u s0 = Done tt s' /\ tableGrows s0 s').
  { intros s0 n u Hwf0 Hroom.
    destruct (getOrCreateNode_grows hw n s0 Hwf0 Hroom) as (i & s1 & E & G).
    rewrite (updateUser_run hw n u s0 i s1 E). cbv zeta.
    eexists. split; [reflexivity|].
    apply (tableGrows_devicestate _
             (upd_node i (set_NodeInfo_has_user true)
                (upd_node i (set_NodeInfo_user u) s1)));
      [destruct (User_memcmp _ _ _); reflexivity|].
    apply tableGrows_upd_node; [intros a; repeat split; auto|].
    apply tableGrows_upd_node; [intros a; repeat split; auto|]. exact G. }
  assert (HP : forall s0 n p, wf_table hw s0 -> hasRoom hw n s0 ->
            exists s', updatePosition hw n p s0 = Done tt s' /\ tableGrows s0 s').
  { intros s0 n p Hwf0 Hroom.
    destruct (getOrCreateNode_grows hw n s0 Hwf0 Hroom) as (i & s1 & E & G).
    rewrite (updatePosition_run hw n p s0 i s1 E).
    eexists. split; [reflexivity|].
    apply (tableGrows_devicestate _
             (upd_node i (set_NodeInfo_has_position true)
                (upd_node i (set_NodeInfo_position p) s1))); [reflexivity|].
    apply tableGrows_upd_node; [intros a; repeat split; auto|].
    apply tableGrows_upd_node; [intros a; repeat split; auto|]. exact G. }
  split; [|split].
  - intros mp Hroom.
    destruct (MeshPacket_payload mp) as [p|bytes] eqn:Hp.
    2:{ exists s. unfold updateFrom. rewrite Hp.
        split; [reflexivity | apply tableGrows_refl]. }
    destruct (updateFrom_heard hw mp p s Hwf Hroom Hp)
      as (i & s1 & E & Hrun & Eh & Hgeth & _ & _ & Hwfh & _).
    destruct (getOrCreateNode_grows hw _ s Hwf Hroom) as (i' & s1' & E' & G).
    rewrite E in E'. injection E' as <- <-.
    pose proof (tableGrows_heardFrom s mp i s1 G) as Gh.
    rewrite Hrun.
    destruct p as [pos|payload|u|].
    + destruct (HP _ (MeshPacket_from mp) pos Hwfh (hasRoom_hit hw _ _ _ Hgeth))
        as (s' & Es & Gs).
      exists s'. split; [exact Es|].
      apply (tableGrows_trans _ _ _ Gh Gs).
      rewrite (updatePosition_run hw _ pos _ i _ Eh) in Es.
      injection Es as <-. reflexivity.
    + mrun. destruct (_ || _)%bool; mcbn;
        (eexists; split; [reflexivity|]);
        apply (tableGrows_devicestate _ (heardFrom mp i s1)); try reflexivity;
        exact Gh.
    + destruct (HU _ (MeshPacket_from mp) u Hwfh (hasRoom_hit hw _ _ _ Hgeth))
        as (s' & Es & Gs).
      exists s'. split; [exact Es|].
      apply (tableGrows_trans _ _ _ Gh Gs).
      rewrite (updateUser_run hw _ u _ i _ Eh) in Es. cbv zeta in Es.
      injection Es as <-. destruct (User_memcmp _ _ _); reflexivity.
    + unfold notifyObservers. mcbn. eexists. split; [reflexivity|].
      apply (tableGrows_devicestate _ (heardFrom mp i s1)); [reflexivity|].
      exact Gh.
  - intros n u Hroom. apply HU; assumption.
  - intros n p Hroom. apply HP; assumption.
Qed.

Lemma updates_grow_table_witness :
  exists s',
    updateFrom demo_hw otherPacket
      (stateOf (updateFrom demo_hw userPacket (bootState demo_hw))
               (bootState demo_hw)) = Done tt s'
    /\ NodeInfo_has_user (nodeAt 0 s') = true.
Proof.
  destruct (proj1 (updates_grow_table demo_hw
                     (stateOf (updateFrom demo_hw userPacket (bootState demo_hw))
                              (bootState demo_hw))
                     ltac:(split; [reflexivity | vm_compute; lia]))
              otherPacket ltac:(left; exists 0%nat; reflexivity))
    as (s' & E & _ & _ & G).
  exists s'. split; [exact E|].
  apply (G 0%nat ltac:(vm_compute; lia)). reflexivity.
Defined.

Lemma NoDup_numsAfter n s : NoDup (liveNums s) -> NoDup (numsAfter n s).
Proof.
  intros Hnd. unfold numsAfter.
  destruct (getNode n s) as [j|] eqn:Hj; [exact Hnd|].
  apply NoDup_app. split; [exact Hnd|]. split.
  - intros x Hx Hin. apply list_elem_of_singleton in Hin. subst x.
    unfold getNode in Hj. apply scanNodes_None in Hj. contradiction.
  - apply NoDup_singleton.
Qed.

(** X21. [updateFrom], [updateUser] and [updatePosition] keep the numbers of
    the occupied records free of duplicates, and keep the occupancy within
    the capacity of the table. *)
Theorem updates_keep_keys_unique hw s :
  wf_table hw s -> NoDup (liveNums s) ->
  (forall mp, hasRoom hw (MeshPacket_from mp) s ->
     exists s', updateFrom hw mp s = Done tt s'
       /\ NoDup (liveNums s') /\ wf_table hw s')
  /\ (forall n u, hasRoom hw n s ->
     exists s', updateUser hw n u s = Done tt s'
       /\ NoDup (liveNums s') /\ wf_table hw s')
  /\ (forall n p, hasRoom hw n s ->
     exists s', updatePosition hw n p s = Done tt s'
       /\ NoDup (liveNums s') /\ wf_table hw s').
Proof.
  intros Hwf Hnd. split; [|split].
  - intros mp Hroom.
    destruct (updateFrom_spec hw mp s Hwf Hroom) as (s' & E & Hnums & Hwf').
    exists s'. split; [exact E|]. split; [|exact Hwf']. rewrite Hnums.
    destruct (MeshPacket_payload mp); [apply NoDup_numsAfter|]; exact Hnd.
  - intros n u Hroom.
    destruct (updateUser_spec hw n u s Hwf Hroom)
      as (i & s' & E & _ & _ & _ & _ & _ & Hnums & Hwf').
    exists s'. split; [exact E|]. split; [|exact Hwf']. rewrite Hnums.
    apply NoDup_numsAfter. exact Hnd.
  - intros n p Hroom.
    destruct (updatePosition_spec hw n p s Hwf Hroom)
      as (i & s' & E & _ & _ & _ & _ & _ & Hnums & Hwf').
    exists s'. split; [exact E|]. split; [|exact Hwf']. rewrite Hnums.
    apply NoDup_numsAfter. exact Hnd.
Qed.

Lemma updates_keep_keys_unique_witness :
  exists s',
    updateFrom demo_hw userPacket
      (stateOf (updateFrom demo_hw positionPacket (bootState demo_hw))
               (bootState demo_hw)) = Done tt s'
    /\ NoDup (liveNums s').
Proof.
  destruct (proj1 (updates_keep_keys_unique demo_hw
                     (stateOf (updateFrom demo_hw positionPacket (bootState demo_hw))
                              (bootState demo_hw))
                     ltac:(split; [reflexivity | vm_compute; lia])
                     ltac:(apply NoDup_singleton))
              userPacket ltac:(left; exists 0%nat; reflexivity))
    as (s' & E & Hnd & _).
  exists s'. split; [exact E | exact Hnd].
Defined.

(** ** Liveness of a node just heard *)

Lemma liveNodes_slots hw s :
  wf_table hw s ->
  liveNodes (devicestate s)
  = (fun i => nodeAt i s) <$> seq 0 (DeviceState_node_db_count (devicestate s)).
Proof.
  intros Hwf. apply list_eq. intros i. rewrite list_lookup_fmap.
  destruct (Nat.lt_ge_cases i (DeviceState_node_db_count (devicestate s)))
    as [Hlt|Hge].
  - rewrite (liveNodes_lookup hw s i Hwf Hlt), lookup_seq_lt by exact Hlt.
    reflexivity.
  - rewrite lookup_seq_ge by exact Hge. cbn.
    apply lookup_ge_None. rewrite (length_liveNodes hw s Hwf). exact Hge.
Qed.

Lemma online_slots_length now s (l : list nat) :
  length (filter (fun nd => sinceLastSeen now nd < 120)
                 ((fun i => nodeAt i s) <$> l))
  = length (filter (fun i => sinceLastSeen now (nodeAt i s) < 120) l).
Proof.
  induction l as [|x l IH]; [reflexivity|].
  rewrite fmap_cons, !filter_cons.
  destruct (decide (sinceLastSeen now (nodeAt x s) < 120));
    cbn [length]; rewrite IH; reflexivity.
Qed.

(** The online count is the number of occupied slots that pass the test. *)
Lemma getNumOnlineNodes_slots hw now s :
  wf_table hw s -> getNumOnlineNodes now s = length (onlineSlots now s).
Proof.
  intros Hwf. unfold getNumOnlineNodes, onlineSlots.
  rewrite online_fold, (liveNodes_slots hw s Hwf). cbn [Nat.add].
  change NUM_ONLINE_SECS with 120.
  apply online_slots_length.
Qed.

(** X22. A node heard in an application packet with receipt time t counts
    as online at every time from t to t + 119 (times below 2^31): its
    record measures [now - t] seconds, passes the test of
    [getNumOnlineNodes] and is one of the records that the function
    counts.  The online count never exceeds the occupancy of the table. *)
Theorem heard_node_is_online hw mp payload s now :
  wf_table hw s -> hasRoom hw (MeshPacket_from mp) s ->
  MeshPacket_payload mp = MeshPacket_decoded (SubPacket_data payload) ->
  0 < MeshPacket_rx_time mp ->
  MeshPacket_rx_time mp <= now < MeshPacket_rx_time mp + 120 ->
  now < 2 ^ 31 ->
  exists i s', updateFrom hw mp s = Done tt s'
    /\ getNode (MeshPacket_from mp) s' = Some i
    /\ sinceLastSeen now (nodeAt i s') = now - MeshPacket_rx_time mp
    /\ i ∈ onlineSlots now s'
    /\ getNumOnlineNodes now s' = length (onlineSlots now s')
    /\ (1 <= getNumOnlineNodes now s'
        <= DeviceState_node_db_count (devicestate s'))%nat.
Proof.
  intros Hwf Hroom Hp Hpos Hnow Hsmall.
  destruct (updateFrom_heard hw mp _ s Hwf Hroom Hp)
    as (i & s1 & _ & Hrun & _ & Hgeth & Hlt & _ & Hwfh & _).
  set (h := heardFrom mp i s1) in *.
  assert (Hds : exists s', updateFrom hw mp s = Done tt s'
                           /\ devicestate s' = devicestate h).
  { rewrite Hrun. mrun. destruct (_ || _)%bool; mcbn;
      eexists; split; reflexivity. }
  destruct Hds as (s' & E & Hd). exists i, s'. split; [exact E|].
  assert (Hwf' : wf_table hw s')
    by (apply (wf_table_devicestate hw h); [symmetry; exact Hd | exact Hwfh]).
  assert (Hget : getNode (MeshPacket_from mp) s' = Some i)
    by (rewrite <- Hgeth; apply getNode_liveNums, liveNums_devicestate;
        exact Hd).
  assert (Hnode : nodeAt i s' = nodeAt i h)
    by (apply nodeAt_devicestate; exact Hd).
  assert (Hsince : sinceLastSeen now (nodeAt i s') = now - MeshPacket_rx_time mp).
  { rewrite Hnode. unfold h. rewrite (proj1 (heardFrom_nodeAt mp i s1 Hlt)).
    destruct (Z.eqb_spec (MeshPacket_rx_time mp) 0) as [Ez|Ez]; [lia|].
    cbn [negb]. unfold sinceLastSeen.
    cbn [set_NodeInfo_snr set_NodeInfo_position NodeInfo_position
         set_Position_time Position_time].
    rewrite s32_small by lia.
    destruct (Z.ltb_spec (now - MeshPacket_rx_time mp) 0); [lia|].
    unfold u32. rewrite Z.mod_small by lia. reflexivity. }
  destruct (getNode_lt hw _ s' i Hwf' Hget) as [Hic _].
  assert (Hin : i ∈ onlineSlots now s').
  { unfold onlineSlots. apply list_elem_of_filter. split.
    - rewrite Hsince. unfold NUM_ONLINE_SECS. lia.
    - apply elem_of_seq. lia. }
  pose proof (getNumOnlineNodes_slots hw now s' Hwf') as Hcount.
  split; [exact Hget|]. split; [exact Hsince|]. split; [exact Hin|].
  split; [exact Hcount|]. rewrite Hcount. split.
  - destruct (onlineSlots now s'); [inversion Hin | cbn; lia].
  - unfold onlineSlots. etransitivity; [apply length_filter|].
    rewrite length_seq. reflexivity.
Qed.

Lemma heard_node_is_online_witness :
  exists s', updateFrom demo_hw dataPacket (bootState demo_hw) = Done tt s'
    /\ getNode 0x42 s' = Some 0%nat
    /\ onlineSlots 1119 s' = [0%nat]
    /\ getNumOnlineNodes 1119 s' = 1%nat.
Proof.
  destruct (heard_node_is_online demo_hw dataPacket [1; 2; 3]
              (bootState demo_hw) 1119)
    as (i & s' & E & Hget & _ & _ & Hcount & _).
  - split; [reflexivity | vm_compute; lia].
  - right. vm_compute. lia.
  - reflexivity.
  - reflexivity.
  - cbn. lia.
  - lia.
  - exists s'. vm_compute in E. injection E as <-.
    split; [reflexivity|]. repeat split; reflexivity.
Defined.

(** ** The node number *)

Lemma accepted_collides r s : accepted r s -> collides r s = false.
Proof.
  unfold accepted, collides. intros [H|(i & H & Hm)]; rewrite H; [reflexivity|].
  apply bool_decide_eq_false_2. intros Hne. apply Hne. exact Hm.
Qed.

Lemma upd_my_node_num_id d :
  upd_my_node (set_my_node_num (MyNodeInfo_my_node_num (DeviceState_my_node d))) d = d.
Proof. destruct d as [? ? ? [? ? ? ? ? ? ? ? ? ? ? ?] ? ? ? ? ? ? ?]. reflexivity. Qed.

Lemma upd_devicestate_id s : upd_devicestate (fun _ => devicestate s) s = s.
Proof. destruct s; reflexivity. Qed.

Lemma pickNewNodeNum_stays hw retries s :
  NUM_RESERVED <= getNodeNum s ->
  getNodeNum s <> NODENUM_BROADCAST hw ->
  accepted (getNodeNum s) s ->
  pickNewNodeNum hw retries s = Done tt s.
Proof.
  intros Hlo Hne Hacc. unfold pickNewNodeNum. rewrite !bind_gets.
  assert (Hstart : startNodeNum hw (getNodeNum s) (ourMacAddr s) = getNodeNum s).
  { unfold startNodeNum, NUM_RESERVED in *.
    destruct (Z.eqb_spec (getNodeNum s) 0); [lia|].
    destruct (Z.eqb_spec (getNodeNum s) (NODENUM_BROADCAST hw)); [contradiction|].
    destruct (Z.ltb_spec (getNodeNum s) 4); [lia | reflexivity]. }
  rewrite Hstart.
  assert (E : pickLoop hw retries (getNodeNum s) s = Done (getNodeNum s) s)
    by (rewrite pickLoop_unfold, (accepted_collides _ _ Hacc); reflexivity).
  rewrite (bind_Done _ _ _ _ _ E). unfold modify, getNodeNum.
  destruct s as [d ? ? ? ? ? ? ? ? ?]. unfold upd_devicestate.
  cbn [devicestate radioGeneration ourMacAddr channelNamePtr activePSK
       activePSKSize updateGUIforNode random_calls fs trace].
  rewrite upd_my_node_num_id. reflexivity.
Qed.


(** X23. A stored node number that is not 0, not reserved and not the
    broadcast number, and that is absent from the table or belongs to a
    record with this device's MAC, is kept by [pickNewNodeNum]: the state
    stays as it was and no random number is drawn. *)
Theorem pickNewNodeNum_keeps_number hw retries s :
  NUM_RESERVED <= getNodeNum s ->
  getNodeNum s <> NODENUM_BROADCAST hw ->
  accepted (getNodeNum s) s ->
  pickNewNodeNum hw retries s = Done tt s.
Proof.
  intros Hlo Hne Hacc. unfold pickNewNodeNum. rewrite !bind_gets.
  assert (Hstart : startNodeNum hw (getNodeNum s) (ourMacAddr s) = getNodeNum s).
  { unfold startNodeNum, NUM_RESERVED in *.
    destruct (Z.eqb_spec (getNodeNum s) 0); [lia|].
    destruct (Z.eqb_spec (getNodeNum s) (NODENUM_BROADCAST hw)); [contradiction|].
    destruct (Z.ltb_spec (getNodeNum s) 4); [lia | reflexivity]. }
  rewrite Hstart.
  assert (E : pickLoop hw retries (getNodeNum s) s = Done (getNodeNum s) s)
    by (rewrite pickLoop_unfold, (accepted_collides _ _ Hacc); reflexivity).
  rewrite (bind_Done _ _ _ _ _ E). unfold modify, getNodeNum.
  destruct s as [d ? ? ? ? ? ? ? ? ?]. unfold upd_devicestate.
  cbn [devicestate radioGeneration ourMacAddr channelNamePtr activePSK
       activePSKSize updateGUIforNode random_calls fs trace].
  rewrite upd_my_node_num_id. reflexivity.
Qed.

Lemma pickNewNodeNum_keeps_number_witness :
  pickNewNodeNum demo_hw 0
    (withNodes demo_hw [nodeWithMac 0x77 [1; 2; 3; 4; 5; 6]]
       (withNodeNum 0x77 [1; 2; 3; 4; 5; 6] (bootState demo_hw)))
  = Done tt
      (withNodes demo_hw [nodeWithMac 0x77 [1; 2; 3; 4; 5; 6]]
         (withNodeNum 0x77 [1; 2; 3; 4; 5; 6] (bootState demo_hw))).
Proof.
  apply pickNewNodeNum_keeps_number.
  - vm_compute. discriminate.
  - discriminate.
  - right. exists 0%nat. split; reflexivity.
Defined.

Lemma lor_disjoint q k y :
  0 <= k -> 0 <= y < 2 ^ k -> Z.lor (q * 2 ^ k) y = q * 2 ^ k + y.
Proof.
  intros Hk Hy.
  assert (Hland : Z.land (q * 2 ^ k) y = 0).
  { apply Z.bits_inj'. intros n Hn. rewrite Z.land_spec, Z.bits_0.
    destruct (Z.lt_ge_cases n k) as [Hlt|Hge].
    - rewrite Z.mul_pow2_bits_low by lia. reflexivity.
    - rewrite <- (Z.mod_small y (2 ^ k)) by lia.
      rewrite Z.mod_pow2_bits_high by lia. apply andb_false_r. }
  rewrite <- (Z.lxor_lor _ _ Hland). symmetry.
  apply Z.add_nocarry_lxor. exact Hland.
Qed.

(** The four MAC bytes, packed big-endian. *)
Lemma macNodeNum_bytes mac :
  0 <= byte_at 2 mac < 256 -> 0 <= byte_at 3 mac < 256 ->
  0 <= byte_at 4 mac < 256 -> 0 <= byte_at 5 mac < 256 ->
  macNodeNum mac
  = byte_at 2 mac * 2 ^ 24 + byte_at 3 mac * 2 ^ 16
    + byte_at 4 mac * 2 ^ 8 + byte_at 5 mac.
Proof.
  intros H2 H3 H4 H5. unfold macNodeNum.
  generalize dependent (byte_at 2 mac). generalize dependent (byte_at 3 mac).
  generalize dependent (byte_at 4 mac). generalize dependent (byte_at 5 mac).
  intros b5 H5 b4 H4 b3 H3 b2 H2.
  rewrite !Z.shiftl_mul_pow2 by lia.
  rewrite (lor_disjoint b2 24) by lia.
  replace (b2 * 2 ^ 24 + b3 * 2 ^ 16) with ((b2 * 2 ^ 8 + b3) * 2 ^ 16) by lia.
  rewrite (lor_disjoint _ 16) by lia.
  replace ((b2 * 2 ^ 8 + b3) * 2 ^ 16 + b4 * 2 ^ 8)
    with (((b2 * 2 ^ 8 + b3) * 2 ^ 8 + b4) * 2 ^ 8) by lia.
  rewrite (lor_disjoint _ 8) by lia.
  unfold u32. rewrite Z.mod_small by lia. lia.
Qed.

(** X24. Without a stored node number, [pickNewNodeNum] takes bytes 2 to 5
    of the MAC, packed big-endian; when that number is not reserved, not
    the broadcast number and accepted against the table, it becomes the
    node number, and no random number is drawn. *)
Theorem pickNewNodeNum_from_mac hw retries s :
  let mac := ourMacAddr s in
  let v := byte_at 2 mac * 2 ^ 24 + byte_at 3 mac * 2 ^ 16
           + byte_at 4 mac * 2 ^ 8 + byte_at 5 mac in
  getNodeNum s = 0 ->
  0 <= byte_at 2 mac < 256 -> 0 <= byte_at 3 mac < 256 ->
  0 <= byte_at 4 mac < 256 -> 0 <= byte_at 5 mac < 256 ->
  NUM_RESERVED <= v -> v <> NODENUM_BROADCAST hw ->
  accepted v s ->
  exists s', pickNewNodeNum hw retries s = Done tt s'
    /\ getNodeNum s' = v
    /\ random_calls s' = random_calls s
    /\ liveNums s' = liveNums s.
Proof.
  intros mac v Hz H2 H3 H4 H5 Hlo Hne Hacc.
  unfold pickNewNodeNum. rewrite !bind_gets.
  assert (Hstart : startNodeNum hw (getNodeNum s) (ourMacAddr s) = v).
  { unfold startNodeNum. rewrite Hz. cbn [Z.eqb].
    fold mac. rewrite (macNodeNum_bytes mac H2 H3 H4 H5). fold v.
    destruct (Z.eqb_spec v (NODENUM_BROADCAST hw)); [contradiction|].
    destruct (Z.ltb_spec v NUM_RESERVED); [lia | reflexivity]. }
  rewrite Hstart.
  assert (E : pickLoop hw retries v s = Done v s)
    by (rewrite pickLoop_unfold, (accepted_collides _ _ Hacc); reflexivity).
  rewrite (bind_Done _ _ _ _ _ E). cbn [modify].
  eexists. split; [reflexivity|]. repeat split; reflexivity.
Qed.

Lemma pickNewNodeNum_from_mac_witness :
  exists s',
    pickNewNodeNum demo_hw 0
      (withNodeNum 0 [0x24; 0x6f; 0x28; 0xab; 0xcd; 0xef] (bootState demo_hw))
    = Done tt s'
    /\ getNodeNum s' = 0x28abcdef.
Proof.
  destruct (pickNewNodeNum_from_mac demo_hw 0
              (withNodeNum 0 [0x24; 0x6f; 0x28; 0xab; 0xcd; 0xef]
                           (bootState demo_hw)))
    as (s' & E & Hnum & _).
  - reflexivity.
  - cbn. lia.
  - cbn. lia.
  - cbn. lia.
  - cbn. lia.
  - vm_compute. discriminate.
  - discriminate.
  - left. reflexivity.
  - exists s'. split; [exact E | exact Hnum].
Defined.

(** ** Reading the table out *)

Lemma readInfos_seq s : forall calls readPointer,
  (readPointer <= DeviceState_node_db_count (devicestate s))%nat ->
  readInfos calls readPointer s
  = (seq readPointer
         (Nat.min calls (DeviceState_node_db_count (devicestate s) - readPointer)),
     (readPointer
      + Nat.min calls (DeviceState_node_db_count (devicestate s) - readPointer))%nat).
Proof.
  induction calls as [|calls IH]; intros rp Hrp; cbn [readInfos].
  - cbn. f_equal. lia.
  - unfold readNextInfo.
    destruct (Nat.ltb_spec rp (DeviceState_node_db_count (devicestate s))) as [L|L].
    + rewrite IH by lia.
      replace (Nat.min (S calls) (DeviceState_node_db_count (devicestate s) - rp))
        with (S (Nat.min calls
                   (DeviceState_node_db_count (devicestate s) - S rp))) by lia.
      cbn [seq]. f_equal. lia.
    + rewrite IH by lia.
      replace (DeviceState_node_db_count (devicestate s) - rp)%nat with 0%nat by lia.
      rewrite !Nat.min_0_r. reflexivity.
Qed.

(** X25. A reader that starts with [readPointer] 0 and calls [readNextInfo]
    at least as often as there are records is given every occupied slot
    once, in table order, and nothing afterwards: [readPointer] stops at the
    occupancy and the next call returns no record. *)
Theorem readNextInfo_enumerates s calls :
  (DeviceState_node_db_count (devicestate s) <= calls)%nat ->
  readInfos calls 0 s
  = (seq 0 (DeviceState_node_db_count (devicestate s)),
     DeviceState_node_db_count (devicestate s))
  /\ readNextInfo (DeviceState_node_db_count (devicestate s)) s
     = (None, DeviceState_node_db_count (devicestate s)).
Proof.
  intros H. split.
  - rewrite readInfos_seq by lia. rewrite Nat.sub_0_r, Nat.min_r by lia.
    reflexivity.
  - unfold readNextInfo. rewrite Nat.ltb_irrefl. reflexivity.
Qed.

Lemma readNextInfo_enumerates_witness :
  readInfos 5 0
    (withNodes demo_hw [nodeWithMac 4 [1; 1; 1; 1; 1; 1];
                        nodeWithMac 5 [2; 2; 2; 2; 2; 2]]
               (bootState demo_hw))
  = ([0; 1]%nat, 2%nat).
Proof.
  apply (proj1 (readNextInfo_enumerates
                  (withNodes demo_hw [nodeWithMac 4 [1; 1; 1; 1; 1; 1];
                                      nodeWithMac 5 [2; 2; 2; 2; 2; 2]]
                             (bootState demo_hw)) 5 ltac:(vm_compute; lia))).
Defined.

(** ** Start-up *)

Lemma upd_prefs_region_id s :
  upd_devicestate
    (upd_prefs (set_Pref_region (Pref_region (preferences_of (devicestate s))))) s
  = s.
Proof.
  destruct s as [[hr [hp [? ? ? ? ? ?] hc cs] hm mn ho ow cnt db rq ver ns]
                 ? ? ? ? ? ? ? ? ?].
  reflexivity.
Qed.

(** The region conversion changes the region code of the preferences, if
    anything. *)
Lemma convertLegacyRegion_region build s :
  exists c, convertLegacyRegion build s
            = Done tt (upd_devicestate (upd_prefs (set_Pref_region c)) s).
Proof.
  unfold convertLegacyRegion. rewrite !bind_gets.
  destruct (_ && _)%bool.
  - destruct (findRegion _ _) as [c|].
    + exists c. reflexivity.
    + exists (Pref_region (preferences_of (devicestate s))).
      rewrite upd_prefs_region_id. reflexivity.
  - exists (Pref_region (preferences_of (devicestate s))).
    rewrite upd_prefs_region_id. reflexivity.
Qed.

Lemma loadFromDisk_absent_state hw retries depth s :
  fs s !! preffile = None \/ fs_fault hw (FsOpenRead preffile) = true ->
  loadFromDisk hw retries depth s
  = Done tt (emit (EvFs (FsOpenRead preffile) false) s).
Proof.
  intros H. unfold loadFromDisk, bind, FS_open_read.
  destruct (fs s !! preffile) as [blob|] eqn:Hfile; [|reflexivity].
  destruct H as [H|H]; [discriminate|]. rewrite H. reflexivity.
Qed.

(** The own entry that [init] writes into an empty table. *)
Lemma own_entry n m z :
  DeviceState_node_db_count (devicestate z) = 0%nat ->
  DeviceState_node_db (devicestate z) = replicate (S m) zero_NodeInfo ->
  let z1 := upd_node 0 (set_NodeInfo_has_user true)
              (upd_node 0
                 (set_NodeInfo_user
                    (DeviceState_owner (devicestate (appendNode n z))))
                 (appendNode n z)) in
  liveNodes (devicestate z1)
  = [set_NodeInfo_has_user true
       (set_NodeInfo_user (DeviceState_owner (devicestate z))
          (set_NodeInfo_num n zero_NodeInfo))]
  /\ DeviceState_owner (devicestate z1) = DeviceState_owner (devicestate z)
  /\ DeviceState_my_node (devicestate z1) = DeviceState_my_node (devicestate z)
  /\ preferences_of (devicestate z1) = preferences_of (devicestate z)
  /\ channelSettings_of (devicestate z1) = channelSettings_of (devicestate z)
  /\ fs z1 = fs z /\ random_calls z1 = random_calls z.
Proof.
  destruct z as [[hr rc hm mn ho ow cnt db rq ver ns] ? ? ? ? ? ? ? ? ?].
  cbn [devicestate DeviceState_node_db_count DeviceState_node_db].
  intros -> ->. repeat apply conj; reflexivity.
Qed.

Lemma keepRegion_my_node code region d :
  DeviceState_my_node (keepRegion code region d)
  = if negb (bool_decide (region = EmptyString))
    then set_MyNodeInfo_region region (DeviceState_my_node d)
    else DeviceState_my_node d.
Proof.
  unfold keepRegion.
  destruct (negb (code =? RegionCode_Unset));
    destruct (negb (bool_decide (region = EmptyString))); reflexivity.
Qed.

(** What the build strings and the region conversion leave alone. *)
Lemma init_strings_frame (b : bool) region c fv hm z :
  let z4 := upd_devicestate (upd_my_node (set_hw_model hm))
              (upd_devicestate (upd_my_node (set_firmware_version fv))
                 (upd_devicestate (upd_prefs (set_Pref_region c))
                    (if b then upd_devicestate
                                 (upd_my_node (set_MyNodeInfo_region region)) z
                     else z))) in
  liveNodes (devicestate z4) = liveNodes (devicestate z)
  /\ DeviceState_owner (devicestate z4) = DeviceState_owner (devicestate z)
  /\ DeviceState_my_node (devicestate z4)
     = set_hw_model hm
         (set_firmware_version fv
            (if b then set_MyNodeInfo_region region
                         (DeviceState_my_node (devicestate z))
             else DeviceState_my_node (devicestate z)))
  /\ Pref_factory_reset (preferences_of (devicestate z4))
     = Pref_factory_reset (preferences_of (devicestate z))
  /\ channelSettings_of (devicestate z4) = channelSettings_of (devicestate z)
  /\ fs z4 = fs z /\ random_calls z4 = random_calls z.
Proof.
  destruct z as [[hr [hp [? ? ? ? ? ?] hc cs] hm' mn ho ow cnt db rq ver ns]
                 ? ? ? ? ? ? ? ? ?].
  destruct b; repeat apply conj; reflexivity.
Qed.

(** X26. On a first boot (no persisted file, or one that does not open)
    [init] returns with the node number made from the MAC and with exactly
    one record in the table: this device's own, under that number, carrying
    the owner and marked as having a user.  The local node info holds the
    values of the build: 32 node number bits, the packet id width, minimum
    application version 20120, no error, the firmware version and the
    hardware model, and the build's hardware version as region string when
    the build gives one.  No file is written and no random number is
    drawn. *)
Theorem init_first_boot hw build retries depth s :
  fs s !! preffile = None \/ fs_fault hw (FsOpenRead preffile) = true ->
  NUM_RESERVED < NODENUM_BROADCAST hw ->
  (0 < MAX_NUM_NODES hw)%nat ->
  exists s', init hw build retries depth s = Done tt s'
    /\ DeviceState_my_node (devicestate s')
       = mkMyNodeInfo
           (startNodeNum hw 0 (getMacAddr hw)) false
           (if bool_decide (HW_VERSION build = EmptyString)
            then MyNodeInfo_region (DeviceState_my_node (devicestate s))
            else strncpy (HW_VERSION build) (sizeof_region build))
           (strncpy (HW_VENDOR build) (sizeof_hw_model build))
           (strncpy (APP_VERSION build) (sizeof_firmware_version build))
           CriticalErrorCode_None 0 0
           (sizeof_PacketId build * 8) 32 (FLOOD_EXPIRE_TIME hw) 20120
    /\ liveNodes (devicestate s')
       = [set_NodeInfo_has_user true
            (set_NodeInfo_user (DeviceState_owner (devicestate s'))
               (set_NodeInfo_num (getNodeNum s') zero_NodeInfo))]
    /\ fs s' = fs s
    /\ random_calls s' = random_calls s.
Proof.
  intros Hfile Hb Hmax. unfold init.
  destruct (installDefaultDeviceState_full hw retries depth s)
    as (s1 & E1 & Hd1 & _ & _ & _ & _ & _ & _ & Hr1 & Hf1 & _).
  rewrite (bind_Done _ _ _ _ _ E1).
  rewrite (bind_Done _ _ _ _ _
             (loadFromDisk_absent_state hw retries depth s1
                ltac:(rewrite Hf1; exact Hfile))).
  mrun.
  pose proof (keepRegion_parts
                (Pref_region (preferences_of (devicestate s)))
                (MyNodeInfo_region (DeviceState_my_node (devicestate s)))
                (defaultDeviceState hw)) as (C & F & _ & K & N & _ & M).
  pose proof (keepRegion_my_node
                (Pref_region (preferences_of (devicestate s)))
                (MyNodeInfo_region (DeviceState_my_node (devicestate s)))
                (defaultDeviceState hw)) as My.
  rewrite <- Hd1 in C, F, K, N, M, My.
  cbn [defaultDeviceState DeviceState_node_db_count DeviceState_node_db
       DeviceState_my_node MyNodeInfo_my_node_num
       preferences_of channelSettings_of DeviceState_radio
       RadioConfig_preferences RadioConfig_channel_settings
       zero_UserPreferences Pref_factory_reset] in C, F, K, N, M, My.
  destruct (startNodeNum_range hw 0 (getMacAddr hw) Hb) as [L1 L2].
  destruct (MAX_NUM_NODES hw) as [|m] eqn:Em; [lia|].
  match goal with
  | |- context [bind (pickNewNodeNum hw retries) ?k ?z] => set (z0 := z)
  end.
  assert (Hnum0 : getNodeNum z0 = startNodeNum hw 0 (getMacAddr hw)) by exact M.
  assert (Hcnt0 : DeviceState_node_db_count (devicestate z0) = 0%nat) by exact K.
  assert (Hdb0 : DeviceState_node_db (devicestate z0)
                 = replicate (S m) zero_NodeInfo) by exact N.
  assert (Hcs0 : channelSettings_of (devicestate z0)
                 = channelSettings_of (devicestate s1)) by reflexivity.
  assert (Hfr0 : Pref_factory_reset (preferences_of (devicestate z0)) = false)
    by exact F.
  assert (Hmy0 : DeviceState_my_node (devicestate z0)
                 = set_min_app_version 20120
                     (set_error CriticalErrorCode_None 0
                        (MyNodeInfo_error_count
                           (DeviceState_my_node (devicestate s1)))
                        (set_id_bits (sizeof_NodeNum * 8)
                           (sizeof_PacketId build * 8)
                           (DeviceState_my_node (devicestate s1)))))
    by reflexivity.
  assert (Hfs0 : fs z0 = fs s1) by reflexivity.
  assert (Hrc0 : random_calls z0 = random_calls s1) by reflexivity.
  clearbody z0.
  rewrite (bind_Done _ _ _ _ _
             (pickNewNodeNum_stays hw retries z0
                ltac:(rewrite Hnum0; exact L1)
                ltac:(rewrite Hnum0; exact L2)
                (or_introl (getNode_empty _ z0 Hcnt0)))).
  rewrite bind_gets.
  rewrite (bind_Done _ _ _ _ _
             (getOrCreateNode_miss hw (getNodeNum z0) z0
                (getNode_empty _ z0 Hcnt0)
                ltac:(rewrite Hcnt0, Em; lia))).
  rewrite Hcnt0. rewrite bind_gets, !bind_modify.
  pose proof (own_entry (getNodeNum z0) m z0 Hcnt0 Hdb0) as H1.
  cbv zeta in H1.
  match goal with
  | |- context [bind (when ?b ?m) ?k ?z] =>
      set (z1 := z) in *;
      destruct H1 as (Hl1 & Ho1 & Hn1 & Hp1 & Hcs1 & Hfs1 & Hrc1);
      clearbody z1;
      set (z2 := if b then upd_devicestate
                             (upd_my_node
                                (set_MyNodeInfo_region
                                   (strncpy (HW_VERSION build)
                                            (sizeof_region build)))) z1
                 else z1);
      assert (E2 : when b m z1 = Done tt z2)
        by (subst z2; destruct b; reflexivity);
      rewrite (bind_Done _ k _ _ _ E2)
  end.
  destruct (convertLegacyRegion_region build z2) as [c E3].
  rewrite (bind_Done _ _ _ _ _ E3), !bind_modify.
  pose proof (init_strings_frame
                (negb (bool_decide (HW_VERSION build = EmptyString)))
                (strncpy (HW_VERSION build) (sizeof_region build)) c
                (strncpy (APP_VERSION build) (sizeof_firmware_version build))
                (strncpy (HW_VENDOR build) (sizeof_hw_model build)) z1) as H4.
  cbv zeta in H4. fold z2 in H4.
  match goal with
  | |- context [bind (resetRadioConfig hw retries depth) ?k ?z] =>
      set (z4 := z) in *
  end.
  destruct H4 as (Hl4 & Ho4 & Hn4 & Hfr4 & Hcs4 & Hfs4 & Hrc4).
  clearbody z4. clear E2 E3. clearbody z2.
  assert (Hfr : Pref_factory_reset (preferences_of (devicestate z4)) = false)
    by (rewrite Hfr4, Hp1; exact Hfr0).
  destruct (resetRadioConfig_plain hw retries depth z4 Hfr)
    as (s5 & E5 & Hd5 & _ & _ & _ & _ & _ & _ & Hr5 & Hf5 & _).
  rewrite (bind_Done _ _ _ _ _ E5). exists s5. split; [reflexivity|].
  assert (Hpsk : (psk_size (psk_of (devicestate z4)) =? 0)%nat = false)
    by (unfold psk_of; rewrite Hcs4, Hcs1, Hcs0, C; reflexivity).
  rewrite Hpsk in Hd5.
  destruct (tail_devicestate_parts (devicestate z4))
    as (_ & _ & Tm & To & Tdb & Tc & _).
  rewrite <- Hd5 in Tm, To, Tdb, Tc.
  assert (Hnum5 : getNodeNum s5 = getNodeNum z0)
    by (unfold getNodeNum; rewrite Tm, Hn4, Hn1;
        match goal with |- context [if ?b then _ else _] => destruct b end;
        reflexivity).
  split.
  { rewrite Tm, Hn4, Hn1, Hmy0, My.
    destruct (bool_decide_reflect (HW_VERSION build = EmptyString)) as [_|_];
      destruct (bool_decide_reflect
                  (MyNodeInfo_region (DeviceState_my_node (devicestate s))
                   = EmptyString)) as [Hreg|_];
      try rewrite Hreg; reflexivity. }
  split.
  - transitivity (liveNodes (devicestate z4));
      [unfold liveNodes; rewrite Tc, Tdb; reflexivity|].
    rewrite Hl4, To, Ho4, Ho1, Hnum5. exact Hl1.
  - split; [rewrite Hf5, Hfs4, Hfs1, Hfs0; exact Hf1|].
    rewrite Hr5, Hrc4, Hrc1, Hrc0. exact Hr1.
Qed.

Lemma init_first_boot_witness :
  exists s', init demo_hw demo_build 0 0 (bootState demo_hw) = Done tt s'
    /\ getNodeNum s' = 0x28abcdef
    /\ length (liveNodes (devicestate s')) = 1%nat.
Proof.
  destruct (init_first_boot demo_hw demo_build 0 0 (bootState demo_hw))
    as (s' & E & Hmy & Hl & _).
  - left. reflexivity.
  - reflexivity.
  - cbn. lia.
  - exists s'. split; [exact E|]. split.
    + unfold getNodeNum. rewrite Hmy. reflexivity.
    + rewrite Hl. reflexivity.
Defined.

Lemma bind_Done_inv {A B} (m : M A) (k : A -> M B) s b s' :
  bind m k s = Done b s' -> exists a s1, m s = Done a s1 /\ k a s1 = Done b s'.
Proof.
  unfold bind. destruct (m s) as [a s1| |]; try discriminate.
  intros H. exists a, s1. split; [reflexivity | exact H].
Qed.

Lemma pickLoop_devicestate hw retries : forall r s r' s',
  pickLoop hw retries r s = Done r' s' -> devicestate s' = devicestate s.
Proof.
  induction retries as [|retries IH]; intros r s r' s' H;
    rewrite pickLoop_unfold in H; destruct (collides r s).
  - discriminate.
  - injection H as <- <-. reflexivity.
  - rewrite (IH _ _ _ _ H). reflexivity.
  - injection H as <- <-. reflexivity.
Qed.

Lemma pickNewNodeNum_prefs hw retries s s' :
  pickNewNodeNum hw retries s = Done tt s' ->
  preferences_of (devicestate s') = preferences_of (devicestate s).
Proof.
  unfold pickNewNodeNum. rewrite !bind_gets. intros H.
  destruct (bind_Done_inv _ _ _ _ _ H) as (r & s1 & E & H1).
  injection H1 as <-. cbn [devicestate upd_devicestate].
  rewrite (pickLoop_devicestate _ _ _ _ _ _ E). reflexivity.
Qed.

Lemma getOrCreateNode_prefs hw n s i s' :
  getOrCreateNode hw n s = Done i s' ->
  preferences_of (devicestate s') = preferences_of (devicestate s).
Proof.
  unfold getOrCreateNode. rewrite bind_gets.
  destruct (getNode n s).
  - intros H. injection H as <- <-. reflexivity.
  - rewrite bind_gets. unfold bind, assert.
    destruct (_ <? _)%nat; [|discriminate].
    intros H. injection H as <- <-. reflexivity.
Qed.

Lemma resetRadioConfig_no_fuel hw retries s :
  Pref_factory_reset (preferences_of (devicestate s)) = true ->
  resetRadioConfig hw retries 0 s = OutOfFuel.
Proof.
  intros H. rewrite resetRadioConfig_unfold.
  unfold resetRadioConfig_with, bind, modify, gets.
  cbn [devicestate set_radioGeneration]. rewrite H. reflexivity.
Qed.

(** X27. A factory reset that is pending in the persisted record outlives
    the set-up in [init]: when the loaded record has [factory_reset] set,
    the last call of [init], [resetRadioConfig], installs the defaults
    again, so that whenever [init] returns the node table is empty, this
    device's own record included, and the values [init] had taken from the
    build (the bit widths, the minimum application version, the firmware
    version and the hardware model) are zero again. *)
Theorem init_pending_factory_reset hw build retries depth s blob d s' :
  fs s !! preffile = Some blob ->
  fs_fault hw (FsOpenRead preffile) = false ->
  pb_decode hw blob (zero_DeviceState (MAX_NUM_NODES hw)) = (d, true) ->
  11 <= DeviceState_version d ->
  Pref_factory_reset (preferences_of d) = true ->
  init hw build retries depth s = Done tt s' ->
  (exists code region,
      devicestate s' = keepRegion code region (defaultDeviceState hw))
  /\ liveNodes (devicestate s') = []
  /\ getNode (getNodeNum s') s' = None
  /\ MyNodeInfo_min_app_version (DeviceState_my_node (devicestate s')) = 0
  /\ MyNodeInfo_node_num_bits (DeviceState_my_node (devicestate s')) = 0
  /\ MyNodeInfo_firmware_version (DeviceState_my_node (devicestate s'))
     = EmptyString
  /\ MyNodeInfo_hw_model (DeviceState_my_node (devicestate s')) = EmptyString.
Proof.
  intros Hfile Hfault Hdec Hver Hfr H. unfold init in H.
  destruct (installDefaultDeviceState_full hw retries depth s)
    as (s1 & E1 & _ & _ & _ & _ & _ & _ & _ & _ & Hf1 & _).
  rewrite (bind_Done _ _ _ _ _ E1) in H.
  destruct (loadFromDisk_decoded_state hw retries depth s1 blob d
              ltac:(rewrite Hf1; exact Hfile) Hfault Hdec Hver)
    as (s2 & E2 & Hd2 & _).
  rewrite (bind_Done _ _ _ _ _ E2), !bind_modify in H.
  destruct (bind_Done_inv _ _ _ _ _ H) as ([] & z1 & Ep & H1). clear H.
  apply pickNewNodeNum_prefs in Ep. cbn [devicestate upd_devicestate] in Ep.
  rewrite bind_gets in H1.
  destruct (bind_Done_inv _ _ _ _ _ H1) as (i & z2 & Eg & H2). clear H1.
  apply getOrCreateNode_prefs in Eg.
  rewrite bind_gets, !bind_modify in H2.
  match type of H2 with
  | bind (when ?b ?m) ?k ?z = _ =>
      set (z3 := z) in *;
      assert (Hp3 : preferences_of (devicestate z3)
                    = preferences_of (devicestate z2)) by reflexivity;
      clearbody z3;
      set (z4 := if b then upd_devicestate
                             (upd_my_node
                                (set_MyNodeInfo_region
                                   (strncpy (HW_VERSION build)
                                            (sizeof_region build)))) z3
                 else z3);
      assert (E4 : when b m z3 = Done tt z4)
        by (subst z4; destruct b; reflexivity);
      assert (Hp4 : preferences_of (devicestate z4)
                    = preferences_of (devicestate z3))
        by (subst z4; destruct b; reflexivity);
      clearbody z4;
      rewrite (bind_Done _ k _ _ _ E4) in H2
  end.
  destruct (convertLegacyRegion_region build z4) as [c E5].
  rewrite (bind_Done _ _ _ _ _ E5), !bind_modify in H2.
  destruct (bind_Done_inv _ _ _ _ _ H2) as (r & z6 & Er & Hret). clear H2.
  injection Hret as ->.
  match type of Er with
  | resetRadioConfig _ _ _ ?z = _ =>
      assert (Hfr5 : Pref_factory_reset (preferences_of (devicestate z)) = true)
        by (transitivity (Pref_factory_reset (preferences_of (devicestate z4)));
            [reflexivity|];
            rewrite Hp4, Hp3, Eg, Ep;
            transitivity (Pref_factory_reset (preferences_of (devicestate s2)));
            [reflexivity | rewrite Hd2; exact Hfr])
  end.
  destruct depth as [|d0].
  { rewrite (resetRadioConfig_no_fuel _ _ _ Hfr5) in Er. discriminate. }
  match type of Er with
  | resetRadioConfig _ _ _ ?z = _ =>
      destruct (resetRadioConfig_reset hw retries (S d0) z Hfr5 ltac:(lia))
        as (s6 & E6 & Hd6 & _)
  end.
  rewrite E6 in Er. injection Er as _ <-.
  match type of Hd6 with
  | _ = keepRegion ?c0 ?r0 _ =>
      set (code := c0) in Hd6; set (region := r0) in Hd6;
      clearbody code region
  end.
  pose proof (keepRegion_parts code region (defaultDeviceState hw))
    as (_ & _ & _ & K & _).
  pose proof (keepRegion_my_node code region (defaultDeviceState hw)) as My.
  rewrite <- Hd6 in K, My.
  assert (Hcnt : DeviceState_node_db_count (devicestate s6) = 0%nat) by exact K.
  split; [exists code, region; exact Hd6|].
  split; [unfold liveNodes; rewrite Hcnt; apply take_0|].
  split; [apply getNode_empty; exact Hcnt|].
  rewrite My.
  match goal with |- context [if ?b then _ else _] => destruct b end;
    repeat apply conj; reflexivity.
Qed.

Lemma init_pending_factory_reset_witness :
  exists s',
    init reset_hw demo_build 1 2
      (withFiles {[ preffile := [11] ]} (bootState reset_hw)) = Done tt s'
    /\ liveNodes (devicestate s') = [].
Proof.
  assert (E : exists s',
             init reset_hw demo_build 1 2
               (withFiles {[ preffile := [11] ]} (bootState reset_hw))
             = Done tt s').
  { vm_compute. eexists. reflexivity. }
  destruct E as [s' E]. exists s'. split; [exact E|].
  apply (init_pending_factory_reset reset_hw demo_build 1 2
           (withFiles {[ preffile := [11] ]} (bootState reset_hw)) [11]
           (upd_prefs (set_Pref_factory_reset true)
              (set_version 11 (zero_DeviceState 4))) s').
  - reflexivity.
  - reflexivity.
  - reflexivity.
  - cbn. lia.
  - reflexivity.
  - exact E.
Defined.

Lemma findRegion_Some name table c :
  findRegion name table = Some c ->
  c <> RegionCode_Unset /\ In (c, name) table.
Proof.
  induction table as [|[code nm] rest IH]; cbn [findRegion]; [discriminate|].
  destruct (Z.eqb_spec code RegionCode_Unset) as [|Hne]; [discriminate|].
  destruct (bool_decide_reflect (nm = name)) as [->|_].
  - intros H. injection H as <-. split; [exact Hne | left; reflexivity].
  - intros H. destruct (IH H) as [A B]. split; [exact A | right; exact B].
Qed.

(** X28. The legacy region string: when no region code is set and the
    region string is "1.0-" followed by a name that the [regions] table
    lists ahead of its terminator, the conversion in [init] stores that
    entry's code, which is never the unset code, and changes nothing else;
    when a region code is set already, the state stays as it was. *)
Theorem convertLegacyRegion_converts build s name c :
  MyNodeInfo_region (DeviceState_my_node (devicestate s)) = ("1.0-" +:+ name)%string ->
  findRegion name (regions build) = Some c ->
  (Pref_region (preferences_of (devicestate s)) = RegionCode_Unset ->
   convertLegacyRegion build s
   = Done tt (upd_devicestate (upd_prefs (set_Pref_region c)) s))
  /\ (Pref_region (preferences_of (devicestate s)) <> RegionCode_Unset ->
      convertLegacyRegion build s = Done tt s)
  /\ c <> RegionCode_Unset
  /\ In (c, name) (regions build).
Proof.
  intros Hreg Hfind. destruct (findRegion_Some _ _ _ Hfind) as [Hne Hin].
  split; [|split; [|split; assumption]].
  - intros Hcode. unfold convertLegacyRegion. rewrite !bind_gets.
    rewrite Hcode, Hreg.
    change ("1.0-" +:+ name)%string
      with (String "1" (String "." (String "0" (String "-" name)))).
    assert (Hp : String.prefix "1.0-"
                   (String "1" (String "." (String "0" (String "-" name))))
                 = true) by (destruct name; reflexivity).
    rewrite Hp.
    cbn [Z.eqb RegionCode_Unset andb String.length Nat.sub substring].
    rewrite Nat.sub_0_r, (substring_all name _ (Nat.le_refl _)), Hfind.
    reflexivity.
  - intros Hcode. unfold convertLegacyRegion. rewrite !bind_gets.
    destruct (Z.eqb_spec (Pref_region (preferences_of (devicestate s)))
                         RegionCode_Unset); [contradiction | reflexivity].
Qed.

Lemma convertLegacyRegion_converts_witness :
  convertLegacyRegion legacy_build
    (upd_devicestate (upd_my_node (set_MyNodeInfo_region "1.0-EU433"))
                     (bootState demo_hw))
  = Done tt
      (upd_devicestate (upd_prefs (set_Pref_region 2))
         (upd_devicestate (upd_my_node (set_MyNodeInfo_region "1.0-EU433"))
                          (bootState demo_hw))).
Proof.
  apply (convertLegacyRegion_converts legacy_build
           (upd_devicestate (upd_my_node (set_MyNodeInfo_region "1.0-EU433"))
                            (bootState demo_hw)) "EU433" 2).
  - reflexivity.
  - reflexivity.
  - reflexivity.
Defined.
